(** * BoutonCount: a shallow embedding of [BoutonCount.py]

    The development follows the source file top to bottom:
    numeric types of numpy ([float32], [float64], [int16], [uint8]),
    two-dimensional arrays with numpy's slicing and broadcasting rules,
    the proposal stage ([detect_local_minima],
    [local_minima_generate_points]), the renderers ([CreatePNG],
    [CreateSVG]), the text table ([numpy.savetxt] / [numpy.loadtxt]) and
    the section pipeline ([count_section], [count_brain]) over a small
    model of the directory tree. *)

From Stdlib Require Import ZArith Zpower List Bool Lia String Ascii SpecFloat.
From Stdlib Require Import Decimal DecimalPos DecimalString.
Import ListNotations.

Set Warnings "-register-all".

Set Implicit Arguments.

(** ** Python exceptions and results *)

Inductive exn : Type :=
| ValueError
| IndexError
| AssertionError
| TypeError
| OSError
| OverflowError.

Inductive result (A : Type) : Type :=
| Ok (a : A)
| Raise (e : exn).

Arguments Ok {A} a.
Arguments Raise {A} e.

Definition bind {A B : Type} (m : result A) (k : A -> result B) : result B :=
  match m with
  | Ok a => k a
  | Raise e => Raise e
  end.

Declare Scope py_scope.
Delimit Scope py_scope with py.
Notation "x <- m ;; k" := (bind m (fun x => k))
  (at level 61, m at next level, right associativity) : py_scope.
Notation "' p <- m ;; k" := (bind m (fun p => k))
  (at level 61, p pattern, m at next level, right associativity) : py_scope.
Open Scope py_scope.

Fixpoint mapM {A B : Type} (f : A -> result B) (l : list A) : result (list B) :=
  match l with
  | [] => Ok []
  | a :: l' =>
      b <- f a ;;
      bs <- mapM f l' ;;
      Ok (b :: bs)
  end.

(** ** IEEE 754 numbers

    [numpy.float32] and [numpy.float64] values are [spec_float]s operated
    with the Standard Library's specification of IEEE 754 arithmetic at
    precision 24 and 53 (round to nearest, ties to even). *)

Module F32.
Definition prec : Z := 24.
Definition emax : Z := 128.
Definition of_Z (z : Z) : spec_float := binary_normalize prec emax z 0 false.
Definition sub : spec_float -> spec_float -> spec_float := SFsub prec emax.
Definition mul : spec_float -> spec_float -> spec_float := SFmul prec emax.
Definition div : spec_float -> spec_float -> spec_float := SFdiv prec emax.
Definition eqb : spec_float -> spec_float -> bool := SFeqb.
Definition ltb : spec_float -> spec_float -> bool := SFltb.
  (** the C conversion [(float) d] of a double *)
Definition of_double (d : spec_float) : spec_float :=
    match d with
    | S754_finite s m e => binary_round prec emax s m e
    | _ => d
    end.
End F32.

Module F64.
Definition prec : Z := 53.
Definition emax : Z := 1024.
Definition of_Z (z : Z) : spec_float := binary_normalize prec emax z 0 false.
Definition mul : spec_float -> spec_float -> spec_float := SFmul prec emax.
Definition div : spec_float -> spec_float -> spec_float := SFdiv prec emax.
  (** a Python literal [p/q] with small [p], [q]: the double nearest to the
      quotient, which is what correctly rounded division returns *)
Definition literal (p q : Z) : spec_float := div (of_Z p) (of_Z q).
End F64.

(** A Python [float] that meets a [float32] array in a binary operation is
    converted to [float32] first. *)
Definition py_float_as_float32 (d : spec_float) : spec_float := F32.of_double d.

(** Truncation toward zero of a finite float; [None] for NaN and the
    infinities. *)
Definition float_trunc (f : spec_float) : option Z :=
  match f with
  | S754_zero _ => Some 0%Z
  | S754_finite s m e =>
      let a := match e with
               | Zneg p => Z.shiftr (Zpos m) (Zpos p)
               | _ => Z.shiftl (Zpos m) e
               end in
      Some (if s then Z.opp a else a)
  | _ => None
  end.

(** [astype(np.uint8)] and [astype(np.int16)] of a float: truncation, then
    the low bits.  C leaves the conversion of NaN, of the infinities and of
    out-of-range values undefined; x86-64 builds of numpy store 0 for the
    first two, which is what is written here.  For [int16] they convert
    through a 32-bit integer, so that a value outside the 32-bit range is
    stored as 0 as well. *)
Definition float_as_uint8 (f : spec_float) : Z :=
  match float_trunc f with
  | Some z => Z.modulo z 256
  | None => 0%Z
  end.

Definition wrap_int16 (z : Z) : Z := ((z + 32768) mod 65536 - 32768)%Z.

Definition float_as_int16 (f : spec_float) : Z :=
  match float_trunc f with
  | Some z => if (- 2 ^ 31 <=? z)%Z && (z <? 2 ^ 31)%Z then wrap_int16 z else 0%Z
  | None => 0%Z
  end.

(** ** Two-dimensional numpy arrays *)

Record array2 (A : Type) : Type := mk_array2 {
  shape0 : nat;
  shape1 : nat;
  item : nat -> nat -> A
}.

Arguments mk_array2 {A} shape0 shape1 item.

Definition same_shape {A B : Type} (a : array2 A) (b : array2 B) : Prop :=
  shape0 a = shape0 b /\ shape1 a = shape1 b.

Definition amap {A B : Type} (f : A -> B) (a : array2 A) : array2 B :=
  mk_array2 (shape0 a) (shape1 a) (fun i j => f (item a i j)).

(** An array given by its rows (for concrete inputs). *)
Definition of_rows {A : Type} (d : A) (rows : list (list A)) : array2 A :=
  mk_array2 (List.length rows) (List.length (hd [] rows))
            (fun i j => nth j (nth i rows []) d).

(** Row-major index enumeration of an [r] by [c] grid. *)
Definition indices (r c : nat) : list (nat * nat) :=
  list_prod (seq 0 r) (seq 0 c).

Definition to_rows {A : Type} (a : array2 A) : list (list A) :=
  map (fun i => map (fun j => item a i j) (seq 0 (shape1 a))) (seq 0 (shape0 a)).

(** numpy broadcasting of one axis: equal extents, or one of them is 1. *)
Definition broadcast_dim (a b : nat) : result nat :=
  if Nat.eqb a b then Ok a
  else if Nat.eqb a 1 then Ok b
  else if Nat.eqb b 1 then Ok a
  else Raise ValueError.

Definition bidx (extent i : nat) : nat := if Nat.eqb extent 1 then 0 else i.

(** An elementwise binary operation [f(a, b)] of numpy. *)
Definition broadcast2 {A B C : Type} (f : A -> B -> C)
    (a : array2 A) (b : array2 B) : result (array2 C) :=
  r <- broadcast_dim (shape0 a) (shape0 b) ;;
  c <- broadcast_dim (shape1 a) (shape1 b) ;;
  Ok (mk_array2 r c (fun i j =>
        f (item a (bidx (shape0 a) i) (bidx (shape1 a) j))
          (item b (bidx (shape0 b) i) (bidx (shape1 b) j)))).

(** Python slice bounds on an axis of extent [n]: a negative bound counts
    from the end, and both bounds are clipped to [0, n]. *)
Definition py_clip (n : nat) (k : Z) : nat :=
  if (k <? 0)%Z then Z.to_nat (Z.max 0 (k + Z.of_nat n))
  else Nat.min (Z.to_nat k) n.

Definition py_slice (n : nat) (start stop : option Z) : nat * nat :=
  (match start with None => 0 | Some k => py_clip n k end,
   match stop with None => n | Some k => py_clip n k end).

Definition in_slice (s : nat * nat) (i : nat) : bool :=
  Nat.leb (fst s) i && Nat.ltb i (snd s).

Definition slice_len (s : nat * nat) : nat := snd s - fst s.

(** [a[r0:r1, c0:c1]] *)
Definition slice2 {A : Type} (a : array2 A) (rs cs : nat * nat) : array2 A :=
  mk_array2 (slice_len rs) (slice_len cs)
            (fun i j => item a (fst rs + i) (fst cs + j)).

(** [a[r0:r1, :] = v] and [a[:, c0:c1] = v] *)
Definition set_rows {A : Type} (a : array2 A) (rs : nat * nat) (v : A) : array2 A :=
  mk_array2 (shape0 a) (shape1 a)
            (fun i j => if in_slice rs i then v else item a i j).

Definition set_cols {A : Type} (a : array2 A) (cs : nat * nat) (v : A) : array2 A :=
  mk_array2 (shape0 a) (shape1 a)
            (fun i j => if in_slice cs j then v else item a i j).

(** [np.where(x)] of a boolean array, as the list of its index pairs: the
    rows of [np.array(np.where(x)).T]. *)
Definition np_where (x : array2 bool) : list (nat * nat) :=
  filter (fun p => item x (fst p) (snd p)) (indices (shape0 x) (shape1 x)).

(** Assignment of a 2-D value into a [(n, m)] destination
    ([X[i, :, :, 0] = value]): the value is broadcast to the destination's
    shape, or numpy raises. *)
Definition broadcast_to {A : Type} (n m : nat) (v : array2 A) : result (array2 A) :=
  if (Nat.eqb (shape0 v) n || Nat.eqb (shape0 v) 1) &&
     (Nat.eqb (shape1 v) m || Nat.eqb (shape1 v) 1)
  then Ok (mk_array2 n m (fun i j => item v (bidx (shape0 v) i) (bidx (shape1 v) j)))
  else Raise ValueError.

(** ** The proposal stage *)

Section Proposal.

  (** [from Constants import SIZE, RADIUS]: the module is not part of the
      sources at hand, so both constants are parameters. *)
Variables SIZE RADIUS : nat.

  (** The three [scipy.ndimage] filters are library code.  Each returns an
      array of the shape of its input; the parameter gives the value it
      computes at one pixel. *)
Variable gaussian_filter_at : array2 spec_float -> nat -> nat -> nat -> spec_float.
Variable grey_dilation_at : array2 spec_float -> nat * nat -> nat -> nat -> spec_float.
Variable grey_erosion_at : array2 spec_float -> nat * nat -> nat -> nat -> spec_float.

Definition gaussian_filter (a : array2 spec_float) (sigma : nat) : array2 spec_float :=
    mk_array2 (shape0 a) (shape1 a) (gaussian_filter_at a sigma).

Definition grey_dilation (a : array2 spec_float) (size : nat * nat) : array2 spec_float :=
    mk_array2 (shape0 a) (shape1 a) (grey_dilation_at a size).

Definition grey_erosion (a : array2 spec_float) (size : nat * nat) : array2 spec_float :=
    mk_array2 (shape0 a) (shape1 a) (grey_erosion_at a size).

  (** The literal [.01] of line 105, as the [float32] it is used as. *)
Definition tolerance : spec_float := py_float_as_float32 (F64.literal 1 100).

Definition detect_local_minima (arr : array2 spec_float)
      (mask : option (array2 bool)) : result (list (nat * nat)) :=
    let scale := 4 in
    let dilated := grey_dilation arr (scale, scale) in
    let eroded := grey_erosion arr (scale, scale) in
    x1 <- broadcast2 F32.eqb arr eroded ;;
    x2 <- broadcast2 F32.ltb arr (amap (fun d => F32.sub d tolerance) dilated) ;;
    x <- broadcast2 andb x1 x2 ;;
    x <- match mask with
         | Some m => broadcast2 andb x m
         | None => Ok x
         end ;;
    let x := set_rows x (py_slice (shape0 x) None (Some (Z.of_nat RADIUS))) false in
    let x := set_rows x (py_slice (shape0 x) (Some (- Z.of_nat RADIUS)%Z) None) false in
    let x := set_cols x (py_slice (shape1 x) None (Some (Z.of_nat RADIUS))) false in
    let x := set_cols x (py_slice (shape1 x) (Some (- Z.of_nat RADIUS)%Z) None) false in
    Ok (np_where x).

  (** The patch [arr[x - RADIUS:x + RADIUS, y - RADIUS:y + RADIUS]]. *)
Definition patch_slice (arr : array2 Z) (p : nat * nat) : array2 Z :=
    let x := Z.of_nat (fst p) in
    let y := Z.of_nat (snd p) in
    let r := Z.of_nat RADIUS in
    slice2 arr (py_slice (shape0 arr) (Some (x - r)%Z) (Some (x + r)%Z))
               (py_slice (shape1 arr) (Some (y - r)%Z) (Some (y + r)%Z)).

Definition extract_patch (arr : array2 Z) (p : nat * nat) : result (array2 spec_float) :=
    broadcast_to SIZE SIZE (amap F32.of_Z (patch_slice arr p)).

Definition local_minima_generate_points (arr : array2 Z)
      (mask : option (array2 bool))
      : result (list (array2 spec_float) * list (nat * nat)) :=
    let float_arr := amap F32.of_Z arr in
    let scale := 1 in
    let fuzzy := gaussian_filter float_arr scale in
    minima <- detect_local_minima fuzzy mask ;;
    if Nat.ltb 0 (List.length minima) then
      X <- mapM (extract_patch arr) minima ;;
      Ok (X, minima)
    else Raise AssertionError.

End Proposal.

(** ** Reductions over an array and image normalization *)

Definition values {A : Type} (a : array2 A) : list A :=
  map (fun p => item a (fst p) (snd p)) (indices (shape0 a) (shape1 a)).

(** [arr.min()] and [arr.max()]: numpy refuses a zero-size array. *)
Definition reduce {A : Type} (f : A -> A -> A) (a : array2 A) : result A :=
  match values a with
  | [] => Raise ValueError
  | v :: vs => Ok (fold_left f vs v)
  end.

Definition is_nan (f : spec_float) : bool :=
  match f with S754_nan => true | _ => false end.

(** numpy's minimum and maximum of two floats (a NaN wins). *)
Definition fmin (a b : spec_float) : spec_float :=
  if is_nan a then a else if is_nan b then b else if SFltb b a then b else a.

Definition fmax (a b : spec_float) : spec_float :=
  if is_nan a then a else if is_nan b then b else if SFltb a b then b else a.

(** The array held by the variable [arr] of [count_section]: [uint8] after
    a normalization, [float32] right after a file was read. *)
Inductive image : Type :=
| U8 (a : array2 Z)
| F32 (a : array2 spec_float).

Definition image_shape (im : image) : nat * nat :=
  match im with
  | U8 a => (shape0 a, shape1 a)
  | F32 a => (shape0 a, shape1 a)
  end.

(** Lines 205-206 and 237-238:
    [arr = (arr - arr.min()) / (arr.max() - arr.min())] followed by
    [arr = (arr * 255).astype(np.uint8)].  On [float32] data every step is
    [float32]; on [uint8] data the subtractions stay [uint8] and the true
    division yields [float64]. *)
Definition normalize_f32 (a : array2 spec_float) : result (array2 Z) :=
  mn <- reduce fmin a ;;
  mx <- reduce fmax a ;;
  let d := F32.sub mx mn in
  let scaled := amap (fun v => F32.div (F32.sub v mn) d) a in
  Ok (amap (fun v => float_as_uint8 (F32.mul v (F32.of_Z 255))) scaled).

Definition normalize_u8 (a : array2 Z) : result (array2 Z) :=
  mn <- reduce Z.min a ;;
  mx <- reduce Z.max a ;;
  let d := ((mx - mn) mod 256)%Z in
  let scaled := amap (fun v => F64.div (F64.of_Z ((v - mn) mod 256)) (F64.of_Z d)) a in
  Ok (amap (fun v => float_as_uint8 (F64.mul v (F64.of_Z 255))) scaled).

Definition normalize (im : image) : result (array2 Z) :=
  match im with
  | F32 a => normalize_f32 a
  | U8 a => normalize_u8 a
  end.

(** ** Files and directories *)

(** What [np.array(Image.open(path))] decodes: a 2-D array of samples or
    a 3-D array with one list of channel samples per pixel.  Decoding
    itself is PIL's. *)
Inductive decoded : Type :=
| Grey (a : array2 Z)
| Channels (a : array2 (list Z)).

Inductive content : Type :=
| Picture (d : decoded)
| Text (s : string).

Inductive node : Type :=
| File (c : content)
| Dir (entries : list (string * node)).

Definition folder : Type := list (string * node).

Fixpoint lookup (name : string) (d : folder) : option node :=
  match d with
  | [] => None
  | (n, x) :: d' => if String.eqb n name then Some x else lookup name d'
  end.

(** [os.path.exists(os.path.join(directory, name))] *)
Definition path_exists (name : string) (d : folder) : bool :=
  match lookup name d with Some _ => true | None => false end.

Fixpoint replace (name : string) (x : node) (d : folder) : folder :=
  match d with
  | [] => [(name, x)]
  | (n, y) :: d' =>
      if String.eqb n name then (n, x) :: d' else (n, y) :: replace name x d'
  end.

(** Opening [name] for writing and storing [c]: the file is created or
    overwritten; a directory of that name makes the call fail. *)
Definition write_file (name : string) (c : content) (d : folder) : result folder :=
  match lookup name d with
  | Some (Dir _) => Raise OSError
  | _ => Ok (replace name (File c) d)
  end.

Definition sum_Z (l : list Z) : Z := fold_left Z.add l 0%Z.

(** [file_to_array(filepath)] with [average=True]. *)
Definition file_to_array (name : string) (d : folder) : result (array2 Z) :=
  match lookup name d with
  | Some (File (Picture (Grey a))) => Ok (amap wrap_int16 a)
  | Some (File (Picture (Channels a))) =>
      let arr := amap sum_Z a in
      mx <- reduce Z.max arr ;;
      let k := F64.div (F64.of_Z 255) (F64.of_Z mx) in
      Ok (amap (fun v => float_as_int16 (F64.mul (F64.of_Z v) k)) arr)
  | _ => Raise OSError
  end.

(** As above for the node itself (a file met by [os.walk]). *)
Definition node_to_array (x : node) : result (array2 Z) :=
  file_to_array "f" [("f"%string, x)].

(** Python's [str.endswith] and [sub in s]. *)
Definition ends_with (suffix s : string) : bool :=
  let n := String.length s in
  let k := String.length suffix in
  Nat.leb k n && String.eqb (substring (n - k) k s) suffix.

Definition contains (sub s : string) : bool :=
  match index 0 sub s with Some _ => true | None => false end.

Fixpoint insert_sorted (s : string) (l : list string) : list string :=
  match l with
  | [] => [s]
  | t :: l' => if String.leb s t then s :: l else t :: insert_sorted s l'
  end.

(** [sorted(names)] *)
Definition sorted (l : list string) : list string :=
  fold_right insert_sorted [] l.

Definition is_file (x : node) : bool :=
  match x with File _ => true | Dir _ => false end.

Definition is_dir (x : node) : bool := negb (is_file x).

(** The files that [os.walk(directory, topdown=False)] yields, in the
    order of the loop of lines 215-218: the files of the subdirectories
    first, the files of the directory itself last. *)
Definition files_of (d : list (string * node)) : list (string * node) :=
  filter (fun e => is_file (snd e)) d.

Fixpoint walk_node (x : node) : list (string * node) :=
  match x with
  | File _ => []
  | Dir es =>
      (fix subdirs (l : list (string * node)) : list (string * node) :=
         match l with
         | [] => []
         | (_, y) :: l' => walk_node y ++ subdirs l'
         end) es ++ files_of es
  end.

Definition walk_files (d : folder) : list (string * node) := walk_node (Dir d).

(** [np.concatenate(arrs, axis)] of a non-empty list of 2-D arrays. *)
Definition concat_cols {A : Type} (a b : array2 A) : result (array2 A) :=
  if Nat.eqb (shape0 a) (shape0 b)
  then Ok (mk_array2 (shape0 a) (shape1 a + shape1 b)
             (fun i j => if Nat.ltb j (shape1 a) then item a i j
                         else item b i (j - shape1 a)))
  else Raise ValueError.

Definition concat_rows {A : Type} (a b : array2 A) : result (array2 A) :=
  if Nat.eqb (shape1 a) (shape1 b)
  then Ok (mk_array2 (shape0 a + shape0 b) (shape1 a)
             (fun i j => if Nat.ltb i (shape0 a) then item a i j
                         else item b (i - shape0 a) j))
  else Raise ValueError.

Fixpoint concat_onto {A : Type} (f : array2 A -> array2 A -> result (array2 A))
    (acc : array2 A) (l : list (array2 A)) : result (array2 A) :=
  match l with
  | [] => Ok acc
  | b :: l' => acc' <- f acc b ;; concat_onto f acc' l'
  end.

Definition concatenate {A : Type} (arrs : list (array2 A)) (axis : nat) : result (array2 A) :=
  match arrs with
  | [] => Raise ValueError
  | a :: l => concat_onto (if Nat.eqb axis 0 then concat_rows else concat_cols) a l
  end.

(** ** Integer tables: the arrays [COMs] and [true_cells] *)

Inductive dtype : Type := Int16 | Int64.

Definition wrap (dt : dtype) (z : Z) : Z :=
  match dt with
  | Int16 => wrap_int16 z
  | Int64 => ((z + 2 ^ 63) mod 2 ^ 64 - 2 ^ 63)%Z
  end.

(** An integer array of dimension 0, 1 or 2. *)
Inductive nd : Type :=
| Arr0 (v : Z)
| Arr1 (l : list Z)
| Arr2 (rows : list (list Z)).

Record int_array : Type := mk_int_array { dt : dtype; data : nd }.

(** [a.shape[0]] *)
Definition nd_shape0 (a : nd) : result nat :=
  match a with
  | Arr0 _ => Raise IndexError
  | Arr1 l => Ok (List.length l)
  | Arr2 rows => Ok (List.length rows)
  end.

(** [a[i, k]] for [i], [k] that are not negative *)
Definition nd_item2 (a : nd) (i k : nat) : result Z :=
  match a with
  | Arr2 rows =>
      match nth_error rows i with
      | Some row =>
          match nth_error row k with
          | Some v => Ok v
          | None => Raise IndexError
          end
      | None => Raise IndexError
      end
  | _ => Raise IndexError
  end.

(** The rows of [np.array(np.where(x)).T], an [int64] table. *)
Definition table_of_points (l : list (nat * nat)) : int_array :=
  mk_int_array Int64 (Arr2 (map (fun p => [Z.of_nat (fst p); Z.of_nat (snd p)]) l)).

(** ** Decimal text *)

(** [str(n)] of an integer *)
Definition str_of_Z (z : Z) : string :=
  DecimalString.NilZero.string_of_int (Z.to_int z).

Definition dq : string := String (ascii_of_nat 34) EmptyString.
Definition nl : string := String (ascii_of_nat 10) EmptyString.

Fixpoint pad_right (n : nat) (s : string) : string :=
  match n with
  | O => EmptyString
  | S n' =>
      match s with
      | EmptyString => String "0" (pad_right n' EmptyString)
      | String c s' => String c (pad_right n' s')
      end
  end.

(** ['%.18e' % v] for an integer [v]: the value goes through a double,
    whose decimal expansion has at most 19 digits below 10^19 (every
    [int64]) and is then printed without loss. *)
Definition fmt_18e (z : Z) : string :=
  let v := match float_trunc (F64.of_Z z) with Some v => v | None => z end in
  let s := str_of_Z (Z.abs v) in
  let sign := if (v <? 0)%Z then "-"%string else EmptyString in
  let e := str_of_Z (Z.of_nat (String.length s - 1)) in
  let e2 := if Nat.ltb (String.length e) 2 then ("0" ++ e)%string else e in
  match s with
  | EmptyString => EmptyString
  | String lead rest =>
      (sign ++ String lead "." ++ pad_right 18 rest ++ "e+" ++ e2)%string
  end.

(** [np.savetxt(path, a, delimiter=",")]: the default format ['%.18e'],
    one line per row; a 1-D array is written as a column. *)
Definition savetxt_row (row : list Z) : string :=
  (String.concat "," (map fmt_18e row) ++ nl)%string.

Definition savetxt (a : nd) : result string :=
  match a with
  | Arr0 _ => Raise ValueError
  | Arr1 l => Ok (String.concat EmptyString (map (fun v => savetxt_row [v]) l))
  | Arr2 rows => Ok (String.concat EmptyString (map savetxt_row rows))
  end.

(** Splitting a string at a separator character ([str.split]). *)
Fixpoint split_on (sep : ascii) (s : string) : list string :=
  match s with
  | EmptyString => [EmptyString]
  | String c s' =>
      match split_on sep s' with
      | [] => [EmptyString]
      | w :: ws => if Ascii.eqb c sep then EmptyString :: w :: ws
                   else String c w :: ws
      end
  end.

Definition digit_of (c : ascii) : option Z :=
  let n := nat_of_ascii c in
  if Nat.leb 48 n && Nat.leb n 57 then Some (Z.of_nat (n - 48)) else None.

Definition is_digit_char (c : ascii) : bool :=
  match digit_of c with Some _ => true | None => false end.

(** Reads a run of decimal digits: the number read so far, how many
    digits were read, and the rest.  With [underscores], one underscore
    may stand between two digits, as in a Python numeral. *)
Fixpoint read_digits (underscores : bool) (s : string) (acc : Z) (count : nat)
    : Z * nat * string :=
  match s with
  | EmptyString => (acc, count, s)
  | String c s' =>
      match digit_of c with
      | Some d => read_digits underscores s' (acc * 10 + d)%Z (S count)
      | None =>
          match s' with
          | String c' _ =>
              if underscores && Ascii.eqb c "_" && Nat.ltb 0 count && is_digit_char c'
              then read_digits underscores s' acc count
              else (acc, count, s)
          | EmptyString => (acc, count, s)
          end
      end
  end.

Definition read_sign (s : string) : bool * string :=
  match s with
  | String "-" s' => (true, s')
  | String "+" s' => (false, s')
  | _ => (false, s)
  end.

(** A decimal numeral [[sign] digits [. digits] [e [sign] digits]] as a
    pair [(m, e)] standing for [m * 10^e]. *)
Definition parse_decimal (s : string) : result (Z * Z) :=
  let '(neg, s1) := read_sign s in
  let '(ip, n1, s2) := read_digits true s1 0%Z 0 in
  let '(m, n2, s3) :=
    match s2 with
    | String "." s' => read_digits true s' ip 0
    | _ => (ip, 0, s2)
    end in
  if Nat.eqb (n1 + n2) 0 then Raise ValueError else
  let m := if neg then Z.opp m else m in
  match s3 with
  | EmptyString => Ok (m, - Z.of_nat n2)%Z
  | String c s4 =>
      if Ascii.eqb c "e" || Ascii.eqb c "E" then
        let '(eneg, s5) := read_sign s4 in
        let '(ev, n3, s6) := read_digits true s5 0%Z 0 in
        if Nat.eqb n3 0 then Raise ValueError else
        match s6 with
        | EmptyString => Ok (m, (if eneg then - ev else ev) - Z.of_nat n2)%Z
        | _ => Raise ValueError
        end
      else Raise ValueError
  end.

(** An integer as a float that is exact and not normalized. *)
Definition exact_Z (z : Z) : spec_float :=
  match z with
  | Z0 => S754_zero false
  | Zpos p => S754_finite false p 0
  | Zneg p => S754_finite true p 0
  end.

(** The double nearest to [m * 10^e], which is what [float(text)]
    returns for the numeral: an integer is rounded as it is, a quotient
    is rounded once. *)
Definition double_of_decimal (me : Z * Z) : spec_float :=
  let '(m, e) := me in
  if (0 <=? e)%Z then F64.of_Z (m * 10 ^ e)
  else if (m mod 10 ^ (- e) =? 0)%Z then F64.of_Z (m / 10 ^ (- e))
  else SFdiv F64.prec F64.emax (exact_Z m) (exact_Z (10 ^ (- e))).

(** Python's white space among the characters of a decoded byte. *)
Definition is_space (c : ascii) : bool :=
  let n := nat_of_ascii c in
  (Nat.leb 9 n && Nat.leb n 13) || (Nat.leb 28 n && Nat.leb n 32)
  || Nat.eqb n 133 || Nat.eqb n 160.

Fixpoint lstrip (f : ascii -> bool) (s : string) : string :=
  match s with
  | String c s' => if f c then lstrip f s' else s
  | EmptyString => s
  end.

Fixpoint rstrip (f : ascii -> bool) (s : string) : string :=
  match s with
  | EmptyString => EmptyString
  | String c s' =>
      match rstrip f s' with
      | EmptyString => if f c then EmptyString else String c EmptyString
      | r => String c r
      end
  end.

(** [s.strip()] and [s.strip(chars)] *)
Definition strip (f : ascii -> bool) (s : string) : string := rstrip f (lstrip f s).

Definition lower_char (c : ascii) : ascii :=
  let n := nat_of_ascii c in
  if Nat.leb 65 n && Nat.leb n 90 then ascii_of_nat (n + 32) else c.

Fixpoint lower (s : string) : string :=
  match s with
  | EmptyString => EmptyString
  | String c s' => String (lower_char c) (lower s')
  end.

(** [float(text)]: white space around the numeral is dropped; the
    numeral is decimal, or an infinity or a NaN by name. *)
Definition py_float (text : string) : result spec_float :=
  let t := strip is_space text in
  let '(neg, body) := read_sign t in
  let w := lower body in
  if String.eqb w "inf" || String.eqb w "infinity" then Ok (S754_infinity neg)
  else if String.eqb w "nan" then Ok S754_nan
  else me <- parse_decimal t ;; Ok (double_of_decimal me).

Definition hex_digit_of (c : ascii) : option Z :=
  let n := nat_of_ascii c in
  if Nat.leb 48 n && Nat.leb n 57 then Some (Z.of_nat (n - 48))
  else if Nat.leb 97 n && Nat.leb n 102 then Some (Z.of_nat (n - 87))
  else if Nat.leb 65 n && Nat.leb n 70 then Some (Z.of_nat (n - 55))
  else None.

Fixpoint read_hex_digits (s : string) (acc : Z) (count : nat) : Z * nat * string :=
  match s with
  | EmptyString => (acc, count, s)
  | String c s' =>
      match hex_digit_of c with
      | Some d => read_hex_digits s' (acc * 16 + d)%Z (S count)
      | None => (acc, count, s)
      end
  end.

(** [float.fromhex(text)] for a numeral
    [[sign] [0x] hexdigits [. hexdigits] [p [sign] digits]]: the value
    [m * 2^e] is rounded once; a value too large for a double raises
    [OverflowError]. *)
Definition fromhex (text : string) : result spec_float :=
  let t := strip is_space text in
  let '(neg, s1) := read_sign t in
  let s2 := match s1 with
            | String "0" (String x s') =>
                if Ascii.eqb x "x" || Ascii.eqb x "X" then s' else s1
            | _ => s1
            end in
  let '(ip, n1, s3) := read_hex_digits s2 0%Z 0 in
  let '(m, n2, s4) :=
    match s3 with
    | String "." s' => read_hex_digits s' ip 0
    | _ => (ip, 0, s3)
    end in
  if Nat.eqb (n1 + n2) 0 then Raise ValueError else
  e <- match s4 with
       | EmptyString => Ok (- 4 * Z.of_nat n2)%Z
       | String c s5 =>
           if Ascii.eqb c "p" || Ascii.eqb c "P" then
             let '(eneg, s6) := read_sign s5 in
             let '(ev, n3, s7) := read_digits false s6 0%Z 0 in
             if Nat.eqb n3 0 then Raise ValueError else
             match s7 with
             | EmptyString => Ok ((if eneg then - ev else ev) - 4 * Z.of_nat n2)%Z
             | _ => Raise ValueError
             end
           else Raise ValueError
       end ;;
  match binary_normalize F64.prec F64.emax (if neg then - m else m) e neg with
  | S754_infinity _ => Raise OverflowError
  | f => Ok f
  end.

(** The converter that [np.loadtxt] of numpy 1.20 applies to a field of
    a [float] table: [float.fromhex] when the field holds ["0x"], [float]
    otherwise. *)
Definition floatconv (x : string) : result spec_float :=
  if contains "0x" x then fromhex x else py_float x.

(** Reading a file in text mode turns [\r\n] and a lone [\r] into [\n]. *)
Fixpoint universal_newlines (s : string) : string :=
  match s with
  | EmptyString => EmptyString
  | String c s' =>
      if Ascii.eqb c (ascii_of_nat 13) then
        String (ascii_of_nat 10)
          match s' with
          | String c' s'' =>
              if Ascii.eqb c' (ascii_of_nat 10) then universal_newlines s''
              else universal_newlines s'
          | EmptyString => EmptyString
          end
      else String c (universal_newlines s')
  end.

(** The text of a line before its first [#]. *)
Fixpoint before_comment (s : string) : string :=
  match s with
  | EmptyString => EmptyString
  | String c s' => if Ascii.eqb c "#" then EmptyString else String c (before_comment s')
  end.

Definition is_newline (c : ascii) : bool :=
  Ascii.eqb c (ascii_of_nat 10) || Ascii.eqb c (ascii_of_nat 13).

(** The fields of the lines of a table: a comment is cut off, line ends
    are stripped, and a line that is empty then is skipped. *)
Definition loadtxt_lines (text : string) : list (list string) :=
  map (split_on ",")
      (filter (fun l => negb (String.eqb l EmptyString))
              (map (fun l => strip is_newline (before_comment l))
                   (split_on (ascii_of_nat 10) (universal_newlines text)))).

(** The rows are read one after the other: a row must have as many
    fields as the first one, then its fields are converted from left to
    right. *)
Definition loadtxt_rows (lines : list (list string)) : result (list (list spec_float)) :=
  match lines with
  | [] => Ok []
  | first :: _ =>
      mapM (fun vals =>
              if Nat.eqb (List.length vals) (List.length first)
              then mapM floatconv vals
              else Raise ValueError)
           lines
  end.

(** [np.loadtxt(path, delimiter=",").astype(np.int16)]: the result is
    squeezed, so that a single row or a single column comes back as a 1-D
    array and a single number as a 0-D array. *)
Definition loadtxt_int16 (text : string) : result int_array :=
  rows <- loadtxt_rows (loadtxt_lines text) ;;
  let rows := map (map float_as_int16) rows in
  match rows with
  | [] => Ok (mk_int_array Int16 (Arr1 []))
  | r :: rows' =>
      match r, rows' with
      | [v], [] => Ok (mk_int_array Int16 (Arr0 v))
      | _, [] => Ok (mk_int_array Int16 (Arr1 r))
      | [_], _ => Ok (mk_int_array Int16 (Arr1 (map (hd 0%Z) rows)))
      | _, _ => Ok (mk_int_array Int16 (Arr2 rows))
      end
  end.

(** ** Renderers *)

Definition catch_ValueError {A : Type} (r : result A) (otherwise : A) : result A :=
  match r with
  | Raise ValueError => Ok otherwise
  | _ => r
  end.

(** [for e in l: s = body(e, s)] and [for i in range(n): ...] *)
Fixpoint for_each {E S : Type} (body : E -> S -> result S) (l : list E) (s : S) : result S :=
  match l with
  | [] => Ok s
  | e :: l' => s' <- body e s ;; for_each body l' s'
  end.

Definition for_range {S : Type} (n : nat) (body : nat -> S -> result S) (s : S) : result S :=
  for_each body (seq 0 n) s.

(** [a[rs, cs] = v] *)
Definition assign_slice {A : Type} (a : array2 A) (rs cs : nat * nat) (v : array2 A)
    : result (array2 A) :=
  v' <- broadcast_to (slice_len rs) (slice_len cs) v ;;
  Ok (mk_array2 (shape0 a) (shape1 a)
        (fun i j => if in_slice rs i && in_slice cs j
                    then item v' (i - fst rs) (j - fst cs)
                    else item a i j)).

Record CreatePNG : Type := mk_CreatePNG {
  output_name : string;
  arr : array2 bool;
  radius : nat;
  symbol_shape : array2 bool
}.

(** [CreatePNG.__init__]; [count_section] always passes [downscale=1]. *)
Definition CreatePNG_init (output_bouton_png_name : string)
    (artboard_size_xy : nat * nat) : CreatePNG :=
  let radius := 3 in
  let r := Z.of_nat radius in
  mk_CreatePNG output_bouton_png_name
    (mk_array2 (fst artboard_size_xy) (snd artboard_size_xy) (fun _ _ => false))
    radius
    (mk_array2 (radius * 2 + 1) (radius * 2 + 1)
       (fun x y => ((Z.of_nat x - r) ^ 2 + (Z.of_nat y - r) ^ 2 <=? r ^ 2)%Z)).

(** [CreatePNG.add_symbol]; the coordinates are numpy integers ([int64]
    from [np.where], [int16] from the table on disk).  Under numpy 1.x,
    which the source names, a numpy integer and a Python [int] combine to
    an [int64], whatever the integer's own type: [x - self.radius] and
    [x + self.radius + 1] are computed in 64 bits. *)
Definition CreatePNG_add_symbol (self : CreatePNG)
    (location_xy : Z * Z) : result CreatePNG :=
  let y := fst location_xy in
  let x := snd location_xy in
  let r := Z.of_nat (radius self) in
  let rs := py_slice (shape0 (arr self))
              (Some (wrap Int64 (x - r))) (Some (wrap Int64 (wrap Int64 (x + r) + 1))) in
  let cs := py_slice (shape1 (arr self))
              (Some (wrap Int64 (y - r))) (Some (wrap Int64 (wrap Int64 (y + r) + 1))) in
  catch_ValueError
    (v <- broadcast2 orb (slice2 (arr self) rs cs) (symbol_shape self) ;;
     a <- assign_slice (arr self) rs cs v ;;
     Ok (mk_CreatePNG (output_name self) a (radius self) (symbol_shape self)))
    self.

(** The RGBA array saved by [CreatePNG.output]; resizing by the factor 1
    with [Image.NEAREST] keeps every pixel. *)
Definition CreatePNG_image (color : Z * Z * Z) (self : CreatePNG) : array2 (list Z) :=
  let '(c0, c1, c2) := color in
  mk_array2 (shape0 (arr self)) (shape1 (arr self))
    (fun i j => [(c0 mod 256)%Z; (c1 mod 256)%Z; (c2 mod 256)%Z;
                 if item (arr self) i j then 255%Z else 0%Z]).

Definition CreatePNG_output (color : Z * Z * Z) (self : CreatePNG) (d : folder)
    : result folder :=
  write_file (output_name self) (Picture (Channels (CreatePNG_image color self))) d.

Record CreateSVG : Type := mk_CreateSVG {
  output_svgname : string;
  strings : list string
}.

Definition CreateSVG_init (output_svgname : string) (artboard_size_xy : nat * nat)
    : CreateSVG :=
  let x := snd artboard_size_xy in
  let y := fst artboard_size_xy in
  mk_CreateSVG output_svgname
    [("<svg id=" ++ dq ++ "_Boutons" ++ dq ++ " data-name=" ++ dq ++ "Boutons" ++ dq
      ++ " xmlns=" ++ dq ++ "http://www.w3.org/2000/svg" ++ dq
      ++ " viewBox=" ++ dq ++ "0 0 " ++ str_of_Z (Z.of_nat x) ++ " "
      ++ str_of_Z (Z.of_nat y) ++ dq
      ++ "><defs><style>.cls-1{fill:black;stroke:black;}</style></defs>")%string].

Definition circle (cx cy : Z) : string :=
  ("<circle class=" ++ dq ++ "cls-1" ++ dq ++ " cx=" ++ dq ++ str_of_Z cx ++ dq
   ++ " cy=" ++ dq ++ str_of_Z cy ++ dq ++ " r=" ++ dq ++ "1" ++ dq ++ "/>")%string.

Definition CreateSVG_add_symbol (self : CreateSVG) (location_xy : Z * Z) : CreateSVG :=
  mk_CreateSVG (output_svgname self)
    (strings self ++ [circle (fst location_xy) (snd location_xy)]).

(** The text written by [CreateSVG.output]. *)
Definition CreateSVG_document (self : CreateSVG) : string :=
  String.concat EmptyString (strings self ++ ["</svg>"%string]).

Definition CreateSVG_output (self : CreateSVG) (d : folder) : result folder :=
  write_file (output_svgname self) (Text (CreateSVG_document self)) d.

(** ** The section pipeline *)

Record OutputFileType : Type := mk_OutputFileType {
  svg : bool;
  csv : bool;
  png : bool
}.

Definition any (self : OutputFileType) : bool := svg self || csv self || png self.

(** [generate_border_and_mask(mask_file_path)] for a path that is given;
    the border, its second result, is dropped by the only caller. *)
Definition generate_border_and_mask (mask_file_path : string) (d : folder)
    : result (array2 bool) :=
  mask <- file_to_array mask_file_path d ;;
  Ok (amap (fun v => (128 <? v)%Z) mask).

(** The literal [0.80] of line 277, as the [float32] it is compared in
    ([model.predict] returns [float32] scores). *)
Definition threshold : spec_float := py_float_as_float32 (F64.literal 8 10).

Fixpoint select_rows {A : Type} (rows : list A) (keep : list bool) : list A :=
  match rows, keep with
  | r :: rows', k :: keep' => if k then r :: select_rows rows' keep' else select_rows rows' keep'
  | _, _ => []
  end.

(** Line 277: [COMs[output[:, 0] > 0.80, :]]. *)
Definition accepted (COMs : list (nat * nat)) (output : array2 spec_float)
    : result (list (nat * nat)) :=
  if Nat.eqb (shape1 output) 0 then Raise IndexError else
  let keep := map (fun i => F32.ltb threshold (item output i 0)) (seq 0 (shape0 output)) in
  if Nat.eqb (List.length keep) (List.length COMs)
  then Ok (select_rows COMs keep)
  else Raise IndexError.

(** The classifier: [model.predict] on the batch of patches. *)
Definition classifier : Type := list (array2 spec_float) -> array2 spec_float.

(** What a run can observe and change: the section's directory and the
    batches handed to the classifier so far. *)
Definition batches : Type := list (list (array2 spec_float)).

Inductive loaded : Type :=
| NoImages                        (* the [return] of line 230 *)
| Loaded (arr : option image).

Definition is_tile (e : string * node) : bool :=
  let f := fst e in
  is_file (snd e) && (ends_with ".tif" f || ends_with "png" f)
  && (contains "ome" f || contains "IMAGE" f).

(** Lines 199-230: the loop over [Image.<extension>] and its [else]
    clause, which runs every time since the loop has no [break]. *)
Definition read_images (d : folder) : result loaded :=
  arr <- for_each
           (fun extension arr =>
              let image := ("Image." ++ extension)%string in
              if path_exists image d then
                a <- file_to_array image d ;;
                u <- normalize (F32 (amap F32.of_Z a)) ;;
                Ok (Some (U8 u))
              else Ok arr)
           ["png"; "jpg"; "tif"]%string None ;;
  let files := filter (fun f => match lookup f d with
                                | Some x => is_tile (f, x)
                                | None => false
                                end)
                      (sorted (map fst d)) in
  match files with
  | [] =>
      arr <- for_each
               (fun e arr =>
                  if ends_with ".tif" (fst e) then
                    a <- node_to_array (snd e) ;;
                    Ok (Some (F32 (amap F32.of_Z a)))
                  else Ok arr)
               (walk_files d) arr ;;
      Ok (Loaded arr)
  | _ :: _ =>
      match mapM (fun f => a <- file_to_array f d ;; Ok (amap F32.of_Z a)) files with
      | Raise OSError => Ok NoImages
      | Raise e => Raise e
      | Ok arrs =>
          match arrs with
          | [] => Raise IndexError
          | a0 :: _ =>
              a <- concatenate arrs (if Nat.ltb (shape1 a0) (shape0 a0) then 1 else 0) ;;
              Ok (Loaded (Some (F32 a)))
          end
      end
  end.

Section Pipeline.

Variables SIZE RADIUS : nat.
Variable gaussian_filter_at : array2 spec_float -> nat -> nat -> nat -> spec_float.
Variable grey_dilation_at : array2 spec_float -> nat * nat -> nat -> nat -> spec_float.
Variable grey_erosion_at : array2 spec_float -> nat * nat -> nat -> nat -> spec_float.
  (** the global [color], of which the renderer reads the first three
      components *)
Variable color : Z * Z * Z.

  (** Lines 199-240: reading, normalizing and saving the section image.
      [None] is the early [return] of line 230. *)
Definition load_stage (d : folder) : result (option (array2 Z)) * folder :=
    match read_images d with
    | Raise e => (Raise e, d)
    | Ok NoImages => (Ok None, d)
    | Ok (Loaded None) => (Raise AssertionError, d)
    | Ok (Loaded (Some im)) =>
        match normalize im with
        | Raise e => (Raise e, d)
        | Ok u =>
            match write_file "Image.png" (Picture (Grey u)) d with
            | Raise e => (Raise e, d)
            | Ok d' => (Ok (Some u), d')
            end
        end
    end.

  (** Lines 260-267: the optional mask.  The [print] of line 265 applies
      [%] to a format without conversion and a string argument, which
      raises [TypeError] before the [return] of line 267 is reached. *)
Definition load_mask (arr : array2 Z) (d : folder) : result (option (array2 bool)) :=
    if path_exists "Mask.png" d then
      mask <- generate_border_and_mask "Mask.png" d ;;
      if Nat.eqb (shape0 arr) (shape0 mask) && Nat.eqb (shape1 arr) (shape1 mask)
      then Ok (Some mask)
      else Raise TypeError
    else Ok None.

  (** Lines 257-277: the accepted candidates, from the table on disk or
      from proposal and classification. *)
Definition candidate_stage (arr : array2 Z) (model : classifier)
      (d : folder) (calls : batches) : result int_array * batches :=
    if path_exists "BoutonCount.csv" d then
      (match lookup "BoutonCount.csv" d with
       | Some (File (Text s)) => loadtxt_int16 s
       | Some (File (Picture _)) => Raise ValueError
       | _ => Raise OSError
       end, calls)
    else
      match (mask <- load_mask arr d ;;
             local_minima_generate_points SIZE RADIUS gaussian_filter_at
               grey_dilation_at grey_erosion_at arr mask) with
      | Raise e => (Raise e, calls)
      | Ok (X, COMs) =>
          let output := model X in
          (true_cells <- accepted COMs output ;; Ok (table_of_points true_cells),
           calls ++ [X])
      end.

Definition render_svg (shape : nat * nat) (true_cells : int_array) (n : nat)
      : result CreateSVG :=
    for_range n
      (fun i svg =>
         a <- nd_item2 (data true_cells) i 1 ;;
         b <- nd_item2 (data true_cells) i 0 ;;
         Ok (CreateSVG_add_symbol svg (a, b)))
      (CreateSVG_init "Boutons.svg" shape).

Definition render_png (shape : nat * nat) (true_cells : int_array) (n : nat)
      : result CreatePNG :=
    for_range n
      (fun i png =>
         a <- nd_item2 (data true_cells) i 1 ;;
         b <- nd_item2 (data true_cells) i 0 ;;
         CreatePNG_add_symbol png (a, b))
      (CreatePNG_init "Boutons.png" shape).

  (** Lines 278-290. *)
Definition output_stage (shape : nat * nat) (true_cells : int_array)
      (oft : OutputFileType) (d : folder) : result unit * folder :=
    match nd_shape0 (data true_cells) with
    | Raise e => (Raise e, d)
    | Ok n =>
        match (if svg oft && negb (path_exists "Boutons.svg" d)
               then s <- render_svg shape true_cells n ;; CreateSVG_output s d
               else Ok d) with
        | Raise e => (Raise e, d)
        | Ok d1 =>
            match (if png oft
                   then p <- render_png shape true_cells n ;; CreatePNG_output color p d1
                   else Ok d1) with
            | Raise e => (Raise e, d1)
            | Ok d2 =>
                match (if csv oft
                       then text <- savetxt (data true_cells) ;;
                            write_file "BoutonCount.csv" (Text text) d2
                       else Ok d2) with
                | Raise e => (Raise e, d2)
                | Ok d3 => (Ok tt, d3)
                end
            end
        end
    end.

  (** [count_section(directory, model, oft)]: the result, the directory
      afterwards and the classifier calls made so far. *)
Definition count_section (directory : folder) (model : classifier)
      (oft : OutputFileType) (calls : batches)
      : result unit * folder * batches :=
    match load_stage directory with
    | (Raise e, d) => (Raise e, d, calls)
    | (Ok None, d) => (Ok tt, d, calls)
    | (Ok (Some arr), d) =>
        if any oft then
          match candidate_stage arr model d calls with
          | (Raise e, calls') => (Raise e, d, calls')
          | (Ok true_cells, calls') =>
              let '(r, d') := output_stage (shape0 arr, shape1 arr) true_cells oft d in
              (r, d', calls')
          end
        else (Ok tt, d, calls)
    end.

  (** [count_brain(brain_directory, model, oft)]: the sections in sorted
      name order; an exception of a section ends the loop. *)
Fixpoint count_sections (names : list string) (brain : folder)
      (model : classifier) (oft : OutputFileType) (calls : batches)
      : result unit * folder * batches :=
    match names with
    | [] => (Ok tt, brain, calls)
    | name :: names' =>
        match lookup name brain with
        | Some (Dir section) =>
            match count_section section model oft calls with
            | (Raise e, section', calls') =>
                (Raise e, replace name (Dir section') brain, calls')
            | (Ok _, section', calls') =>
                count_sections names' (replace name (Dir section') brain) model oft calls'
            end
        | _ => count_sections names' brain model oft calls
        end
    end.

Definition count_brain (brain_directory : folder) (model : classifier)
      (oft : OutputFileType) (calls : batches)
      : result unit * folder * batches :=
    count_sections (sorted (map fst brain_directory)) brain_directory model oft calls.

End Pipeline.

(** ** Reference filters for running the model

    The theorems below hold for whatever the three [scipy.ndimage]
    filters compute.  To run the model on concrete arrays, the two
    morphological filters are given here as scipy documents them (a flat
    [size] window, boundary mode [reflect], the window of the dilation
    mirrored), and the smoothing is left out, so that a concrete input of
    the proposal stage is the smoothed array itself. *)
Module Scipy.

  (** index [k] of an axis of extent [n] extended by reflection
      ([d c b a | a b c d | d c b a]) *)
Definition reflect (n : nat) (k : Z) : nat :=
    let m := (k mod (2 * Z.of_nat n))%Z in
    if (m <? Z.of_nat n)%Z then Z.to_nat m else Z.to_nat (2 * Z.of_nat n - 1 - m).

Definition window (a : array2 spec_float) (size : nat * nat) (left0 left1 : Z)
      (i j : nat) : list spec_float :=
    map (fun p => item a
                    (reflect (shape0 a) (Z.of_nat i - left0 + Z.of_nat (fst p)))
                    (reflect (shape1 a) (Z.of_nat j - left1 + Z.of_nat (snd p))))
        (indices (fst size) (snd size)).

Definition grey_erosion_at (a : array2 spec_float) (size : nat * nat)
      (i j : nat) : spec_float :=
    fold_left fmin
      (window a size (Z.of_nat (fst size / 2)) (Z.of_nat (snd size / 2)) i j)
      (item a i j).

Definition grey_dilation_at (a : array2 spec_float) (size : nat * nat)
      (i j : nat) : spec_float :=
    fold_left fmax
      (window a size (Z.of_nat ((fst size - 1) / 2)) (Z.of_nat ((snd size - 1) / 2)) i j)
      (item a i j).

Definition unsmoothed_at (a : array2 spec_float) (sigma i j : nat) : spec_float :=
    item a i j.

End Scipy.

(** ** Vocabulary of the properties *)

(** An inclusion mask fits an image when it has the image's shape. *)
Definition mask_fits {A : Type} (arr : array2 A) (mask : option (array2 bool)) : Prop :=
  match mask with
  | None => True
  | Some m => same_shape arr m
  end.

Definition mask_at (mask : option (array2 bool)) (p : nat * nat) : bool :=
  match mask with
  | None => true
  | Some m => item m (fst p) (snd p)
  end.

Section CandidateCenter.

Variable grey_dilation_at : array2 spec_float -> nat * nat -> nat -> nat -> spec_float.
Variable grey_erosion_at : array2 spec_float -> nat * nat -> nat -> nat -> spec_float.

  (** A candidate center of the smoothed array: the value equals the 4x4
      erosion at the pixel and lies more than the tolerance below the 4x4
      dilation at the pixel. *)
Definition candidate_center (fuzzy : array2 spec_float) (p : nat * nat) : bool :=
    let v := item fuzzy (fst p) (snd p) in
    F32.eqb v (grey_erosion_at fuzzy (4, 4) (fst p) (snd p))
    && F32.ltb v (F32.sub (grey_dilation_at fuzzy (4, 4) (fst p) (snd p)) tolerance).

  (** The set of pixels the proposal stage is said to return when the
      border band is not taken into account, in row-major order. *)
Definition centers_in_mask (fuzzy : array2 spec_float) (mask : option (array2 bool))
      : list (nat * nat) :=
    filter (fun p => candidate_center fuzzy p && mask_at mask p)
           (indices (shape0 fuzzy) (shape1 fuzzy)).

End CandidateCenter.

(** Outside the band of width [RADIUS] along the four edges of an
    [r] by [c] grid. *)
Definition off_border (RADIUS r c : nat) (p : nat * nat) : bool :=
  Nat.leb RADIUS (fst p) && Nat.ltb (fst p) (r - RADIUS)
  && Nat.leb RADIUS (snd p) && Nat.ltb (snd p) (c - RADIUS).

(** ** Vocabulary of the arithmetic facts *)

(** A 16-bit sample, as [file_to_array] returns them. *)
Definition int16 (z : Z) : Prop := (-32768 <= z <= 32767)%Z.

Definition int16_samples (a : array2 Z) : Prop :=
  forall i j, i < shape0 a -> j < shape1 a -> int16 (item a i j).

(** [f lo && f (lo + 1) && ... ] over [n] consecutive integers. *)
Fixpoint all_from (f : Z -> bool) (lo : Z) (n : nat) : bool :=
  match n with
  | O => true
  | S n' => f lo && all_from f (Z.succ lo) n'
  end.

(** Structural equality of two floats. *)
Definition sf_eqb (a b : spec_float) : bool :=
  match a, b with
  | S754_zero s, S754_zero t => Bool.eqb s t
  | S754_infinity s, S754_infinity t => Bool.eqb s t
  | S754_nan, S754_nan => true
  | S754_finite s m e, S754_finite t n f => Bool.eqb s t && Pos.eqb m n && Z.eqb e f
  | _, _ => false
  end.

(** Zeros and finite floats with a mantissa below 2^24 are ordered like
    the integer [key]. *)
Definition good (f : spec_float) : bool :=
  match f with
  | S754_zero _ => true
  | S754_finite _ m e => (Zpos m <? 2 ^ 24)%Z && (-150 <? e)%Z
  | _ => false
  end.

Definition key (f : spec_float) : Z :=
  match f with
  | S754_finite s m e => cond_Zopp s ((e + 150) * 2 ^ 24 + Zpos m)%Z
  | _ => 0%Z
  end.

Unset Implicit Arguments.

(** The four border assignments of lines 109-112 on an [r] by [c] grid:
    with [RADIUS = 0] the slice [-RADIUS:] is the whole axis. *)
Definition kept (RADIUS r c : nat) (p : nat * nat) : bool :=
  negb (Nat.eqb RADIUS 0) && off_border RADIUS r c p.

(** [patch] is the SIZE by SIZE window of [arr] around the candidate [p]. *)
Definition patch_of (SIZE RADIUS : nat) (arr : array2 Z) (p : nat * nat)
    (patch : array2 spec_float) : Prop :=
  shape0 patch = SIZE /\ shape1 patch = SIZE /\
  forall a b, a < SIZE -> b < SIZE ->
    item patch a b = F32.of_Z (item arr (fst p - RADIUS + a) (snd p - RADIUS + b)).

(** The candidates of a result of the proposal stage. *)
Definition proposed (r : result (list (array2 spec_float) * list (nat * nat)))
    : result (list (nat * nat)) :=
  x <- r ;; Ok (snd x).

(** What is checked, by computation, of the [float32] of each 16-bit
    integer [z]: it is a zero or a finite float below 2^24 in mantissa,
    smaller than the float of [z + 1], equal to [z] in value, and the
    opposite of the float of [- z]. *)
Definition decomposed (f : spec_float) (z : Z) : bool :=
  match f with
  | S754_zero s => (z =? 0)%Z && negb s
  | S754_finite s m e =>
      (-23 <=? e)%Z && (e <=? -8)%Z
      && (cond_Zopp s (Zpos m) =? z * 2 ^ (- e))%Z && negb (z =? 0)%Z
  | _ => false
  end.

Definition check_int16 (z : Z) : bool :=
  let f := F32.of_Z z in
  good f && (key f <? key (F32.of_Z (z + 1)))%Z && decomposed f z
  && ((z =? 0)%Z || sf_eqb (F32.of_Z (- z)) (SFopp f)).

(** What is checked of each difference [n] of two 16-bit integers: the
    scaled integers that a [float32] subtraction normalizes round to the
    float of [n], and [n / n * 255] and [0 / n * 255] are stored as 255
    and 0. *)
Definition check_span (n : Z) : bool :=
  let f := F32.of_Z n in
  all_from (fun k => sf_eqb (binary_normalize F32.prec F32.emax (n * 2 ^ k) (- k) false) f) 8 16
  && (float_as_uint8 (F32.mul (F32.div f f) (F32.of_Z 255)) =? 255)%Z
  && (float_as_uint8 (F32.mul (F32.div (F32.of_Z 0) f) (F32.of_Z 255)) =? 0)%Z
  && match f with S754_finite false _ _ => true | _ => false end.

(** The sample that normalization computes from the sample [v] of an
    image with minimum [zmin] and maximum [zmax]. *)
Definition normalized_sample (zmin zmax v : Z) : Z :=
  float_as_uint8
    (F32.mul (F32.div (F32.of_Z (v - zmin)) (F32.of_Z (zmax - zmin))) (F32.of_Z 255)).

Definition int16b (z : Z) : bool := (-32768 <=? z)%Z && (z <=? 32767)%Z.

Definition int16_samplesb (a : array2 Z) : bool :=
  forallb (fun p => int16b (item a (fst p) (snd p))) (indices (shape0 a) (shape1 a)).

Definition flat_image : array2 Z := of_rows 0%Z [[7; 7]; [7; 7]]%Z.

(** The scores [output[:, 0]] of a batch. *)
Definition score_column (output : array2 spec_float) : list spec_float :=
  map (fun i => item output i 0) (seq 0 (shape0 output)).

(** [score > 0.80], in [float32]. *)
Definition above_threshold (score : spec_float) : bool := F32.ltb threshold score.

(** A Python [float] literal [p/q] stored in a [float32] array. *)
Definition f32 (p q : Z) : spec_float := py_float_as_float32 (F64.literal p q).

Definition column (scores : list spec_float) : array2 spec_float :=
  mk_array2 (List.length scores) 1 (fun i _ => nth i scores S754_nan).

(** The pixels set on the canvas of a renderer. *)
Definition canvas_pixels (r : result CreatePNG) : result (list (nat * nat)) :=
  p <- r ;; Ok (np_where (arr p)).

Definition in_disk (cx cy r : Z) (p : nat * nat) : bool :=
  ((Z.of_nat (fst p) - cx) ^ 2 + (Z.of_nat (snd p) - cy) ^ 2 <=? r ^ 2)%Z.

(** Number of positions of [s] at which [sub] starts. *)
Fixpoint occurrences (sub s : string) : nat :=
  match s with
  | EmptyString => 0
  | String c s' => (if prefix sub s then 1 else 0) + occurrences sub s'
  end.

Open Scope string_scope.

Fixpoint has_char (c : ascii) (s : string) : bool :=
  match s with
  | EmptyString => false
  | String a s' => Ascii.eqb a c || has_char c s'
  end.

Fixpoint all_chars (P : ascii -> bool) (s : string) : bool :=
  match s with
  | EmptyString => true
  | String a s' => P a && all_chars P s'
  end.

Definition is_digit (c : ascii) : bool :=
  match digit_of c with Some _ => true | None => false end.

(** The characters of a number written by [savetxt]. *)
Definition numeral_char (c : ascii) : bool :=
  is_digit c || Ascii.eqb c "-" || Ascii.eqb c "." || Ascii.eqb c "e" || Ascii.eqb c "+".

(** An integer numeral: an optional minus sign and at least one digit,
    nothing else. *)
Definition integer_numeral (s : string) : bool :=
  match s with
  | String "-" t => negb (String.eqb t EmptyString) && all_chars is_digit t
  | _ => negb (String.eqb s EmptyString) && all_chars is_digit s
  end.

(** The lines of a text whose lines all end in a newline. *)
Definition text_lines (text : string) : list string :=
  removelast (split_on (ascii_of_nat 10) text).

(** The line that [savetxt] writes for one accepted candidate. *)
Definition table_line (p : nat * nat) : string :=
  fmt_18e (Z.of_nat (fst p)) ++ "," ++ fmt_18e (Z.of_nat (snd p)).

(** No directory stands where a file is to be written. *)
Definition writable (name : string) (d : folder) : Prop :=
  forall sub, lookup name d <> Some (Dir sub).

(** The names in a section of a brain directory. *)
Definition section_names (name : string) (brain : folder) : option (list string) :=
  match lookup name brain with
  | Some (Dir d) => Some (map fst d)
  | _ => None
  end.

(** The text of a file of a directory. *)
Definition text_of (name : string) (d : folder) : option string :=
  match lookup name d with
  | Some (File (Text s)) => Some s
  | _ => None
  end.

(** ** Concrete inputs *)

(** A 6x6 array with a dark pixel in the corner and one in the interior. *)
Definition example_image : array2 Z :=
  of_rows 0%Z [[0; 5; 5; 5; 5; 5]; [5; 5; 5; 5; 5; 5]; [5; 5; 5; 5; 5; 5];
               [5; 5; 5; 1; 5; 5]; [5; 5; 5; 5; 5; 5]; [5; 5; 5; 5; 5; 5]]%Z.

Definition example_section : folder :=
  [("Image.png", File (Picture (Grey example_image)))].

(** A classifier that scores every patch 1.0. *)
Definition accept_all : classifier :=
  fun X => mk_array2 (List.length X) 1 (fun _ _ => F32.of_Z 1).

(** A classifier that scores every patch 0.0. *)
Definition reject_all : classifier :=
  fun X => mk_array2 (List.length X) 1 (fun _ _ => F32.of_Z 0).

Definition only_csv : OutputFileType := mk_OutputFileType false true false.
Definition only_png : OutputFileType := mk_OutputFileType false false true.
Definition all_outputs : OutputFileType := mk_OutputFileType true true true.

(** [count_section] with RADIUS = 1, SIZE = 2, the reference filters and
    the default color. *)
Definition run_section (directory : folder) (model : classifier)
    (oft : OutputFileType) : result unit * folder * batches :=
  count_section 2 1 Scipy.unsmoothed_at Scipy.grey_dilation_at Scipy.grey_erosion_at
    (255, 0, 0)%Z directory model oft [].

Definition run_brain (brain : folder) (model : classifier)
    (oft : OutputFileType) : result unit * folder * batches :=
  count_brain 2 1 Scipy.unsmoothed_at Scipy.grey_dilation_at Scipy.grey_erosion_at
    (255, 0, 0)%Z brain model oft [].

(** The example section after a first run that wrote the table. *)
Definition cached_section : folder :=
  snd (fst (run_section example_section accept_all only_csv)).

(** A section whose mask is narrower than its image (100x200 against
    100x150), followed by a well-formed section. *)
Definition mismatched_section : folder :=
  [("Image.png", File (Picture (Grey (mk_array2 100 200 (fun i j => Z.of_nat ((i + j) mod 7))))));
   ("Mask.png", File (Picture (Grey (mk_array2 100 150 (fun _ _ => 255%Z)))))].

Definition example_brain : folder :=
  [("Section_01", Dir mismatched_section); ("Section_02", Dir example_section)].

(** What a run over [example_brain] with every output requested gives:
    the result, the classifier calls, and the names in the two sections
    afterwards. *)
Definition brain_outcome
    : result unit * batches * option (list string) * option (list string) :=
  let r := run_brain example_brain accept_all all_outputs in
  (fst (fst r), snd r,
   section_names "Section_01" (snd (fst r)),
   section_names "Section_02" (snd (fst r))).

(** ** Runs on concrete inputs *)

Definition loaded_image (x : result (option (array2 Z)) * folder) : array2 Z :=
  match fst x with
  | Ok (Some a) => a
  | _ => mk_array2 0 0 (fun _ _ => 0%Z)
  end.

Definition is_loaded (x : result (option (array2 Z)) * folder) : bool :=
  match fst x with
  | Ok (Some _) => true
  | _ => false
  end.

Definition the_table (x : result int_array * batches) : int_array :=
  match fst x with
  | Ok t => t
  | Raise _ => mk_int_array Int64 (Arr1 [])
  end.

Definition is_table (x : result int_array * batches) : bool :=
  match fst x with
  | Ok _ => true
  | Raise _ => false
  end.

(** The example section with a vector file left by an earlier run. *)
Definition section_with_svg : folder :=
  (example_section ++ [("Boutons.svg", File (Text "<svg>kept</svg>"))])%list.

(** A raster image left by an earlier run. *)
Definition stale_png : content :=
  Picture (Channels (mk_array2 1 1 (fun _ _ => [0; 0; 0; 0]%Z))).

(** A section whose image is flat, beside the raster image of an earlier
    run. *)
Definition flat_section : folder :=
  [("Image.png", File (Picture (Grey (mk_array2 6 6 (fun _ _ => 7%Z)))));
   ("Boutons.png", File stale_png)].

(** ** Vocabulary of the further properties *)



(** The four files a section run may write. *)
Definition section_output (name : string) : bool :=
  String.eqb name "Image.png" || String.eqb name "Boutons.svg"
  || String.eqb name "Boutons.png" || String.eqb name "BoutonCount.csv".

(** A section with an image and a mask of the same shape. *)
Definition masked_section : folder :=
  [("Image.png", File (Picture (Grey example_image)));
   ("Mask.png", File (Picture (Grey (mk_array2 6 6 (fun _ _ => 255%Z)))));
   ("notes.txt", File (Text "left alone"))].

(** A brain directory with a file beside its section. *)
Definition small_brain : folder :=
  [("Section_01", Dir masked_section); ("Order.txt", File (Text "Section_01"))].

(** The 7x7 symbol that [CreatePNG.__init__] builds. *)
Definition disk_symbol : array2 bool :=
  symbol_shape (CreatePNG_init EmptyString (0, 0)).

(** A canvas as [CreatePNG.__init__] leaves it and [add_symbol] keeps
    it, of an extent that a numpy array can have. *)
Definition canvas (self : CreatePNG) : Prop :=
  radius self = 3 /\ symbol_shape self = disk_symbol /\
  (Z.of_nat (shape0 (arr self)) < 2 ^ 62)%Z /\ (Z.of_nat (shape1 (arr self)) < 2 ^ 62)%Z.

(** The pixel [q] lies in the symbol drawn for the candidate [p] on a
    canvas of the given shape: the candidate keeps 3 pixels to every edge
    and [q] is in its disk of radius 3. *)
Definition in_symbol (shape : nat * nat) (p q : nat * nat) : bool :=
  off_border 3 (fst shape) (snd shape) p
  && in_disk (Z.of_nat (fst p)) (Z.of_nat (snd p)) 3 q.

(** The characters of a line of a table of points written by [savetxt]. *)
Definition line_char (c : ascii) : bool := numeral_char c || Ascii.eqb c ",".

(** The number that [np.loadtxt] reads from a field, NaN standing for a
    field it refuses. *)
Definition field_value (x : string) : spec_float :=
  match floatconv x with
  | Ok f => f
  | Raise _ => S754_nan
  end.

(** The number that a run of decimal digits stands for. *)
Definition digits_value (s : string) : Z := fst (fst (read_digits true s 0%Z 0)).

(** What is checked, by computation, of a coordinate [z] below 2^15: the
    double of [z] is [z], and [str(z)] is a run of one to five digits
    that stands for [z]. *)
Definition coordinate_checked (z : Z) : bool :=
  let s := str_of_Z z in
  match float_trunc (F64.of_Z z) with Some v => (v =? z)%Z | None => false end
  && all_chars is_digit s
  && Nat.leb 1 (String.length s) && Nat.leb (String.length s) 5
  && (digits_value s =? z)%Z.

(** The rows of a table of points. *)
Definition point_rows (l : list (nat * nat)) : list (list Z) :=
  map (fun p => [Z.of_nat (fst p); Z.of_nat (snd p)]) l.

(** The two digits that ['%.18e'] writes for the exponent [k]. *)
Definition exponent_text (k : nat) : string :=
  let e := str_of_Z (Z.of_nat k) in
  if Nat.ltb (String.length e) 2 then "0" ++ e else e.

(** The sample that [file_to_array] stores for the channel sum [v] of a
    colour picture whose largest channel sum is [mx]. *)
Definition scaled_sample (mx v : Z) : Z :=
  float_as_int16 (F64.mul (F64.of_Z v) (F64.div (F64.of_Z 255) (F64.of_Z mx))).

(** A section with two dark pixels that was processed once with the
    table requested. *)
Definition two_spots : array2 Z :=
  of_rows 0%Z [[5; 5; 5; 5; 5; 5; 5; 5]; [5; 5; 5; 5; 5; 5; 5; 5];
               [5; 5; 0; 5; 5; 5; 5; 5]; [5; 5; 5; 5; 5; 5; 5; 5];
               [5; 5; 5; 5; 5; 5; 5; 5]; [5; 5; 5; 5; 5; 1; 5; 5];
               [5; 5; 5; 5; 5; 5; 5; 5]; [5; 5; 5; 5; 5; 5; 5; 5]]%Z.

Definition two_spots_section : folder :=
  [("Image.png", File (Picture (Grey two_spots)))].

Definition two_spots_cached : folder :=
  snd (fst (run_section two_spots_section accept_all only_csv)).

(** A colour picture of one pixel row whose largest channel sum is 25. *)
Definition dim_picture : folder :=
  [("Image.png", File (Picture (Channels (of_rows [] [[[10; 10; 5]; [1; 2; 3]]]%Z))))].

Close Scope string_scope.

(** * Properties *)

(** ** Generic facts *)

Lemma broadcast_dim_same (n : nat) : broadcast_dim n n = Ok n.
Proof. unfold broadcast_dim. now rewrite Nat.eqb_refl. Qed.

Lemma bidx_in_range (n i : nat) : i < n -> bidx n i = i.
Proof.
  unfold bidx. intros Hi. destruct (Nat.eqb_spec n 1) as [->|_]; [lia | reflexivity].
Qed.

Lemma broadcast_dim_error (a b : nat) (e : exn) :
  broadcast_dim a b = Raise e -> e = ValueError.
Proof.
  unfold broadcast_dim.
  destruct (Nat.eqb a b); [discriminate|].
  destruct (Nat.eqb a 1); [discriminate|].
  destruct (Nat.eqb b 1); [discriminate|].
  congruence.
Qed.

Lemma broadcast2_error {A B C : Type} (f : A -> B -> C) a b (e : exn) :
  broadcast2 f a b = Raise e -> e = ValueError.
Proof.
  unfold broadcast2, bind.
  destruct (broadcast_dim (shape0 a) (shape0 b)) eqn:H0.
  - destruct (broadcast_dim (shape1 a) (shape1 b)) eqn:H1; [discriminate|].
    intros [= <-]. eapply broadcast_dim_error; eauto.
  - intros [= <-]. eapply broadcast_dim_error; eauto.
Qed.

Lemma broadcast2_same {A B C : Type} (f : A -> B -> C) (a : array2 A) (b : array2 B) :
  same_shape a b ->
  exists x, broadcast2 f a b = Ok x /\
    shape0 x = shape0 a /\ shape1 x = shape1 a /\
    forall i j, i < shape0 a -> j < shape1 a -> item x i j = f (item a i j) (item b i j).
Proof.
  intros [H0 H1]. unfold broadcast2. rewrite <- H0, <- H1, !broadcast_dim_same. simpl.
  eexists. split; [reflexivity|]. simpl. repeat split.
  intros i j Hi Hj. now rewrite !bidx_in_range.
Qed.

Lemma in_indices (r c i j : nat) : In (i, j) (indices r c) <-> i < r /\ j < c.
Proof.
  unfold indices. rewrite in_prod_iff, !in_seq. lia.
Qed.

Lemma mapM_ok {A B : Type} (f : A -> result B) (g : A -> B) (l : list A) :
  (forall a, In a l -> f a = Ok (g a)) -> mapM f l = Ok (map g l).
Proof.
  induction l as [|a l IH]; intros H; simpl; [reflexivity|].
  rewrite (H a (or_introl eq_refl)). simpl.
  rewrite IH by (intros; apply H; now right). reflexivity.
Qed.

Lemma mapM_error {A B : Type} (f : A -> result B) (l : list A) (e : exn) :
  mapM f l = Raise e -> exists a, In a l /\ f a = Raise e.
Proof.
  induction l as [|a l IH]; simpl; [discriminate|].
  destruct (f a) eqn:Ha; simpl.
  - destruct (mapM f l) eqn:Hl; simpl; [discriminate|].
    intros [= <-]. destruct (IH eq_refl) as (a' & Hin & Hf). eauto.
  - intros [= <-]. eauto.
Qed.

Ltac bool_arith :=
  repeat match goal with
         | |- context [Nat.leb ?a ?b] => destruct (Nat.leb_spec a b)
         | |- context [Nat.ltb ?a ?b] => destruct (Nat.ltb_spec a b)
         end;
  cbn [andb negb]; rewrite ?andb_true_r, ?andb_false_r;
  try reflexivity; try lia.

Lemma mapM_Forall2 {A B : Type} (f : A -> result B) (P : A -> B -> Prop) (l : list A) :
  (forall a, In a l -> exists b, f a = Ok b /\ P a b) ->
  exists bs, mapM f l = Ok bs /\ Forall2 P l bs.
Proof.
  induction l as [|a l IH]; intros H; simpl.
  - exists []. split; [reflexivity | constructor].
  - destruct (H a (or_introl eq_refl)) as (b & -> & Hb).
    destruct IH as (bs & -> & Hbs); [intros; apply H; now right|].
    exists (b :: bs). split; [reflexivity | now constructor].
Qed.

Lemma filter_filter {A : Type} (f g : A -> bool) (l : list A) :
  filter f (filter g l) = filter (fun a => g a && f a) l.
Proof.
  induction l as [|a l IH]; simpl; [reflexivity|].
  destruct (g a); simpl; [destruct (f a)|]; now rewrite IH.
Qed.

(** ** Slices *)

Lemma py_clip_nonneg (n k : nat) : py_clip n (Z.of_nat k) = Nat.min k n.
Proof.
  unfold py_clip. destruct (Z.ltb_spec (Z.of_nat k) 0); [lia|].
  now rewrite Nat2Z.id.
Qed.

Lemma py_clip_from_end (n k : nat) :
  0 < k -> py_clip n (- Z.of_nat k) = n - k.
Proof.
  unfold py_clip. intros Hk. destruct (Z.ltb_spec (- Z.of_nat k) 0); lia.
Qed.

Lemma py_clip_minus_zero (n : nat) : py_clip n (- Z.of_nat 0) = 0.
Proof. reflexivity. Qed.

Lemma in_slice_head (n k i : nat) :
  i < n -> in_slice (py_slice n None (Some (Z.of_nat k))) i = Nat.ltb i k.
Proof.
  intros Hi. unfold in_slice, py_slice. cbn [fst snd]. rewrite py_clip_nonneg.
  bool_arith.
Qed.

Lemma in_slice_tail (n k i : nat) :
  i < n ->
  in_slice (py_slice n (Some (- Z.of_nat k)%Z) None) i =
    Nat.eqb k 0 || Nat.leb (n - k) i.
Proof.
  intros Hi. unfold in_slice, py_slice. cbn [fst snd].
  destruct (Nat.eqb_spec k 0) as [->|Hk].
  - rewrite py_clip_minus_zero. bool_arith.
  - rewrite py_clip_from_end by lia. bool_arith.
Qed.

Lemma off_border_spec (k r c i j : nat) :
  off_border k r c (i, j) =
    negb (Nat.ltb i k) && negb (Nat.leb (r - k) i)
    && negb (Nat.ltb j k) && negb (Nat.leb (c - k) j).
Proof. unfold off_border. cbn [fst snd]. bool_arith. Qed.

Section ProposalFacts.

Variables SIZE RADIUS : nat.
Variable gaussian_filter_at : array2 spec_float -> nat -> nat -> nat -> spec_float.
Variable grey_dilation_at : array2 spec_float -> nat * nat -> nat -> nat -> spec_float.
Variable grey_erosion_at : array2 spec_float -> nat * nat -> nat -> nat -> spec_float.

Local Abbreviation detect := (detect_local_minima RADIUS grey_dilation_at grey_erosion_at).
Local Abbreviation propose :=
    (local_minima_generate_points SIZE RADIUS gaussian_filter_at
       grey_dilation_at grey_erosion_at).
Local Abbreviation center := (candidate_center grey_dilation_at grey_erosion_at).

  
Lemma detect_is_filter (fuzzy : array2 spec_float) (mask : option (array2 bool)) :
    mask_fits fuzzy mask ->
    detect fuzzy mask =
      Ok (filter (fun p => center fuzzy p && mask_at mask p
                           && kept RADIUS (shape0 fuzzy) (shape1 fuzzy) p)
                 (indices (shape0 fuzzy) (shape1 fuzzy))).
  Proof.
    intros Hmask. unfold detect_local_minima.
    set (dilated := grey_dilation grey_dilation_at fuzzy (4, 4)).
    set (eroded := grey_erosion grey_erosion_at fuzzy (4, 4)).
    destruct (broadcast2_same F32.eqb fuzzy eroded) as (x1 & -> & H10 & H11 & Hx1);
      [split; reflexivity|].
    cbn [bind].
    destruct (broadcast2_same F32.ltb fuzzy
                (amap (fun d => F32.sub d tolerance) dilated))
      as (x2 & -> & H20 & H21 & Hx2); [split; reflexivity|].
    cbn [bind].
    destruct (broadcast2_same andb x1 x2) as (x & -> & H0 & H1 & Hx);
      [split; congruence|].
    cbn [bind].
    assert (exists xm, match mask with
                       | Some m => broadcast2 andb x m
                       | None => Ok x
                       end = Ok xm /\ shape0 xm = shape0 fuzzy /\ shape1 xm = shape1 fuzzy /\
              forall i j, i < shape0 fuzzy -> j < shape1 fuzzy ->
                item xm i j = center fuzzy (i, j) && mask_at mask (i, j))
      as (xm & -> & Hm0 & Hm1 & Hxm).
    { assert (Hc : forall i j, i < shape0 fuzzy -> j < shape1 fuzzy ->
                item x i j = center fuzzy (i, j)).
      { intros i j Hi Hj. rewrite Hx, Hx1, Hx2 by congruence. reflexivity. }
      destruct mask as [m|].
      - destruct (broadcast2_same andb x m) as (xm & -> & Hm0 & Hm1 & Hxm).
        { destruct Hmask. split; congruence. }
        exists xm. repeat split; try congruence.
        intros i j Hi Hj. rewrite Hxm, Hc by congruence. reflexivity.
      - exists x. repeat split; try congruence.
        intros i j Hi Hj. rewrite Hc by assumption. simpl. now rewrite andb_true_r. }
    cbn [bind]. f_equal. unfold np_where. cbn [shape0 shape1 set_rows set_cols].
    rewrite Hm0, Hm1. apply filter_ext_in. intros [i j] Hin.
    apply in_indices in Hin. destruct Hin as [Hi Hj].
    cbn [item set_rows set_cols fst snd shape0 shape1].
    rewrite Hxm by assumption.
    rewrite !in_slice_head, !in_slice_tail by congruence.
    unfold kept. rewrite off_border_spec.
    destruct (Nat.eqb RADIUS 0), (Nat.ltb i RADIUS), (Nat.ltb j RADIUS),
      (Nat.leb (shape0 fuzzy - RADIUS) i), (Nat.leb (shape1 fuzzy - RADIUS) j);
      cbn [andb orb negb]; rewrite ?andb_true_r, ?andb_false_r; reflexivity.
  Qed.

  (** Where the border assignments keep a pixel, the patch slice of
      line 125 is not clipped. *)
Lemma patch_bounds (n x : nat) :
    RADIUS <= x -> x < n - RADIUS ->
    py_slice n (Some (Z.of_nat x - Z.of_nat RADIUS)%Z)
               (Some (Z.of_nat x + Z.of_nat RADIUS)%Z)
    = (x - RADIUS, x + RADIUS).
  Proof.
    intros H1 H2. unfold py_slice.
    replace (Z.of_nat x - Z.of_nat RADIUS)%Z with (Z.of_nat (x - RADIUS)) by lia.
    replace (Z.of_nat x + Z.of_nat RADIUS)%Z with (Z.of_nat (x + RADIUS)) by lia.
    rewrite !py_clip_nonneg. f_equal; lia.
  Qed.

Lemma off_border_bounds (r c x y : nat) :
    off_border RADIUS r c (x, y) = true <->
    RADIUS <= x /\ x < r - RADIUS /\ RADIUS <= y /\ y < c - RADIUS.
  Proof.
    unfold off_border. cbn [fst snd].
    rewrite !andb_true_iff, !Nat.leb_le, !Nat.ltb_lt. tauto.
  Qed.

Lemma extract_patch_ok (arr : array2 Z) (x y : nat) :
    SIZE = 2 * RADIUS ->
    off_border RADIUS (shape0 arr) (shape1 arr) (x, y) = true ->
    exists patch, extract_patch SIZE RADIUS arr (x, y) = Ok patch /\
                  patch_of SIZE RADIUS arr (x, y) patch.
  Proof.
    intros HS Hoff. apply off_border_bounds in Hoff. destruct Hoff as (H1 & H2 & H3 & H4).
    unfold extract_patch, patch_slice, broadcast_to. cbn [fst snd].
    rewrite !patch_bounds by assumption.
    cbn [amap slice2 shape0 shape1 fst snd item]. unfold slice_len. cbn [fst snd].
    replace (x + RADIUS - (x - RADIUS)) with SIZE by lia.
    replace (y + RADIUS - (y - RADIUS)) with SIZE by lia.
    rewrite !Nat.eqb_refl. cbn [orb andb].
    eexists. split; [reflexivity|]. unfold patch_of. cbn [shape0 shape1 item fst snd].
    repeat split. intros a b Ha Hb. now rewrite !bidx_in_range.
  Qed.

Lemma extract_patch_error (arr : array2 Z) (p : nat * nat) (e : exn) :
    extract_patch SIZE RADIUS arr p = Raise e -> e = ValueError.
  Proof.
    unfold extract_patch, broadcast_to.
    destruct (_ && _); [discriminate | congruence].
  Qed.

Lemma detect_error (fuzzy : array2 spec_float) (mask : option (array2 bool)) (e : exn) :
    detect fuzzy mask = Raise e -> e = ValueError.
  Proof.
    unfold detect_local_minima.
    repeat match goal with
           | |- bind ?m _ = _ -> _ =>
               let H := fresh in
               destruct m eqn:H; cbn [bind];
               [| intros [= <-]; try (eapply broadcast2_error; eassumption)]
           end; try discriminate.
    destruct mask; [eapply broadcast2_error; eassumption | discriminate].
  Qed.

Local Abbreviation smoothed arr :=
    (gaussian_filter gaussian_filter_at (amap F32.of_Z arr) 1).

Lemma propose_unfold (arr : array2 Z) (mask : option (array2 bool)) :
    propose arr mask =
      (minima <- detect (smoothed arr) mask ;;
       if Nat.ltb 0 (List.length minima)
       then X <- mapM (extract_patch SIZE RADIUS arr) minima ;; Ok (X, minima)
       else Raise AssertionError).
  Proof. reflexivity. Qed.

Lemma propose_returns (arr : array2 Z) (mask : option (array2 bool))
      (minima : list (nat * nat)) :
    SIZE = 2 * RADIUS ->
    detect (smoothed arr) mask = Ok minima ->
    (forall p, In p minima -> off_border RADIUS (shape0 arr) (shape1 arr) p = true) ->
    minima <> [] ->
    exists X, propose arr mask = Ok (X, minima) /\ Forall2 (patch_of SIZE RADIUS arr) minima X.
  Proof.
    intros HS Hd Hoff Hne. rewrite propose_unfold, Hd. cbn [bind].
    destruct minima as [|p l]; [congruence|]. cbn [List.length Nat.ltb Nat.leb].
    destruct (mapM_Forall2 (extract_patch SIZE RADIUS arr) (patch_of SIZE RADIUS arr) (p :: l))
      as (X & -> & HX).
    { intros [x y] Hin. apply extract_patch_ok; auto. }
    exists X. split; [reflexivity | assumption].
  Qed.

  (** C2. Every candidate of the proposal stage keeps RADIUS pixels to
      each of the four edges of the image ([x] indexes rows, [y] columns,
      as in line 124), with or without a mask; with SIZE = 2 * RADIUS the
      patch slices of line 125 are therefore not clipped, and every patch
      is SIZE by SIZE and filled from inside the image. *)
Theorem C2_border_exclusion (arr : array2 Z) (mask : option (array2 bool)) :
    mask_fits arr mask -> SIZE = 2 * RADIUS ->
    exists minima,
      detect (smoothed arr) mask = Ok minima /\
      (forall x y, In (x, y) minima ->
         (RADIUS <= x /\ x < shape0 arr - RADIUS /\
          RADIUS <= y /\ y < shape1 arr - RADIUS) /\
         py_slice (shape0 arr) (Some (Z.of_nat x - Z.of_nat RADIUS)%Z)
                  (Some (Z.of_nat x + Z.of_nat RADIUS)%Z) = (x - RADIUS, x + RADIUS) /\
         py_slice (shape1 arr) (Some (Z.of_nat y - Z.of_nat RADIUS)%Z)
                  (Some (Z.of_nat y + Z.of_nat RADIUS)%Z) = (y - RADIUS, y + RADIUS) /\
         x + RADIUS <= shape0 arr /\ y + RADIUS <= shape1 arr /\
         shape0 (patch_slice RADIUS arr (x, y)) = SIZE /\
         shape1 (patch_slice RADIUS arr (x, y)) = SIZE) /\
      (minima <> [] ->
       exists X, propose arr mask = Ok (X, minima) /\ Forall2 (patch_of SIZE RADIUS arr) minima X).
  Proof.
    intros Hmask HS.
    assert (Hfit : mask_fits (smoothed arr) mask) by exact Hmask.
    pose proof (detect_is_filter (smoothed arr) mask Hfit) as Hd.
    cbn [gaussian_filter amap shape0 shape1] in Hd.
    eexists. split; [exact Hd|].
    assert (Hoff : forall p,
               In p (filter (fun p => center (smoothed arr) p && mask_at mask p
                                      && kept RADIUS (shape0 arr) (shape1 arr) p)
                            (indices (shape0 arr) (shape1 arr))) ->
               off_border RADIUS (shape0 arr) (shape1 arr) p = true).
    { intros p Hin. apply filter_In in Hin. destruct Hin as [_ Hin].
      unfold kept in Hin. rewrite !andb_true_iff in Hin. tauto. }
    split.
    - intros x y Hin. apply Hoff in Hin.
      apply off_border_bounds in Hin. destruct Hin as (H1 & H2 & H3 & H4).
      split; [tauto|].
      unfold patch_slice. cbn [fst snd slice2 shape0 shape1].
      rewrite !patch_bounds by assumption. unfold slice_len. cbn [fst snd].
      repeat split; lia.
    - intros Hne. now apply propose_returns.
  Qed.

  (** C1 (amended). With a radius that is not zero, the candidates of the
      proposal stage are exactly the pixels of the smoothed array that are
      candidate centers, lie in the mask when there is one, and lie
      outside the border band of width RADIUS, in row-major order; the
      stage returns them when there is at least one and fails otherwise. *)
Theorem C1_proposed_candidates (arr : array2 Z) (mask : option (array2 bool)) :
    mask_fits arr mask -> SIZE = 2 * RADIUS -> 0 < RADIUS ->
    let expected :=
      filter (off_border RADIUS (shape0 arr) (shape1 arr))
             (centers_in_mask grey_dilation_at grey_erosion_at (smoothed arr) mask) in
    detect (smoothed arr) mask = Ok expected /\
    (expected <> [] -> exists X, propose arr mask = Ok (X, expected)) /\
    (expected = [] -> propose arr mask = Raise AssertionError).
  Proof.
    intros Hmask HS HR expected.
    assert (Hfit : mask_fits (smoothed arr) mask) by exact Hmask.
    pose proof (detect_is_filter (smoothed arr) mask Hfit) as Hd.
    cbn [gaussian_filter amap shape0 shape1] in Hd.
    assert (Hd' : detect (smoothed arr) mask = Ok expected).
    { rewrite Hd. f_equal. unfold expected, centers_in_mask. rewrite filter_filter.
      cbn [gaussian_filter amap shape0 shape1].
      apply filter_ext. intros p. unfold kept.
      destruct (Nat.eqb_spec RADIUS 0); [lia | reflexivity]. }
    split; [exact Hd'|]. split.
    - intros Hne. destruct (propose_returns arr mask expected HS Hd') as (X & HX & _); eauto.
      intros p Hin. apply filter_In in Hin. tauto.
    - intros He. rewrite propose_unfold, Hd', He. reflexivity.
  Qed.

Lemma propose_assertion (arr : array2 Z) (mask : option (array2 bool)) :
    propose arr mask = Raise AssertionError <-> detect (smoothed arr) mask = Ok [].
  Proof.
    rewrite propose_unfold. split.
    - destruct (detect (smoothed arr) mask) as [minima|e] eqn:Hd; cbn [bind].
      + destruct minima as [|p l]; [reflexivity|]. cbn [List.length Nat.ltb Nat.leb].
        destruct (mapM (extract_patch SIZE RADIUS arr) (p :: l)) eqn:HX; cbn [bind];
          [discriminate|].
        intros [= ->]. apply mapM_error in HX. destruct HX as (q & _ & HX).
        apply extract_patch_error in HX. discriminate.
      + intros [= ->]. apply detect_error in Hd. discriminate.
    - intros ->. reflexivity.
  Qed.

End ProposalFacts.

(** ** Exhaustive checks over an integer range *)

Lemma all_from_spec (f : Z -> bool) (n : nat) :
  forall lo, all_from f lo n = true ->
  forall z, (lo <= z < lo + Z.of_nat n)%Z -> f z = true.
Proof.
  induction n as [|n IH]; intros lo H z Hz; [lia|].
  cbn [all_from] in H. apply andb_true_iff in H. destruct H as [H0 H1].
  destruct (Z.eq_dec z lo) as [->|Hne]; [assumption|].
  apply (IH (Z.succ lo) H1). lia.
Qed.

Lemma sf_eqb_eq (a b : spec_float) : sf_eqb a b = true -> a = b.
Proof.
  destruct a, b; cbn [sf_eqb]; try discriminate; try reflexivity.
  - intros H. apply Bool.eqb_prop in H. now subst.
  - intros H. apply Bool.eqb_prop in H. now subst.
  - rewrite !andb_true_iff. intros [[H1 H2] H3].
    apply Bool.eqb_prop in H1. apply Pos.eqb_eq in H2. apply Z.eqb_eq in H3. now subst.
Qed.

(** ** Order of the floats that come from 16-bit integers *)

Lemma compare_key (f1 f2 : spec_float) :
  good f1 = true -> good f2 = true ->
  SFcompare f1 f2 = Some (key f1 ?= key f2)%Z.
Proof.
  assert (P24 : (2 ^ 24 = 16777216)%Z) by reflexivity.
  destruct f1 as [s1|s1| |s1 m1 e1], f2 as [s2|s2| |s2 m2 e2];
    cbn [good]; try discriminate; intros G1 G2;
    repeat match goal with
           | H : (_ && _) = true |- _ => apply andb_true_iff in H; destruct H
           | H : (_ <? _)%Z = true |- _ => apply Z.ltb_lt in H
           end;
    cbn [SFcompare key].
  - reflexivity.
  - f_equal. symmetry. destruct s2; cbn [cond_Zopp]; rewrite ?P24 in *.
    + apply Z.compare_gt_iff. lia.
    + apply Z.compare_lt_iff. lia.
  - f_equal. symmetry. destruct s1; cbn [cond_Zopp]; rewrite ?P24 in *.
    + apply Z.compare_lt_iff. lia.
    + apply Z.compare_gt_iff. lia.
  - f_equal. rewrite P24 in *.
    destruct s1, s2; cbn [cond_Zopp]; symmetry.
    + destruct (Z.compare_spec e1 e2) as [->|Hlt|Hgt].
      * change (Pos.compare_cont Eq m1 m2) with (Pos.compare m1 m2).
        destruct (Pos.compare_spec m1 m2) as [->|H'|H']; cbn [CompOpp].
        -- apply Z.compare_eq_iff. reflexivity.
        -- apply Z.compare_gt_iff. lia.
        -- apply Z.compare_lt_iff. lia.
      * apply Z.compare_gt_iff. lia.
      * apply Z.compare_lt_iff. lia.
    + apply Z.compare_lt_iff. lia.
    + apply Z.compare_gt_iff. lia.
    + destruct (Z.compare_spec e1 e2) as [->|Hlt|Hgt].
      * change (Pos.compare_cont Eq m1 m2) with (Pos.compare m1 m2).
        destruct (Pos.compare_spec m1 m2) as [->|H'|H'].
        -- apply Z.compare_eq_iff. reflexivity.
        -- apply Z.compare_lt_iff. lia.
        -- apply Z.compare_gt_iff. lia.
      * apply Z.compare_lt_iff. lia.
      * apply Z.compare_gt_iff. lia.
Qed.

Lemma int16_checked (z : Z) : int16 z -> check_int16 z = true.
Proof.
  intros Hz. apply (all_from_spec check_int16 (Z.to_nat 65536) (-32768)%Z).
  - vm_cast_no_check (eq_refl true).
  - unfold int16 in Hz. lia.
Qed.

Lemma span_checked (n : Z) : (1 <= n <= 65535)%Z -> check_span n = true.
Proof.
  intros Hn. apply (all_from_spec check_span (Z.to_nat 65535) 1%Z).
  - vm_cast_no_check (eq_refl true).
  - lia.
Qed.

Lemma of_Z_good (z : Z) : int16 z -> good (F32.of_Z z) = true.
Proof.
  intros Hz. pose proof (int16_checked z Hz) as H. unfold check_int16 in H.
  cbv zeta in H. rewrite !andb_true_iff in H. tauto.
Qed.

Lemma of_Z_decomposed (z : Z) : int16 z -> decomposed (F32.of_Z z) z = true.
Proof.
  intros Hz. pose proof (int16_checked z Hz) as H. unfold check_int16 in H.
  cbv zeta in H. rewrite !andb_true_iff in H. tauto.
Qed.

Lemma of_Z_opp (z : Z) :
  int16 z -> z <> 0%Z -> F32.of_Z (- z) = SFopp (F32.of_Z z).
Proof.
  intros Hz Hne. pose proof (int16_checked z Hz) as H. unfold check_int16 in H.
  cbv zeta in H. rewrite !andb_true_iff, orb_true_iff in H.
  destruct H as (_ & [H|H]); [apply Z.eqb_eq in H; contradiction | now apply sf_eqb_eq].
Qed.

Lemma key_step (z : Z) :
  int16 z -> (key (F32.of_Z z) < key (F32.of_Z (z + 1)))%Z.
Proof.
  intros Hz. pose proof (int16_checked z Hz) as H. unfold check_int16 in H.
  cbv zeta in H. rewrite !andb_true_iff in H. apply Z.ltb_lt. tauto.
Qed.

Lemma key_mono (x y : Z) :
  int16 x -> int16 y -> (x < y)%Z -> (key (F32.of_Z x) < key (F32.of_Z y))%Z.
Proof.
  intros Hx Hy Hlt.
  assert (H : forall n : nat, int16 (x + Z.of_nat (S n)) ->
              (key (F32.of_Z x) < key (F32.of_Z (x + Z.of_nat (S n))))%Z).
  { induction n as [|n IH]; intros Hn.
    - apply key_step; assumption.
    - eapply Z.lt_trans.
      + apply IH. unfold int16 in *. lia.
      + replace (x + Z.of_nat (S (S n)))%Z with (x + Z.of_nat (S n) + 1)%Z by lia.
        apply key_step. unfold int16 in *. lia. }
  replace y with (x + Z.of_nat (S (Z.to_nat (y - x - 1))))%Z by lia.
  apply H. replace (x + Z.of_nat (S (Z.to_nat (y - x - 1))))%Z with y by lia. assumption.
Qed.

Lemma compare_of_Z (x y : Z) :
  int16 x -> int16 y -> SFcompare (F32.of_Z x) (F32.of_Z y) = Some (x ?= y)%Z.
Proof.
  intros Hx Hy. rewrite compare_key by (apply of_Z_good; assumption). f_equal.
  destruct (Z.compare_spec x y) as [->|H|H].
  - apply Z.compare_refl.
  - apply Z.compare_lt_iff. now apply key_mono.
  - apply Z.compare_gt_iff. now apply key_mono.
Qed.

Lemma of_Z_not_nan (z : Z) : int16 z -> is_nan (F32.of_Z z) = false.
Proof.
  intros Hz. pose proof (of_Z_good z Hz) as H.
  destruct (F32.of_Z z); cbn in *; congruence.
Qed.

Lemma fmin_of_Z (x y : Z) :
  int16 x -> int16 y -> fmin (F32.of_Z x) (F32.of_Z y) = F32.of_Z (Z.min x y).
Proof.
  intros Hx Hy. unfold fmin, SFltb.
  rewrite !of_Z_not_nan, compare_of_Z by assumption.
  destruct (Z.compare_spec y x); f_equal; lia.
Qed.

Lemma fmax_of_Z (x y : Z) :
  int16 x -> int16 y -> fmax (F32.of_Z x) (F32.of_Z y) = F32.of_Z (Z.max x y).
Proof.
  intros Hx Hy. unfold fmax, SFltb.
  rewrite !of_Z_not_nan, compare_of_Z by assumption.
  destruct (Z.compare_spec x y); f_equal; lia.
Qed.

(** ** Exact subtraction *)

Lemma shl_align_value (m : positive) (e e' : Z) :
  (e' <= e)%Z ->
  Zpos (fst (shl_align m e e')) = (Zpos m * 2 ^ (e - e'))%Z.
Proof.
  intros H. unfold shl_align.
  destruct (e' - e)%Z as [|d|d] eqn:Hd.
  - replace (e - e')%Z with 0%Z by lia. cbn [fst]. lia.
  - lia.
  - cbn [fst]. replace (e - e')%Z with (Zpos d) by lia.
    change (Pos.iter xO m d) with (shift_pos d m).
    rewrite shift_pos_correct. change (Zpower_pos 2 d) with (2 ^ Zpos d)%Z. lia.
Qed.

Lemma sub_of_Z (x y : Z) :
  int16 x -> int16 y -> (y <= x)%Z ->
  F32.sub (F32.of_Z x) (F32.of_Z y) = F32.of_Z (x - y).
Proof.
  intros Hx Hy Hle.
  pose proof (of_Z_decomposed x Hx) as Dx. pose proof (of_Z_decomposed y Hy) as Dy.
  pose proof (of_Z_opp y Hy) as Oy.
  unfold F32.sub.
  destruct (F32.of_Z x) as [sx|sx| |sx mx ex] eqn:Ex,
           (F32.of_Z y) as [sy|sy| |sy my ey] eqn:Ey;
    cbn [decomposed] in Dx, Dy; try discriminate;
    repeat match goal with
           | H : (_ && _) = true |- _ => apply andb_true_iff in H; destruct H
           | H : (_ =? _)%Z = true |- _ => apply Z.eqb_eq in H
           | H : (_ <=? _)%Z = true |- _ => apply Z.leb_le in H
           | H : negb _ = true |- _ => apply negb_true_iff in H
           | H : (_ =? _)%Z = false |- _ => apply Z.eqb_neq in H
           end; subst; cbn [SFsub].
  - reflexivity.
  - cbn [Z.sub Z.add]. rewrite Oy by assumption. reflexivity.
  - rewrite Z.sub_0_r. now rewrite Ex.
  - rewrite !shl_align_value by lia.
    set (ez := Z.min ex ey).
    assert (Hx' : (cond_Zopp sx (Z.pos mx * 2 ^ (ex - ez)) = x * 2 ^ (- ez))%Z).
    { replace (- ez)%Z with (- ex + (ex - ez))%Z by lia.
      rewrite Z.pow_add_r by lia. rewrite Z.mul_assoc.
      match goal with H : cond_Zopp sx _ = _ |- _ => rewrite <- H end.
      destruct sx; cbn [cond_Zopp]; lia. }
    assert (Hy' : (cond_Zopp sy (Z.pos my * 2 ^ (ey - ez)) = y * 2 ^ (- ez))%Z).
    { replace (- ez)%Z with (- ey + (ey - ez))%Z by lia.
      rewrite Z.pow_add_r by lia. rewrite Z.mul_assoc.
      match goal with H : cond_Zopp sy _ = _ |- _ => rewrite <- H end.
      destruct sy; cbn [cond_Zopp]; lia. }
    rewrite Hx', Hy', <- Z.mul_sub_distr_r.
    destruct (Z.eq_dec x y) as [->|Hne].
    + rewrite Z.sub_diag. reflexivity.
    + assert (Hspan : (1 <= x - y <= 65535)%Z) by (unfold int16 in *; lia).
      pose proof (span_checked (x - y) Hspan) as Hc. unfold check_span in Hc.
      cbv zeta in Hc. rewrite !andb_true_iff in Hc. destruct Hc as [[[Hc _] _] _].
      assert (Hk : (8 <= - ez < 8 + Z.of_nat 16)%Z) by lia.
      pose proof (all_from_spec _ 16 8%Z Hc (- ez)%Z Hk) as Hs. cbv beta in Hs.
      apply sf_eqb_eq in Hs. rewrite Z.opp_involutive in Hs. exact Hs.
Qed.

(** ** Minimum and maximum of a list *)

Lemma fold_min_spec (vs : list Z) : forall v,
  In (fold_left Z.min vs v) (v :: vs) /\
  forall u, In u (v :: vs) -> (fold_left Z.min vs v <= u)%Z.
Proof.
  induction vs as [|w vs IH]; intros v; cbn [fold_left].
  - split; [now left|]. intros u [<-|[]]. lia.
  - destruct (IH (Z.min v w)) as [Hin Hle]. split.
    + destruct Hin as [Hin|Hin]; [|now right; right].
      rewrite <- Hin. destruct (Z.min_spec v w) as [[_ ->]|[_ ->]]; [now left|now right; left].
    + intros u [Hu|[Hu|Hu]].
      * specialize (Hle (Z.min v w) (or_introl eq_refl)). lia.
      * specialize (Hle (Z.min v w) (or_introl eq_refl)). lia.
      * apply Hle. now right.
Qed.

Lemma fold_max_spec (vs : list Z) : forall v,
  In (fold_left Z.max vs v) (v :: vs) /\
  forall u, In u (v :: vs) -> (u <= fold_left Z.max vs v)%Z.
Proof.
  induction vs as [|w vs IH]; intros v; cbn [fold_left].
  - split; [now left|]. intros u [<-|[]]. lia.
  - destruct (IH (Z.max v w)) as [Hin Hle]. split.
    + destruct Hin as [Hin|Hin]; [|now right; right].
      rewrite <- Hin. destruct (Z.max_spec v w) as [[_ ->]|[_ ->]]; [now right; left|now left].
    + intros u [Hu|[Hu|Hu]].
      * specialize (Hle (Z.max v w) (or_introl eq_refl)). lia.
      * specialize (Hle (Z.max v w) (or_introl eq_refl)). lia.
      * apply Hle. now right.
Qed.

Lemma fold_min_is (l : list Z) (v m : Z) :
  In m (v :: l) -> (forall u, In u (v :: l) -> (m <= u)%Z) -> fold_left Z.min l v = m.
Proof.
  intros Hin Hle. destruct (fold_min_spec l v) as [Hin' Hle'].
  apply Z.le_antisymm; auto.
Qed.

Lemma fold_max_is (l : list Z) (v m : Z) :
  In m (v :: l) -> (forall u, In u (v :: l) -> (u <= m)%Z) -> fold_left Z.max l v = m.
Proof.
  intros Hin Hle. destruct (fold_max_spec l v) as [Hin' Hle'].
  apply Z.le_antisymm; auto.
Qed.

Lemma fold_fmin_of_Z (vs : list Z) : forall v,
  Forall int16 (v :: vs) ->
  fold_left fmin (map F32.of_Z vs) (F32.of_Z v) = F32.of_Z (fold_left Z.min vs v).
Proof.
  induction vs as [|w vs IH]; intros v H; cbn [fold_left map]; [reflexivity|].
  inversion H as [|? ? Hv H']; subst. inversion H' as [|? ? Hw H'']; subst.
  rewrite fmin_of_Z by assumption. apply IH. constructor; [|assumption].
  unfold int16 in *. lia.
Qed.

Lemma fold_fmax_of_Z (vs : list Z) : forall v,
  Forall int16 (v :: vs) ->
  fold_left fmax (map F32.of_Z vs) (F32.of_Z v) = F32.of_Z (fold_left Z.max vs v).
Proof.
  induction vs as [|w vs IH]; intros v H; cbn [fold_left map]; [reflexivity|].
  inversion H as [|? ? Hv H']; subst. inversion H' as [|? ? Hw H'']; subst.
  rewrite fmax_of_Z by assumption. apply IH. constructor; [|assumption].
  unfold int16 in *. lia.
Qed.

Lemma values_amap {A B : Type} (f : A -> B) (a : array2 A) :
  values (amap f a) = map f (values a).
Proof. unfold values. cbn [amap shape0 shape1 item]. now rewrite map_map. Qed.

Lemma in_values {A : Type} (a : array2 A) (v : A) :
  In v (values a) <-> exists i j, i < shape0 a /\ j < shape1 a /\ item a i j = v.
Proof.
  unfold values. rewrite in_map_iff. split.
  - intros ([i j] & <- & Hin). apply in_indices in Hin. exists i, j. tauto.
  - intros (i & j & Hi & Hj & <-). exists (i, j). split; [reflexivity|].
    apply in_indices. tauto.
Qed.

Lemma int16_values (a : array2 Z) : int16_samples a -> Forall int16 (values a).
Proof.
  intros H. apply Forall_forall. intros v Hv. apply in_values in Hv.
  destruct Hv as (i & j & Hi & Hj & <-). now apply H.
Qed.

Lemma float_as_uint8_range (f : spec_float) : (0 <= float_as_uint8 f <= 255)%Z.
Proof.
  unfold float_as_uint8. destruct (float_trunc f) as [z|]; [|lia].
  pose proof (Z.mod_pos_bound z 256). lia.
Qed.

Lemma normalize_int16 (a : array2 Z) (zmin zmax : Z) :
  int16_samples a ->
  reduce Z.min a = Ok zmin -> reduce Z.max a = Ok zmax ->
  normalize (F32 (amap F32.of_Z a)) =
    Ok (amap (fun v => float_as_uint8 (F32.mul v (F32.of_Z 255)))
          (amap (fun v => F32.div (F32.sub v (F32.of_Z zmin))
                            (F32.of_Z (zmax - zmin)))
             (amap F32.of_Z a)))
  /\ In zmin (values a) /\ In zmax (values a)
  /\ (forall v, In v (values a) -> (zmin <= v <= zmax)%Z /\ int16 v).
Proof.
  intros H16 Hmin Hmax. pose proof (int16_values a H16) as HF.
  unfold reduce in Hmin, Hmax.
  destruct (values a) as [|v vs] eqn:Hv; [discriminate|].
  injection Hmin as Hmin. injection Hmax as Hmax.
  destruct (fold_min_spec vs v) as [Imin Lmin]. destruct (fold_max_spec vs v) as [Imax Lmax].
  rewrite Hmin in Imin, Lmin. rewrite Hmax in Imax, Lmax.
  assert (Hzmin : int16 zmin) by (rewrite Forall_forall in HF; auto).
  assert (Hzmax : int16 zmax) by (rewrite Forall_forall in HF; auto).
  repeat split; auto; try (apply Lmin; assumption); try (apply Lmax; assumption);
    try (rewrite Forall_forall in HF; apply HF; assumption).
  cbn [normalize]. unfold normalize_f32, reduce. rewrite values_amap, Hv. cbn [map bind].
  rewrite fold_fmin_of_Z, fold_fmax_of_Z by assumption. rewrite Hmin, Hmax.
  rewrite sub_of_Z; auto.
Qed.

Lemma span_unit (d : Z) :
  (1 <= d <= 65535)%Z -> normalized_sample 0 d d = 255%Z /\ normalized_sample 0 d 0 = 0%Z.
Proof.
  intros Hd. pose proof (span_checked d Hd) as Hc. unfold check_span in Hc.
  cbv zeta in Hc. rewrite !andb_true_iff in Hc. destruct Hc as [[[_ H1] H2] _].
  apply Z.eqb_eq in H1, H2. unfold normalized_sample. rewrite !Z.sub_0_r. split; assumption.
Qed.

(** C3 (amended). Normalization of a 16-bit image with at least one pixel
    returns an 8-bit array of the same shape and never fails, also when
    the image is flat; when the maximum strictly exceeds the minimum, the
    minimum of the result is exactly 0 and its maximum exactly 255. *)
Theorem C3_normalization (a : array2 Z) (zmin zmax : Z) :
  int16_samples a ->
  reduce Z.min a = Ok zmin -> reduce Z.max a = Ok zmax ->
  exists out,
    normalize (F32 (amap F32.of_Z a)) = Ok out /\
    shape0 out = shape0 a /\ shape1 out = shape1 a /\
    (forall i j, (0 <= item out i j <= 255)%Z) /\
    ((zmin < zmax)%Z -> reduce Z.min out = Ok 0%Z /\ reduce Z.max out = Ok 255%Z).
Proof.
  intros H16 Hmin Hmax.
  destruct (normalize_int16 a zmin zmax H16 Hmin Hmax) as (Hn & Imin & Imax & Hall).
  eexists. split; [exact Hn|]. split; [reflexivity|]. split; [reflexivity|]. split.
  { intros i j. cbn [amap item]. apply float_as_uint8_range. }
  intros Hlt.
  set (h := fun v => normalized_sample zmin zmax v).
  assert (Hvals : values (amap (fun v => float_as_uint8 (F32.mul v (F32.of_Z 255)))
                    (amap (fun v => F32.div (F32.sub v (F32.of_Z zmin))
                                      (F32.of_Z (zmax - zmin)))
                       (amap F32.of_Z a))) = map h (values a)).
  { rewrite !values_amap, !map_map. apply map_ext_in. intros v Hv.
    destruct (Hall v Hv) as [Hr Hi]. destruct (Hall zmin Imin) as [_ Hzi].
    unfold h, normalized_sample. rewrite sub_of_Z by (auto; lia). reflexivity. }
  assert (Hd : (1 <= zmax - zmin <= 65535)%Z).
  { destruct (Hall zmin Imin) as [_ H1]. destruct (Hall zmax Imax) as [_ H2].
    unfold int16 in *. lia. }
  destruct (span_unit (zmax - zmin) Hd) as [H255 H0].
  assert (Hh0 : h zmin = 0%Z).
  { unfold h, normalized_sample in *. rewrite Z.sub_diag. rewrite !Z.sub_0_r in H0. exact H0. }
  assert (Hh255 : h zmax = 255%Z).
  { unfold h, normalized_sample in *. rewrite !Z.sub_0_r in H255. exact H255. }
  unfold reduce. rewrite Hvals.
  destruct (values a) as [|v vs] eqn:Hv; [destruct Imin|]. cbn [map].
  split; f_equal.
  - apply fold_min_is.
    + rewrite <- Hh0. change (h v :: map h vs) with (map h (v :: vs)). now apply in_map.
    + intros u Hu. change (h v :: map h vs) with (map h (v :: vs)) in Hu.
      apply in_map_iff in Hu. destruct Hu as (w & <- & _).
      apply float_as_uint8_range.
  - apply fold_max_is.
    + rewrite <- Hh255. change (h v :: map h vs) with (map h (v :: vs)). now apply in_map.
    + intros u Hu. change (h v :: map h vs) with (map h (v :: vs)) in Hu.
      apply in_map_iff in Hu. destruct Hu as (w & <- & _).
      apply float_as_uint8_range.
Qed.

(** C3 (counterexample). A flat 2x2 image, every sample 7: its minimum
    equals its maximum, and normalization returns the all-zero image
    instead of failing (0 / 0 is a NaN, which the cast stores as 0). *)
Lemma C3_flat_image_is_returned :
  reduce Z.min flat_image = Ok 7%Z /\ reduce Z.max flat_image = Ok 7%Z /\
  (out <- normalize (F32 (amap F32.of_Z flat_image)) ;; Ok (to_rows out))
    = Ok [[0; 0]; [0; 0]]%Z.
Proof.
  apply conj; [|apply conj]; vm_compute; reflexivity.
Qed.

Lemma select_rows_filter {A : Type} (f : spec_float -> bool) (rows : list A) :
  forall scores, List.length scores = List.length rows ->
  select_rows rows (map f scores) =
    map fst (filter (fun cs => f (snd cs)) (combine rows scores)).
Proof.
  induction rows as [|r rows IH]; intros [|s scores] H; cbn in *; try reflexivity;
    try discriminate.
  destruct (f s); cbn; rewrite IH by lia; reflexivity.
Qed.

Lemma accepted_filter (COMs : list (nat * nat)) (output : array2 spec_float) :
  shape0 output = List.length COMs -> 0 < shape1 output ->
  accepted COMs output =
    Ok (map fst (filter (fun cs => above_threshold (snd cs))
                        (combine COMs (score_column output)))).
Proof.
  intros Hn Hk.
  unfold accepted. destruct (Nat.eqb_spec (shape1 output) 0) as [E|_]; [lia|].
  assert (E : map (fun i => F32.ltb threshold (item output i 0)) (seq 0 (shape0 output))
              = map above_threshold (score_column output))
    by (unfold score_column; now rewrite map_map).
  assert (L : List.length (score_column output) = List.length COMs)
    by (unfold score_column; now rewrite length_map, length_seq).
  cbv zeta. rewrite E, length_map, L, Nat.eqb_refl. f_equal.
  now apply select_rows_filter.
Qed.

(** C5. Verification keeps exactly the candidates whose score is strictly
    greater than 0.80: a score of 0.80 is rejected, a score of 0.81 is
    accepted. *)
Theorem C5_strict_threshold (COMs : list (nat * nat)) (output : array2 spec_float) :
  shape0 output = List.length COMs -> 0 < shape1 output ->
  accepted COMs output =
    Ok (map fst (filter (fun cs => above_threshold (snd cs))
                        (combine COMs (score_column output))))
  /\ above_threshold (f32 79 100) = false
  /\ above_threshold (f32 80 100) = false
  /\ above_threshold (f32 81 100) = true.
Proof.
  intros Hn Hk. apply conj; [now apply accepted_filter|].
  apply conj; [|apply conj]; vm_compute; reflexivity.
Qed.

(** C5 (example). The scores 0.79, 0.80, 0.81 for three candidates: only
    the third is accepted. *)
Lemma C5_three_scores :
  shape0 (column [f32 79 100; f32 80 100; f32 81 100]) = List.length [(1, 1); (2, 2); (3, 3)]
  /\ 0 < shape1 (column [f32 79 100; f32 80 100; f32 81 100])
  /\ accepted [(1, 1); (2, 2); (3, 3)] (column [f32 79 100; f32 80 100; f32 81 100])
     = Ok [(3, 3)].
Proof.
  split; [reflexivity|]. split; [exact (le_n 1)|].
  pose proof (C5_strict_threshold [(1, 1); (2, 2); (3, 3)]
                (column [f32 79 100; f32 80 100; f32 81 100]) eq_refl (le_n 1)) as H.
  destruct H as [H _]. rewrite H. vm_compute. reflexivity.
Defined.

(** C9. One accepted candidate at (10, 10) on a 20x20 canvas: the raster
    canvas holds exactly the 29 pixels of the radius-3 disk around
    (10, 10), and the vector document holds exactly one circle, with
    cx=10 and cy=10. *)
Theorem C9_single_candidate :
  canvas_pixels (render_png (20, 20) (table_of_points [(10, 10)]) 1)
    = Ok (filter (in_disk 10 10 3) (indices 20 20))
  /\ List.length (filter (in_disk 10 10 3) (indices 20 20)) = 29
  /\ (s <- render_svg (20, 20) (table_of_points [(10, 10)]) 1 ;;
      Ok (strings s, occurrences "<circle" (CreateSVG_document s)))
     = Ok (strings (CreateSVG_init "Boutons.svg" (20, 20)) ++ [circle 10 10], 1)
  /\ circle 10 10 = ("<circle class=" ++ dq ++ "cls-1" ++ dq ++ " cx=" ++ dq ++ "10" ++ dq
                     ++ " cy=" ++ dq ++ "10" ++ dq ++ " r=" ++ dq ++ "1" ++ dq ++ "/>")%string.
Proof.
  apply conj; [|apply conj; [|apply conj]]; vm_compute; reflexivity.
Qed.

(** ** The proposal stage and normalization on the example image *)

(** C1 (counterexample). In the example image the corner pixel (0, 0)
    and the interior pixel (3, 3) are both candidate centers of the
    smoothed array, and there is no mask; the proposal stage returns
    (3, 3) only. *)
Lemma C1_border_center_is_not_returned :
  proposed (local_minima_generate_points 2 1 Scipy.unsmoothed_at
              Scipy.grey_dilation_at Scipy.grey_erosion_at example_image None)
    = Ok [(3, 3)]
  /\ centers_in_mask Scipy.grey_dilation_at Scipy.grey_erosion_at
       (gaussian_filter Scipy.unsmoothed_at (amap F32.of_Z example_image) 1) None
     = [(0, 0); (3, 3)].
Proof.
  apply conj; vm_compute; reflexivity.
Qed.

(** C1 (example). The example image, without a mask, with RADIUS = 1. *)
Lemma C1_example_image :
  mask_fits example_image None /\ 2 = 2 * 1 /\ 0 < 1 /\
  detect_local_minima 1 Scipy.grey_dilation_at Scipy.grey_erosion_at
    (gaussian_filter Scipy.unsmoothed_at (amap F32.of_Z example_image) 1) None
  = Ok (filter (off_border 1 6 6)
          (centers_in_mask Scipy.grey_dilation_at Scipy.grey_erosion_at
             (gaussian_filter Scipy.unsmoothed_at (amap F32.of_Z example_image) 1) None)).
Proof.
  apply conj; [exact I|]. apply conj; [reflexivity|]. apply conj; [exact (le_n 1)|].
  pose proof (C1_proposed_candidates 2 1 Scipy.unsmoothed_at Scipy.grey_dilation_at
                Scipy.grey_erosion_at example_image None I eq_refl (le_n 1)) as H.
  cbv zeta in H. exact (proj1 H).
Defined.

(** C2 (example). The candidates of the 6x6 example image keep one pixel
    to each edge. *)
Lemma C2_example_image :
  mask_fits example_image None /\ 2 = 2 * 1 /\
  exists minima,
    detect_local_minima 1 Scipy.grey_dilation_at Scipy.grey_erosion_at
      (gaussian_filter Scipy.unsmoothed_at (amap F32.of_Z example_image) 1) None
    = Ok minima /\
    forall x y, In (x, y) minima -> 1 <= x /\ x < 6 - 1 /\ 1 <= y /\ y < 6 - 1.
Proof.
  apply conj; [exact I|]. apply conj; [reflexivity|].
  pose proof (C2_border_exclusion 2 1 Scipy.unsmoothed_at Scipy.grey_dilation_at
                Scipy.grey_erosion_at example_image None I eq_refl) as H.
  destruct H as (minima & Hd & Hb & _).
  exists minima. apply conj; [exact Hd|].
  intros x y Hin. exact (proj1 (Hb x y Hin)).
Defined.

(** The boolean check of the 16-bit range is sound. *)
Lemma int16b_spec (z : Z) : int16b z = true -> int16 z.
Proof.
  unfold int16b, int16. rewrite andb_true_iff, !Z.leb_le. tauto.
Defined.

Lemma int16_samples_checked (a : array2 Z) :
  int16_samplesb a = true -> int16_samples a.
Proof.
  unfold int16_samplesb, int16_samples. rewrite forallb_forall.
  intros H i j Hi Hj. apply int16b_spec. apply (H (i, j)).
  apply in_indices. auto.
Defined.

(** C3 (example). The example image has minimum 0 and maximum 5; its
    normalization has minimum 0 and maximum 255. *)
Lemma C3_example_image :
  int16_samples example_image /\
  reduce Z.min example_image = Ok 0%Z /\ reduce Z.max example_image = Ok 5%Z /\
  exists out,
    normalize (F32 (amap F32.of_Z example_image)) = Ok out /\
    reduce Z.min out = Ok 0%Z /\ reduce Z.max out = Ok 255%Z.
Proof.
  assert (H16 : int16_samples example_image)
    by (apply int16_samples_checked; vm_compute; reflexivity).
  assert (Hmin : reduce Z.min example_image = Ok 0%Z) by (vm_compute; reflexivity).
  assert (Hmax : reduce Z.max example_image = Ok 5%Z) by (vm_compute; reflexivity).
  apply conj; [exact H16|]. apply conj; [exact Hmin|]. apply conj; [exact Hmax|].
  pose proof (C3_normalization example_image 0 5 H16 Hmin Hmax) as H.
  destruct H as (out & Hn & _ & _ & _ & Hr).
  exists out. apply conj; [exact Hn|]. apply Hr. reflexivity.
Defined.

Open Scope string_scope.

(** ** Characters of the written numbers *)

Lemma all_chars_app (P : ascii -> bool) (a b : string) :
  all_chars P (a ++ b) = all_chars P a && all_chars P b.
Proof.
  induction a as [|c a IH]; cbn [append all_chars]; [reflexivity|].
  now rewrite IH, andb_assoc.
Qed.

Lemma all_chars_weaken (P Q : ascii -> bool) (s : string) :
  (forall c, P c = true -> Q c = true) -> all_chars P s = true -> all_chars Q s = true.
Proof.
  intros H. induction s as [|c s IH]; cbn [all_chars]; [reflexivity|].
  rewrite !andb_true_iff. intros [Hc Hs]. auto.
Qed.

Lemma has_char_app (c : ascii) (a b : string) :
  has_char c (a ++ b) = has_char c a || has_char c b.
Proof.
  induction a as [|x a IH]; cbn [append has_char]; [reflexivity|].
  now rewrite IH, orb_assoc.
Qed.

Lemma all_chars_has_char (P : ascii -> bool) (c : ascii) (s : string) :
  P c = false -> all_chars P s = true -> has_char c s = false.
Proof.
  intros Hc. induction s as [|x s IH]; cbn [all_chars has_char]; [reflexivity|].
  rewrite andb_true_iff. intros [Hx Hs]. rewrite (IH Hs), orb_false_r.
  destruct (Ascii.eqb_spec x c) as [->|]; [congruence | reflexivity].
Qed.

Lemma uint_digits (d : uint) : all_chars is_digit (NilEmpty.string_of_uint d) = true.
Proof. induction d; cbn [NilEmpty.string_of_uint all_chars]; auto. Qed.

Lemma str_of_Z_nonneg (z : Z) :
  (0 <= z)%Z -> all_chars is_digit (str_of_Z z) = true /\ str_of_Z z <> EmptyString.
Proof.
  intros Hz. unfold str_of_Z. destruct z as [|p|p]; [| |lia].
  - split; [reflexivity | discriminate].
  - cbn [Z.to_int NilZero.string_of_int]. unfold NilZero.string_of_uint.
    pose proof (uint_digits (Pos.to_uint p)) as H.
    pose proof (Unsigned.to_uint_nonnil p) as Hn.
    destruct (Pos.to_uint p); try contradiction; split; try exact H; discriminate.
Qed.

Lemma pad_right_digits (n : nat) : forall s,
  all_chars is_digit s = true -> all_chars is_digit (pad_right n s) = true.
Proof.
  induction n as [|n IH]; intros s Hs; cbn [pad_right all_chars]; [reflexivity|].
  destruct s as [|c s]; cbn [all_chars] in *.
  - now rewrite IH.
  - apply andb_true_iff in Hs. destruct Hs as [-> Hs]. now rewrite IH.
Qed.

Lemma digit_is_numeral (c : ascii) : is_digit c = true -> numeral_char c = true.
Proof. unfold numeral_char. now intros ->. Qed.

(** The shape of a number written with ['%.18e']. *)
Lemma fmt_18e_shape (z : Z) :
  exists (sign : string) (lead : ascii) (frac expo : string),
    fmt_18e z = sign ++ String lead ("." ++ frac ++ "e+" ++ expo) /\
    (sign = EmptyString \/ sign = "-") /\
    is_digit lead = true /\ all_chars is_digit frac = true /\
    all_chars is_digit expo = true.
Proof.
  unfold fmt_18e.
  set (v := match float_trunc (F64.of_Z z) with Some v => v | None => z end).
  destruct (str_of_Z_nonneg (Z.abs v) (Z.abs_nonneg v)) as [Hd Hne].
  set (s := str_of_Z (Z.abs v)) in *.
  destruct (str_of_Z_nonneg (Z.of_nat (String.length s - 1)) (Nat2Z.is_nonneg _)) as [He _].
  set (e := str_of_Z (Z.of_nat (String.length s - 1))) in *.
  destruct s as [|lead rest]; [congruence|].
  cbn [all_chars] in Hd. apply andb_true_iff in Hd. destruct Hd as [Hl Hr].
  exists (if (v <? 0)%Z then "-" else EmptyString), lead, (pad_right 18 rest),
         (if Nat.ltb (String.length e) 2 then "0" ++ e else e).
  split; [reflexivity|]. split; [destruct (v <? 0)%Z; auto|].
  split; [assumption|]. split; [now apply pad_right_digits|].
  destruct (Nat.ltb (String.length e) 2); [|assumption].
  cbn [append all_chars]. now rewrite He.
Qed.

Lemma fmt_18e_chars (z : Z) : all_chars numeral_char (fmt_18e z) = true.
Proof.
  destruct (fmt_18e_shape z) as (sign & lead & frac & expo & -> & Hs & Hl & Hf & He).
  rewrite all_chars_app. cbn [all_chars].
  rewrite (digit_is_numeral lead Hl).
  change ("." ++ frac ++ "e+" ++ expo) with (String "." (frac ++ "e+" ++ expo)).
  cbn [all_chars]. rewrite !all_chars_app. cbn [all_chars].
  rewrite (all_chars_weaken is_digit numeral_char frac digit_is_numeral Hf).
  rewrite (all_chars_weaken is_digit numeral_char expo digit_is_numeral He).
  destruct Hs as [->| ->]; reflexivity.
Qed.

Lemma integer_numeral_no_point (s : string) :
  integer_numeral s = true -> has_char "." s = false.
Proof.
  assert (G : forall t, all_chars is_digit t = true -> has_char "." t = false)
    by (intros t; now apply all_chars_has_char).
  unfold integer_numeral. destruct s as [|c t]; [reflexivity|].
  destruct (Ascii.eqb_spec c "-") as [->|Hne].
  - rewrite andb_true_iff. intros [_ H]. cbn [has_char]. now rewrite (G t H).
  - assert (H : negb (String.eqb (String c t) EmptyString) && all_chars is_digit (String c t)
                = true -> has_char "." (String c t) = false).
    { rewrite andb_true_iff. intros [_ H]. now apply G. }
    destruct c as [[|] [|] [|] [|] [|] [|] [|] [|]]; try exact H; congruence.
Qed.

Lemma fmt_18e_not_integer (z : Z) : integer_numeral (fmt_18e z) = false.
Proof.
  destruct (integer_numeral (fmt_18e z)) eqn:H; [|reflexivity].
  apply integer_numeral_no_point in H.
  destruct (fmt_18e_shape z) as (sign & lead & frac & expo & E & _).
  rewrite E, has_char_app in H. cbn [has_char append] in H.
  rewrite Ascii.eqb_refl, !orb_true_r in H. discriminate.
Qed.

(** ** Splitting *)

Lemma split_on_nonempty (sep : ascii) (s : string) : split_on sep s <> [].
Proof.
  destruct s as [|c s]; cbn [split_on]; [discriminate|].
  destruct (split_on sep s); [discriminate|]. destruct (Ascii.eqb c sep); discriminate.
Qed.

Lemma split_on_whole (sep : ascii) (s : string) :
  has_char sep s = false -> split_on sep s = [s].
Proof.
  induction s as [|c s IH]; cbn [has_char split_on]; [reflexivity|].
  rewrite orb_false_iff. intros [Hc Hs]. now rewrite (IH Hs), Hc.
Qed.

Lemma split_on_app (sep : ascii) (a b : string) :
  has_char sep a = false ->
  split_on sep (a ++ String sep b) = a :: split_on sep b.
Proof.
  induction a as [|c a IH]; cbn [has_char append split_on].
  - intros _. destruct (split_on sep b) eqn:E; [now apply split_on_nonempty in E|].
    now rewrite Ascii.eqb_refl.
  - rewrite orb_false_iff. intros [Hc Ha]. now rewrite (IH Ha), Hc.
Qed.

Lemma concat_empty_cons (x : string) (xs : list string) :
  String.concat EmptyString (x :: xs) = x ++ String.concat EmptyString xs.
Proof.
  destruct xs as [|y ys]; cbn [String.concat append]; [|reflexivity].
  induction x as [|c x IH]; cbn [append]; [reflexivity | now rewrite <- IH].
Qed.

Lemma append_assoc (a b c : string) : (a ++ b) ++ c = a ++ (b ++ c).
Proof. induction a as [|x a IH]; cbn [append]; [reflexivity | now rewrite IH]. Qed.

Lemma fmt_18e_no (c : ascii) (z : Z) :
  numeral_char c = false -> has_char c (fmt_18e z) = false.
Proof. intros Hc. apply (all_chars_has_char numeral_char c); [assumption | apply fmt_18e_chars]. Qed.

Lemma table_line_one_line (p : nat * nat) :
  has_char (ascii_of_nat 10) (table_line p) = false.
Proof.
  unfold table_line. rewrite !has_char_app, !fmt_18e_no by reflexivity. reflexivity.
Qed.

Lemma table_line_fields (p : nat * nat) :
  split_on "," (table_line p) = [fmt_18e (Z.of_nat (fst p)); fmt_18e (Z.of_nat (snd p))].
Proof.
  unfold table_line. change ("," ++ fmt_18e (Z.of_nat (snd p)))
    with (String "," (fmt_18e (Z.of_nat (snd p)))).
  rewrite split_on_app by (now apply fmt_18e_no).
  rewrite split_on_whole by (now apply fmt_18e_no). reflexivity.
Qed.

Lemma savetxt_points (l : list (nat * nat)) :
  savetxt (data (table_of_points l)) =
    Ok (String.concat EmptyString (map (fun p => table_line p ++ nl) l)).
Proof.
  cbn [table_of_points data savetxt]. rewrite map_map. reflexivity.
Qed.

Lemma lines_of_table (l : list (nat * nat)) :
  split_on (ascii_of_nat 10)
    (String.concat EmptyString (map (fun p => table_line p ++ nl) l))
  = (map table_line l ++ [EmptyString])%list.
Proof.
  induction l as [|p l IH]; [reflexivity|].
  cbn [map]. rewrite concat_empty_cons, append_assoc.
  change (nl ++ ?x) with (String (ascii_of_nat 10) x).
  rewrite split_on_app by apply table_line_one_line.
  now rewrite IH.
Qed.

(** C8 (amended). The table written for a list of accepted candidates is
    text without a header that holds one line per candidate, in order;
    a line holds the row coordinate and the column coordinate, separated
    by one comma and each written in the ['%.18e'] notation (a digit, a
    point, eighteen digits and an exponent), which is never an integer
    numeral. *)
Theorem C8_table_text (l : list (nat * nat)) :
  exists text,
    savetxt (data (table_of_points l)) = Ok text /\
    text_lines text = map table_line l /\
    List.length (text_lines text) = List.length l /\
    (forall p, In p l ->
       split_on "," (table_line p)
       = [fmt_18e (Z.of_nat (fst p)); fmt_18e (Z.of_nat (snd p))]) /\
    (forall z, integer_numeral (fmt_18e z) = false /\
               exists sign lead frac expo,
                 fmt_18e z = sign ++ String lead ("." ++ frac ++ "e+" ++ expo) /\
                 (sign = EmptyString \/ sign = "-") /\
                 is_digit lead = true /\ all_chars is_digit frac = true /\
                 all_chars is_digit expo = true).
Proof.
  eexists. split; [apply savetxt_points|].
  assert (H : text_lines (String.concat EmptyString
                            (map (fun p => table_line p ++ nl) l)) = map table_line l).
  { unfold text_lines. rewrite lines_of_table. apply removelast_last. }
  split; [exact H|]. split; [now rewrite H, length_map|].
  split; [intros p _; apply table_line_fields|].
  intros z. split; [apply fmt_18e_not_integer | apply fmt_18e_shape].
Qed.

(** C8 (counterexample). The table of the single candidate (12, 34) is
    the line [1.200000000000000000e+01,3.400000000000000000e+01]; its two
    fields are not integer numerals, as those of [12,34] would be. *)
Lemma C8_coordinates_are_not_written_as_integers :
  savetxt (data (table_of_points [(12, 34)]))
    = Ok ("1.200000000000000000e+01,3.400000000000000000e+01" ++ nl)
  /\ map integer_numeral
         (split_on "," "1.200000000000000000e+01,3.400000000000000000e+01")
     = [false; false]
  /\ map integer_numeral (split_on "," "12,34") = [true; true].
Proof.
  apply conj; [|apply conj]; vm_compute; reflexivity.
Qed.

(** ** Directory lookups *)

Lemma lookup_replace_eq (name : string) (x : node) (d : folder) :
  lookup name (replace name x d) = Some x.
Proof.
  induction d as [|[n y] d IH]; cbn [replace lookup].
  - now rewrite String.eqb_refl.
  - destruct (String.eqb_spec n name) as [->|Hne]; cbn [lookup].
    + now rewrite String.eqb_refl.
    + destruct (String.eqb_spec n name); [contradiction | exact IH].
Qed.

Lemma lookup_replace_ne (name other : string) (x : node) (d : folder) :
  other <> name -> lookup other (replace name x d) = lookup other d.
Proof.
  intros Hne. induction d as [|[n y] d IH]; cbn [replace lookup].
  - destruct (String.eqb_spec name other); [congruence | reflexivity].
  - destruct (String.eqb_spec n name) as [->|Hn]; cbn [lookup].
    + destruct (String.eqb_spec name other); [congruence | reflexivity].
    + destruct (String.eqb_spec n other); [reflexivity | exact IH].
Qed.

Lemma write_file_ok (name : string) (c : content) (d d' : folder) :
  write_file name c d = Ok d' ->
  lookup name d' = Some (File c) /\
  forall other, other <> name -> lookup other d' = lookup other d.
Proof.
  unfold write_file. intros H.
  assert (d' = replace name (File c) d) as ->.
  { destruct (lookup name d) as [[?|?]|]; congruence. }
  split; [apply lookup_replace_eq | intros; now apply lookup_replace_ne].
Qed.

Lemma write_file_error (name : string) (c : content) (d : folder) (e : exn) :
  write_file name c d = Raise e ->
  e = OSError /\ exists sub, lookup name d = Some (Dir sub).
Proof.
  unfold write_file. destruct (lookup name d) as [[?|sub]|]; try discriminate.
  intros [= <-]. eauto.
Qed.

Lemma write_file_writable (name : string) (c : content) (d : folder) :
  writable name d -> write_file name c d = Ok (replace name (File c) d).
Proof.
  unfold writable, write_file. intros H.
  destruct (lookup name d) as [[?|sub]|]; try reflexivity. now destruct (H sub).
Qed.

Lemma writable_replace (name other : string) (c : content) (d : folder) :
  writable name d -> writable name (replace other (File c) d).
Proof.
  unfold writable. intros H sub.
  destruct (string_dec name other) as [->|Hne].
  - rewrite lookup_replace_eq. discriminate.
  - rewrite lookup_replace_ne by assumption. apply H.
Qed.

Lemma path_exists_lookup (name : string) (d d' : folder) :
  lookup name d' = lookup name d -> path_exists name d' = path_exists name d.
Proof. unfold path_exists. now intros ->. Qed.

(** ** Loops *)

Lemma for_each_total {E S : Type} (body : E -> S -> result S) (l : list E) :
  (forall e s, exists s', body e s = Ok s') ->
  forall s, exists s', for_each body l s = Ok s'.
Proof.
  intros H. induction l as [|e l IH]; intros s; cbn [for_each].
  - eauto.
  - destruct (H e s) as [s' ->]. cbn [bind]. apply IH.
Qed.

Lemma for_each_in_total {E S : Type} (body : E -> S -> result S) (l : list E) :
  (forall e s, In e l -> exists s', body e s = Ok s') ->
  forall s, exists s', for_each body l s = Ok s'.
Proof.
  induction l as [|e l IH]; intros H s; cbn [for_each].
  - eauto.
  - destruct (H e s (or_introl eq_refl)) as [s' ->]. cbn [bind].
    apply IH. intros; apply H; now right.
Qed.

(** ** The renderers never fail on a table of points *)

Lemma add_symbol_total (p : CreatePNG) (loc : Z * Z) :
  exists p', CreatePNG_add_symbol p loc = Ok p'.
Proof.
  unfold CreatePNG_add_symbol, catch_ValueError.
  match goal with |- exists p', match ?r with _ => _ end = _ => destruct r as [q|e] eqn:Hr end.
  - eauto.
  - assert (e = ValueError) as ->; [|eauto].
    revert Hr. 
    match goal with |- bind ?m _ = _ -> _ => destruct m eqn:H1; cbn [bind] end.
    + unfold assign_slice, broadcast_to.
      destruct (_ && _); cbn [bind]; [discriminate | congruence].
    + intros [= <-]. eapply broadcast2_error; eassumption.
Qed.

Lemma nd_item2_points (l : list (nat * nat)) (i : nat) :
  i < List.length l ->
  nd_item2 (data (table_of_points l)) i 0 = Ok (Z.of_nat (fst (nth i l (0, 0)))) /\
  nd_item2 (data (table_of_points l)) i 1 = Ok (Z.of_nat (snd (nth i l (0, 0)))).
Proof.
  intros Hi. cbn [table_of_points data nd_item2].
  rewrite nth_error_map.
  rewrite (nth_error_nth' l (0, 0) Hi). cbn. split; reflexivity.
Qed.

Lemma render_png_points (shape : nat * nat) (l : list (nat * nat)) :
  exists p, render_png shape (table_of_points l) (List.length l) = Ok p.
Proof.
  unfold render_png, for_range. apply for_each_in_total.
  intros i p Hin. apply in_seq in Hin.
  destruct (nd_item2_points l i) as [H0 H1]; [lia|]. rewrite H0, H1. cbn [bind].
  apply add_symbol_total.
Qed.

Lemma render_svg_points (shape : nat * nat) (l : list (nat * nat)) :
  exists s, render_svg shape (table_of_points l) (List.length l) = Ok s /\
            output_svgname s = "Boutons.svg".
Proof.
  unfold render_svg, for_range.
  assert (G : forall (idx : list nat) (s : CreateSVG),
             (forall i, In i idx -> i < List.length l) ->
             output_svgname s = "Boutons.svg" ->
             exists s', for_each (fun i svg =>
                 a <- nd_item2 (data (table_of_points l)) i 1 ;;
                 b <- nd_item2 (data (table_of_points l)) i 0 ;;
                 Ok (CreateSVG_add_symbol svg (a, b))) idx s = Ok s' /\
               output_svgname s' = "Boutons.svg").
  { induction idx as [|i idx IH]; intros s Hin Hs; cbn [for_each].
    - eauto.
    - destruct (nd_item2_points l i) as [H0 H1]; [apply Hin; now left|].
      rewrite H0, H1. cbn [bind]. apply IH; [intros; apply Hin; now right | exact Hs]. }
  apply G; [|reflexivity]. intros i Hi. apply in_seq in Hi. lia.
Qed.

Lemma render_png_name (shape : nat * nat) (tc : int_array) (n : nat) (p : CreatePNG) :
  render_png shape tc n = Ok p -> output_name p = "Boutons.png".
Proof.
  unfold render_png, for_range.
  assert (G : forall (idx : list nat) (q : CreatePNG),
             output_name q = "Boutons.png" ->
             for_each (fun i png =>
                 a <- nd_item2 (data tc) i 1 ;;
                 b <- nd_item2 (data tc) i 0 ;;
                 CreatePNG_add_symbol png (a, b)) idx q = Ok p ->
             output_name p = "Boutons.png").
  { induction idx as [|i idx IH]; intros q Hq; cbn [for_each].
    - now intros [= <-].
    - destruct (nd_item2 (data tc) i 1) as [a|]; cbn [bind]; [|discriminate].
      destruct (nd_item2 (data tc) i 0) as [b|]; cbn [bind]; [|discriminate].
      destruct (CreatePNG_add_symbol q (a, b)) as [q'|] eqn:Hq'; cbn [bind];
        [|discriminate].
      apply IH. revert Hq'. unfold CreatePNG_add_symbol, catch_ValueError.
      match goal with |- match ?r with _ => _ end = _ -> _ => destruct r as [q''|[]] eqn:Hr end;
        try discriminate; intros [= <-]; try assumption.
      revert Hr.
      match goal with |- bind ?m _ = _ -> _ => destruct m; cbn [bind]; [|discriminate] end.
      match goal with |- bind ?m _ = _ -> _ => destruct m; cbn [bind]; [|discriminate] end.
      intros [= <-]. exact Hq. }
  apply G. reflexivity.
Qed.

Lemma render_svg_name (shape : nat * nat) (tc : int_array) (n : nat) (s : CreateSVG) :
  render_svg shape tc n = Ok s -> output_svgname s = "Boutons.svg".
Proof.
  unfold render_svg, for_range.
  assert (G : forall (idx : list nat) (q : CreateSVG),
             output_svgname q = "Boutons.svg" ->
             for_each (fun i svg =>
                 a <- nd_item2 (data tc) i 1 ;;
                 b <- nd_item2 (data tc) i 0 ;;
                 Ok (CreateSVG_add_symbol svg (a, b))) idx q = Ok s ->
             output_svgname s = "Boutons.svg").
  { induction idx as [|i idx IH]; intros q Hq; cbn [for_each].
    - now intros [= <-].
    - destruct (nd_item2 (data tc) i 1) as [a|]; cbn [bind]; [|discriminate].
      destruct (nd_item2 (data tc) i 0) as [b|]; cbn [bind]; [|discriminate].
      apply IH. exact Hq. }
  apply G. reflexivity.
Qed.

Section PipelineFacts.

Variables SIZE RADIUS : nat.
Variable gaussian_filter_at : array2 spec_float -> nat -> nat -> nat -> spec_float.
Variable grey_dilation_at : array2 spec_float -> nat * nat -> nat -> nat -> spec_float.
Variable grey_erosion_at : array2 spec_float -> nat * nat -> nat -> nat -> spec_float.
Variable color : Z * Z * Z.

Local Abbreviation propose :=
  (local_minima_generate_points SIZE RADIUS gaussian_filter_at
     grey_dilation_at grey_erosion_at).
Local Abbreviation candidates :=
  (candidate_stage SIZE RADIUS gaussian_filter_at grey_dilation_at grey_erosion_at).
Local Abbreviation section_run :=
  (count_section SIZE RADIUS gaussian_filter_at grey_dilation_at grey_erosion_at color).
Local Abbreviation outputs := (output_stage color).

Lemma load_stage_frame (d d' : folder) (r : result (option (array2 Z))) :
  load_stage d = (r, d') ->
  forall name, name <> "Image.png" -> lookup name d' = lookup name d.
Proof.
  unfold load_stage. intros H name Hne.
  destruct (read_images d) as [[|[im|]]|e]; try (injection H as _ <-; reflexivity).
  destruct (normalize im) as [u|e]; try (injection H as _ <-; reflexivity).
  destruct (write_file "Image.png" (Picture (Grey u)) d) as [d1|e] eqn:Hw;
    injection H as _ <-; [|reflexivity].
  apply write_file_ok in Hw. now apply Hw.
Qed.

(** What the output stage leaves on disk. *)
Lemma output_stage_effect (shape : nat * nat) (true_cells : int_array)
    (oft : OutputFileType) (d d' : folder) (r : result unit) :
  outputs shape true_cells oft d = (r, d') ->
  (path_exists "Boutons.svg" d = true ->
   lookup "Boutons.svg" d' = lookup "Boutons.svg" d) /\
  (r = Ok tt -> png oft = true ->
   exists n p, nd_shape0 (data true_cells) = Ok n /\
               render_png shape true_cells n = Ok p /\
               lookup "Boutons.png" d' =
                 Some (File (Picture (Channels (CreatePNG_image color p))))) /\
  (r = Ok tt -> csv oft = true ->
   exists text, savetxt (data true_cells) = Ok text /\
                lookup "BoutonCount.csv" d' = Some (File (Text text))).
Proof.
  unfold output_stage. intros H.
  destruct (nd_shape0 (data true_cells)) as [n|e].
  2:{ injection H as <- <-. repeat split; try discriminate. }
  (* the vector step *)
  assert (Hsvg : forall d1,
             (if svg oft && negb (path_exists "Boutons.svg" d)
              then s <- render_svg shape true_cells n ;; CreateSVG_output s d
              else Ok d) = Ok d1 ->
             (path_exists "Boutons.svg" d = true -> d1 = d) /\
             (forall name, name <> "Boutons.svg" -> lookup name d1 = lookup name d)).
  { intros d1. destruct (svg oft && negb (path_exists "Boutons.svg" d)) eqn:Hc.
    - apply andb_true_iff in Hc. destruct Hc as [_ Hc]. apply negb_true_iff in Hc.
      destruct (render_svg shape true_cells n) as [s|] eqn:Hs; cbn [bind]; [|discriminate].
      intros Hw. unfold CreateSVG_output in Hw.
      rewrite (render_svg_name _ _ _ _ Hs) in Hw. apply write_file_ok in Hw.
      split; [congruence | apply Hw].
    - intros [= <-]. split; reflexivity. }
  destruct (if svg oft && negb (path_exists "Boutons.svg" d)
            then s <- render_svg shape true_cells n ;; CreateSVG_output s d
            else Ok d) as [d1|e] eqn:H1.
  2:{ injection H as <- <-. repeat split; try discriminate. }
  destruct (Hsvg d1 eq_refl) as [Hsame Hother1].
  (* the raster step *)
  assert (Hpng : forall d2,
             (if png oft
              then p <- render_png shape true_cells n ;; CreatePNG_output color p d1
              else Ok d1) = Ok d2 ->
             (forall name, name <> "Boutons.png" -> lookup name d2 = lookup name d1) /\
             (png oft = true ->
              exists p, render_png shape true_cells n = Ok p /\
                        lookup "Boutons.png" d2 =
                          Some (File (Picture (Channels (CreatePNG_image color p)))))).
  { intros d2. destruct (png oft).
    - destruct (render_png shape true_cells n) as [p|] eqn:Hp; cbn [bind]; [|discriminate].
      intros Hw. unfold CreatePNG_output in Hw.
      rewrite (render_png_name _ _ _ _ Hp) in Hw. apply write_file_ok in Hw.
      split; [apply Hw | intros _; exists p; split; [reflexivity | apply Hw]].
    - intros [= <-]. split; [reflexivity | discriminate]. }
  destruct (if png oft
            then p <- render_png shape true_cells n ;; CreatePNG_output color p d1
            else Ok d1) as [d2|e] eqn:H2.
  2:{ injection H as <- <-. split; [|split; discriminate].
      intros He. now rewrite (Hsame He). }
  destruct (Hpng d2 eq_refl) as [Hother2 Hpng2].
  (* the table step *)
  assert (Hcsv : forall d3,
             (if csv oft
              then text <- savetxt (data true_cells) ;;
                   write_file "BoutonCount.csv" (Text text) d2
              else Ok d2) = Ok d3 ->
             (forall name, name <> "BoutonCount.csv" -> lookup name d3 = lookup name d2) /\
             (csv oft = true ->
              exists text, savetxt (data true_cells) = Ok text /\
                           lookup "BoutonCount.csv" d3 = Some (File (Text text)))).
  { intros d3. destruct (csv oft).
    - destruct (savetxt (data true_cells)) as [text|] eqn:Ht; cbn [bind]; [|discriminate].
      intros Hw. apply write_file_ok in Hw.
      split; [apply Hw | intros _; exists text; split; [reflexivity | apply Hw]].
    - intros [= <-]. split; [reflexivity | discriminate]. }
  destruct (if csv oft
            then text <- savetxt (data true_cells) ;;
                 write_file "BoutonCount.csv" (Text text) d2
            else Ok d2) as [d3|e] eqn:H3.
  2:{ injection H as <- <-. split; [|split; discriminate].
      intros He. rewrite Hother2 by discriminate. now rewrite (Hsame He). }
  destruct (Hcsv d3 eq_refl) as [Hother3 Hcsv3].
  injection H as <- <-. split; [|split].
  - intros He. rewrite Hother3, Hother2 by discriminate. now rewrite (Hsame He).
  - intros _ Hp. destruct (Hpng2 Hp) as (p & Hr & Hl). exists n, p.
    repeat split; try assumption. now rewrite Hother3 by discriminate.
  - intros _ Hc. exact (Hcsv3 Hc).
Qed.

(** An existing vector file switches the vector renderer off. *)
Lemma output_stage_svg_skipped (shape : nat * nat) (true_cells : int_array)
    (oft : OutputFileType) (d : folder) :
  path_exists "Boutons.svg" d = true ->
  outputs shape true_cells oft d =
  outputs shape true_cells (mk_OutputFileType false (csv oft) (png oft)) d.
Proof.
  intros He. unfold output_stage. cbn [svg png csv]. rewrite He.
  cbn [negb andb]. now rewrite andb_false_r.
Qed.

(** On a table of points the output stage completes when no directory
    stands in the way of an output file. *)
Lemma output_stage_points (shape : nat * nat) (l : list (nat * nat))
    (oft : OutputFileType) (d : folder) :
  writable "Boutons.svg" d -> writable "Boutons.png" d -> writable "BoutonCount.csv" d ->
  exists d', outputs shape (table_of_points l) oft d = (Ok tt, d').
Proof.
  intros Ws Wp Wc. unfold output_stage.
  assert (Hn : nd_shape0 (data (table_of_points l)) = Ok (List.length l))
    by (cbn; now rewrite length_map).
  rewrite Hn.
  assert (exists d1, (if svg oft && negb (path_exists "Boutons.svg" d)
              then s <- render_svg shape (table_of_points l) (List.length l) ;;
                   CreateSVG_output s d
              else Ok d) = Ok d1 /\ writable "Boutons.png" d1 /\
              writable "BoutonCount.csv" d1) as (d1 & -> & Wp1 & Wc1).
  { destruct (svg oft && negb (path_exists "Boutons.svg" d)).
    - destruct (render_svg_points shape l) as (s & -> & Hs). cbn [bind].
      unfold CreateSVG_output. rewrite Hs, write_file_writable by assumption.
      eexists. split; [reflexivity|]. split; now apply writable_replace.
    - eauto. }
  assert (exists d2, (if png oft
              then p <- render_png shape (table_of_points l) (List.length l) ;;
                   CreatePNG_output color p d1
              else Ok d1) = Ok d2 /\ writable "BoutonCount.csv" d2) as (d2 & -> & Wc2).
  { destruct (png oft).
    - destruct (render_png_points shape l) as (p & Hp). rewrite Hp. cbn [bind].
      unfold CreatePNG_output. rewrite (render_png_name _ _ _ _ Hp).
      rewrite write_file_writable by assumption.
      eexists. split; [reflexivity|]. now apply writable_replace.
    - eauto. }
  destruct (csv oft).
  - cbn [table_of_points data savetxt bind].
    rewrite write_file_writable by assumption. eauto.
  - eauto.
Qed.

(** With the table on disk the candidate stage reads it and leaves the
    classifier alone. *)
Lemma candidate_stage_cached (arr : array2 Z) (model : classifier)
    (d : folder) (calls : batches) :
  path_exists "BoutonCount.csv" d = true ->
  candidates arr model d calls =
    (match lookup "BoutonCount.csv" d with
     | Some (File (Text s)) => loadtxt_int16 s
     | Some (File (Picture _)) => Raise ValueError
     | _ => Raise OSError
     end, calls).
Proof. intros H. unfold candidate_stage. now rewrite H. Qed.

(** X2. With the table on disk, a section run calls the classifier not
    once and does not depend on it: runs with two different classifiers
    end with the same result, the same directory and the same calls. *)
Lemma count_section_cached (directory : folder) (model model' : classifier)
    (oft : OutputFileType) (calls : batches) :
  path_exists "BoutonCount.csv" directory = true ->
  section_run directory model oft calls = section_run directory model' oft calls /\
  snd (section_run directory model oft calls) = calls.
Proof.
  intros H. unfold count_section.
  destruct (load_stage directory) as [[[arr|]|e] d] eqn:Hl; [|split; reflexivity..].
  assert (Hd : path_exists "BoutonCount.csv" d = true).
  { rewrite (path_exists_lookup "BoutonCount.csv" directory d); [exact H|].
    apply (load_stage_frame _ _ _ Hl). discriminate. }
  destruct (any oft); [|split; reflexivity].
  rewrite !candidate_stage_cached by assumption.
  destruct (match lookup "BoutonCount.csv" d with
            | Some (File (Text s)) => loadtxt_int16 s
            | Some (File (Picture _)) => Raise ValueError
            | _ => Raise OSError
            end) as [tc|e]; [|split; reflexivity].
  destruct (outputs (shape0 arr, shape1 arr) tc oft d). split; reflexivity.
Qed.

End PipelineFacts.

Lemma accepted_none (COMs : list (nat * nat)) (output : array2 spec_float) :
  shape0 output = List.length COMs -> 0 < shape1 output ->
  (forall s, In s (score_column output) -> above_threshold s = false) ->
  accepted COMs output = Ok [].
Proof.
  intros Hn Hk Hall.
  rewrite (accepted_filter COMs output Hn Hk). f_equal.
  assert (L : List.length (score_column output) = List.length COMs)
    by (unfold score_column; now rewrite length_map, length_seq).
  revert L Hall. generalize (score_column output). clear.
  induction COMs as [|c COMs IH]; intros [|s scores] L Hall; cbn in *; try reflexivity;
    try discriminate.
  rewrite (Hall s (or_introl eq_refl)). apply IH; [lia | auto].
Qed.

Section PipelineClaims.

Variables SIZE RADIUS : nat.
Variable gaussian_filter_at : array2 spec_float -> nat -> nat -> nat -> spec_float.
Variable grey_dilation_at : array2 spec_float -> nat * nat -> nat -> nat -> spec_float.
Variable grey_erosion_at : array2 spec_float -> nat * nat -> nat -> nat -> spec_float.
Variable color : Z * Z * Z.

Local Abbreviation detect := (detect_local_minima RADIUS grey_dilation_at grey_erosion_at).
Local Abbreviation propose :=
  (local_minima_generate_points SIZE RADIUS gaussian_filter_at
     grey_dilation_at grey_erosion_at).
Local Abbreviation smoothed arr :=
  (gaussian_filter gaussian_filter_at (amap F32.of_Z arr) 1).
Local Abbreviation candidates :=
  (candidate_stage SIZE RADIUS gaussian_filter_at grey_dilation_at grey_erosion_at).
Local Abbreviation section_run :=
  (count_section SIZE RADIUS gaussian_filter_at grey_dilation_at grey_erosion_at color).
Local Abbreviation outputs := (output_stage color).

(** C7. The proposal stage fails with the assertion error of line 121
    (the spec's NoCandidatesError) exactly when its candidate set is
    empty.  When candidates were proposed and the classifier scores none
    of them above the threshold, the candidate stage returns an empty
    table and the output stage completes: no error. *)
Theorem C7_no_candidates (arr : array2 Z) (mask : option (array2 bool)) :
  (propose arr mask = Raise AssertionError <-> detect (smoothed arr) mask = Ok []) /\
  (forall X COMs (model : classifier) d calls,
     path_exists "BoutonCount.csv" d = false ->
     load_mask arr d = Ok mask ->
     propose arr mask = Ok (X, COMs) ->
     shape0 (model X) = List.length COMs -> 0 < shape1 (model X) ->
     (forall s, In s (score_column (model X)) -> above_threshold s = false) ->
     candidates arr model d calls = (Ok (table_of_points []), (calls ++ [X])%list) /\
     forall oft shape,
       writable "Boutons.svg" d -> writable "Boutons.png" d ->
       writable "BoutonCount.csv" d ->
       exists d', outputs shape (table_of_points []) oft d = (Ok tt, d')).
Proof.
  split; [apply propose_assertion|].
  intros X COMs model d calls Hcsv Hmask Hp Hn Hk Hall. split.
  - unfold candidate_stage. rewrite Hcsv, Hmask. cbn [bind]. rewrite Hp.
    now rewrite (accepted_none COMs (model X) Hn Hk Hall).
  - intros oft shape Ws Wp Wc. now apply output_stage_points.
Qed.

(** C10 (amended). In a run that reaches the output stage, a vector file
    that is already there is left as it is and the vector renderer is not
    run even when vector output is requested, while the raster image and
    the table are written anew, whatever was there, whenever they are
    requested and the run completes without an exception; on a table of
    points the output stage does complete. *)
Theorem C10_existing_vector_file_is_kept
    (directory : folder) (model : classifier) (oft : OutputFileType) (calls : batches)
    (arr : array2 Z) (d1 : folder) (true_cells : int_array) (calls1 : batches) :
  load_stage directory = (Ok (Some arr), d1) ->
  candidates arr model d1 calls = (Ok true_cells, calls1) ->
  any oft = true ->
  exists r d',
    section_run directory model oft calls = (r, d', calls1) /\
    outputs (shape0 arr, shape1 arr) true_cells oft d1 = (r, d') /\
    (path_exists "Boutons.svg" directory = true ->
       lookup "Boutons.svg" d' = lookup "Boutons.svg" directory /\
       outputs (shape0 arr, shape1 arr) true_cells oft d1 =
       outputs (shape0 arr, shape1 arr) true_cells
         (mk_OutputFileType false (csv oft) (png oft)) d1) /\
    (r = Ok tt -> png oft = true ->
       exists n p, nd_shape0 (data true_cells) = Ok n /\
                   render_png (shape0 arr, shape1 arr) true_cells n = Ok p /\
                   lookup "Boutons.png" d' =
                     Some (File (Picture (Channels (CreatePNG_image color p))))) /\
    (r = Ok tt -> csv oft = true ->
       exists text, savetxt (data true_cells) = Ok text /\
                    lookup "BoutonCount.csv" d' = Some (File (Text text))) /\
    (forall l, true_cells = table_of_points l ->
       writable "Boutons.svg" d1 -> writable "Boutons.png" d1 ->
       writable "BoutonCount.csv" d1 -> r = Ok tt).
Proof.
  intros Hl Hc Ha.
  destruct (outputs (shape0 arr, shape1 arr) true_cells oft d1) as [r d'] eqn:Ho.
  exists r, d'. split.
  { unfold count_section. rewrite Hl, Ha, Hc, Ho. reflexivity. }
  split; [reflexivity|].
  destruct (output_stage_effect color _ _ _ _ _ _ Ho) as (Hsvg & Hpng & Hcsv).
  assert (Hframe : lookup "Boutons.svg" d1 = lookup "Boutons.svg" directory)
    by (apply (load_stage_frame _ _ _ Hl); discriminate).
  split; [|split; [exact Hpng|split; [exact Hcsv|]]].
  - intros He.
    assert (He1 : path_exists "Boutons.svg" d1 = true)
      by (rewrite (path_exists_lookup "Boutons.svg" directory d1); assumption).
    split.
    + rewrite (Hsvg He1). exact Hframe.
    + rewrite <- Ho. now apply output_stage_svg_skipped.
  - intros l -> Ws Wp Wc.
    destruct (output_stage_points color (shape0 arr, shape1 arr) l oft d1 Ws Wp Wc)
      as (d2 & Hd2).
    rewrite Hd2 in Ho. now injection Ho as <- _.
Qed.

End PipelineClaims.

(** C10 (counterexample). A run with the raster requested on a section
    whose image is flat: the proposal stage finds no candidate, the run
    stops with the assertion error of line 121, and the raster image of
    the earlier run is still there, not regenerated. *)
Lemma C10_raster_is_not_regenerated :
  png only_png = true
  /\ fst (fst (run_section flat_section accept_all only_png)) = Raise AssertionError
  /\ lookup "Boutons.png" (snd (fst (run_section flat_section accept_all only_png)))
     = Some (File stale_png).
Proof.
  apply conj; [|apply conj]; vm_compute; reflexivity.
Qed.

(** C10 (example). The example section with a vector file already in
    place, every output requested: the run keeps the text of the file. *)
Lemma C10_example_run :
  let directory := section_with_svg in
  let arr := loaded_image (load_stage directory) in
  let d1 := snd (load_stage directory) in
  let stage := candidate_stage 2 1 Scipy.unsmoothed_at Scipy.grey_dilation_at
                 Scipy.grey_erosion_at arr accept_all d1 [] in
  load_stage directory = (Ok (Some arr), d1) /\
  stage = (Ok (the_table stage), snd stage) /\
  any all_outputs = true /\
  exists r d',
    run_section directory accept_all all_outputs = (r, d', snd stage) /\
    text_of "Boutons.svg" d' = Some "<svg>kept</svg>".
Proof.
  cbv zeta.
  assert (H1 : load_stage section_with_svg
               = (Ok (Some (loaded_image (load_stage section_with_svg))),
                  snd (load_stage section_with_svg))).
  { assert (Hb : is_loaded (load_stage section_with_svg) = true)
      by (vm_compute; reflexivity).
    unfold is_loaded, loaded_image in *.
    destruct (load_stage section_with_svg) as [[[a|]|e] d]; cbn [fst snd] in *;
      try discriminate; reflexivity. }
  set (arr := loaded_image (load_stage section_with_svg)) in *.
  set (d1 := snd (load_stage section_with_svg)) in *.
  set (stage := candidate_stage 2 1 Scipy.unsmoothed_at Scipy.grey_dilation_at
                  Scipy.grey_erosion_at arr accept_all d1 []).
  assert (H2 : stage = (Ok (the_table stage), snd stage)).
  { assert (Hb : is_table stage = true) by (vm_compute; reflexivity).
    unfold is_table, the_table in *.
    destruct stage as [[t|e] c]; cbn [fst snd] in *; try discriminate; reflexivity. }
  split; [exact H1|]. split; [exact H2|]. split; [reflexivity|].
  destruct (C10_existing_vector_file_is_kept 2 1 Scipy.unsmoothed_at
              Scipy.grey_dilation_at Scipy.grey_erosion_at (255, 0, 0)%Z
              section_with_svg accept_all all_outputs [] arr d1 (the_table stage)
              (snd stage) H1 H2 eq_refl)
    as (r & d' & Hrun & _ & Hsvg & _).
  exists r, d'. split; [exact Hrun|].
  unfold text_of. destruct (Hsvg eq_refl) as [-> _]. reflexivity.
Defined.

(** C4 (failing input). The example section is processed once with the
    table requested; its single accepted candidate (3, 3) is written as
    one line.  Run again on the result, the pipeline reads the line back
    as a 1-D array of two numbers: with the raster requested it stops with
    an IndexError, with the table requested it overwrites the file with
    two lines of one number; the classifier is called in neither run.  A
    coordinate above 32767 comes back wrapped to 16 bits. *)
Theorem C4_table_is_not_read_back :
  fst (fst (run_section example_section accept_all only_csv)) = Ok tt
  /\ text_of "BoutonCount.csv" cached_section
     = Some ("3.000000000000000000e+00,3.000000000000000000e+00" ++ nl)
  /\ (match text_of "BoutonCount.csv" cached_section with
      | Some s => a <- loadtxt_int16 s ;; Ok (data a)
      | None => Raise OSError
      end) = Ok (Arr1 [3; 3]%Z)
  /\ fst (fst (run_section cached_section accept_all only_png)) = Raise IndexError
  /\ snd (run_section cached_section accept_all only_png) = []
  /\ fst (fst (run_section cached_section accept_all only_csv)) = Ok tt
  /\ snd (run_section cached_section accept_all only_csv) = []
  /\ text_of "BoutonCount.csv" (snd (fst (run_section cached_section accept_all only_csv)))
     = Some ("3.000000000000000000e+00" ++ nl ++ "3.000000000000000000e+00" ++ nl)
  /\ (text <- savetxt (Arr2 [[40000; 12]; [5; 6]]%Z) ;;
      a <- loadtxt_int16 text ;; Ok (data a))
     = Ok (Arr2 [[-25536; 12]; [5; 6]]%Z).
Proof.
  repeat (apply conj; [vm_compute; reflexivity|]). vm_compute. reflexivity.
Qed.

(** C6 (failing input). A brain whose first section has a 100x200 image
    and a 100x150 mask: the section stops with the TypeError raised by
    the message of line 265 before anything is proposed or classified,
    the error leaves [count_brain], and the second section, which is
    processed without error on its own, is never reached. *)
Theorem C6_mismatch_aborts_the_batch :
  brain_outcome = (Raise TypeError, [], Some ["Image.png"; "Mask.png"], Some ["Image.png"])
  /\ fst (fst (run_section example_section accept_all all_outputs)) = Ok tt
  /\ map fst (snd (fst (run_section example_section accept_all all_outputs)))
     = ["Image.png"; "Boutons.svg"; "Boutons.png"; "BoutonCount.csv"].
Proof.
  apply conj; [|apply conj]; vm_compute; reflexivity.
Qed.

Close Scope string_scope.

(** * Further properties of the code *)

(** ** The second normalization *)


Lemma reduce_bounds (f : Z -> Z -> Z) (a : array2 Z) (m : Z) :
  reduce f a = Ok m -> 0 < shape0 a /\ 0 < shape1 a.
Proof.
  unfold reduce. destruct (values a) as [|v vs] eqn:Hv; [discriminate|]. intros _.
  assert (Hin : In v (values a)) by (rewrite Hv; now left).
  apply in_values in Hin. destruct Hin as (i & j & Hi & Hj & _). lia.
Qed.




(** ** The table on disk *)

(** X2 (example). The example section with its table on disk, run with a
    classifier that accepts everything and with one that rejects
    everything. *)
Lemma cached_run_example :
  path_exists "BoutonCount.csv" cached_section = true /\
  run_section cached_section accept_all only_csv
    = run_section cached_section reject_all only_csv /\
  snd (run_section cached_section accept_all only_csv) = [].
Proof.
  apply conj; [reflexivity|].
  exact (count_section_cached 2 1 Scipy.unsmoothed_at Scipy.grey_dilation_at
           Scipy.grey_erosion_at (255, 0, 0)%Z cached_section accept_all reject_all
           only_csv [] eq_refl).
Defined.

(** ** The proposal stage at its edges *)

Lemma filter_none {A : Type} (f : A -> bool) (l : list A) :
  (forall a, In a l -> f a = false) -> filter f l = [].
Proof.
  induction l as [|a l IH]; intros H; cbn [filter]; [reflexivity|].
  rewrite (H a (or_introl eq_refl)). apply IH. intros; apply H; now right.
Qed.

(** X3. With [RADIUS = 0] the slice [-RADIUS:] of lines 110 and 112 is the
    whole axis: every pixel is cleared and the proposal stage fails with
    the assertion error on every image. *)
Theorem radius_zero_proposes_nothing (SIZE : nat)
    (gaussian_filter_at : array2 spec_float -> nat -> nat -> nat -> spec_float)
    (grey_dilation_at grey_erosion_at : array2 spec_float -> nat * nat -> nat -> nat -> spec_float)
    (arr : array2 Z) (mask : option (array2 bool)) :
  mask_fits arr mask ->
  local_minima_generate_points SIZE 0 gaussian_filter_at grey_dilation_at
    grey_erosion_at arr mask = Raise AssertionError.
Proof.
  intros Hmask. apply propose_assertion.
  assert (Hfit : mask_fits (gaussian_filter gaussian_filter_at (amap F32.of_Z arr) 1) mask)
    by exact Hmask.
  rewrite (detect_is_filter 0 grey_dilation_at grey_erosion_at _ mask Hfit).
  f_equal. apply filter_none. intros p _. unfold kept. cbn [Nat.eqb negb andb].
  now rewrite andb_false_r.
Qed.

(** X3 (example). The example image with [RADIUS = 0]. *)
Lemma radius_zero_example :
  mask_fits example_image None /\
  local_minima_generate_points 2 0 Scipy.unsmoothed_at Scipy.grey_dilation_at
    Scipy.grey_erosion_at example_image None = Raise AssertionError.
Proof.
  apply conj; [exact I|].
  exact (radius_zero_proposes_nothing 2 Scipy.unsmoothed_at Scipy.grey_dilation_at
           Scipy.grey_erosion_at example_image None I).
Defined.

Lemma NoDup_indices (r c : nat) : NoDup (indices r c).
Proof.
  unfold indices. generalize (seq_NoDup c 0). generalize (seq 0 c). intros l2 H2.
  generalize (seq_NoDup r 0). generalize (seq 0 r). intros l1 H1.
  induction H1 as [|a l1 Ha H1 IH]; cbn [list_prod]; [constructor|].
  apply NoDup_app.
  - clear -H2. induction H2 as [|b l2 Hb H2 IH]; cbn [map]; constructor; [|exact IH].
    intros Hin. apply in_map_iff in Hin. destruct Hin as (z & [= <-] & Hz). contradiction.
  - exact IH.
  - intros [x y] Hin1 Hin2. apply in_map_iff in Hin1. destruct Hin1 as (z & [= <- <-] & _).
    apply in_prod_iff in Hin2. tauto.
Qed.

Lemma mapM_length {A B : Type} (f : A -> result B) (l : list A) :
  forall bs, mapM f l = Ok bs -> List.length bs = List.length l.
Proof.
  induction l as [|a l IH]; cbn [mapM]; [now intros bs [= <-]|].
  intros bs. destruct (f a) as [b|]; cbn [bind]; [|discriminate].
  destruct (mapM f l) as [bs'|]; cbn [bind]; [|discriminate].
  intros [= <-]. cbn [List.length]. f_equal. now apply IH.
Qed.

Lemma propose_lengths (SIZE RADIUS : nat)
    (gaussian_filter_at : array2 spec_float -> nat -> nat -> nat -> spec_float)
    (grey_dilation_at grey_erosion_at : array2 spec_float -> nat * nat -> nat -> nat -> spec_float)
    (arr : array2 Z) (mask : option (array2 bool))
    (X : list (array2 spec_float)) (COMs : list (nat * nat)) :
  local_minima_generate_points SIZE RADIUS gaussian_filter_at grey_dilation_at
    grey_erosion_at arr mask = Ok (X, COMs) ->
  List.length X = List.length COMs.
Proof.
  rewrite propose_unfold.
  destruct (detect_local_minima _ _ _ _ _) as [minima|]; cbn [bind]; [|discriminate].
  destruct (Nat.ltb 0 (List.length minima)); [|discriminate].
  destruct (mapM (extract_patch SIZE RADIUS arr) minima) as [X'|] eqn:HX; cbn [bind];
    [|discriminate].
  intros [= <- <-]. now apply mapM_length in HX.
Qed.

(** X4. Whatever the filters compute: a result of the proposal stage holds at
    least one candidate, one patch per candidate, no candidate twice, and
    every candidate is a pixel of the image. *)
Theorem proposal_result_shape (SIZE RADIUS : nat)
    (gaussian_filter_at : array2 spec_float -> nat -> nat -> nat -> spec_float)
    (grey_dilation_at grey_erosion_at : array2 spec_float -> nat * nat -> nat -> nat -> spec_float)
    (arr : array2 Z) (mask : option (array2 bool))
    (X : list (array2 spec_float)) (COMs : list (nat * nat)) :
  mask_fits arr mask ->
  local_minima_generate_points SIZE RADIUS gaussian_filter_at grey_dilation_at
    grey_erosion_at arr mask = Ok (X, COMs) ->
  COMs <> [] /\ List.length X = List.length COMs /\ NoDup COMs /\
  (forall p, In p COMs -> fst p < shape0 arr /\ snd p < shape1 arr) /\
  (forall x, In x X -> shape0 x = SIZE /\ shape1 x = SIZE).
Proof.
  intros Hmask. rewrite propose_unfold.
  assert (Hfit : mask_fits (gaussian_filter gaussian_filter_at (amap F32.of_Z arr) 1) mask)
    by exact Hmask.
  rewrite (detect_is_filter RADIUS grey_dilation_at grey_erosion_at _ mask Hfit).
  cbn [bind gaussian_filter amap shape0 shape1].
  match goal with |- context [filter ?f ?l] => set (minima := filter f l) end.
  destruct minima as [|p l] eqn:Hm; [discriminate|].
  cbn [List.length Nat.ltb Nat.leb].
  destruct (mapM (extract_patch SIZE RADIUS arr) (p :: l)) as [X'|] eqn:HX; cbn [bind];
    [|discriminate].
  intros [= <- <-]. split; [discriminate|]. split; [now apply mapM_length in HX|].
  split; [|split].
  - rewrite <- Hm. apply NoDup_filter, NoDup_indices.
  - intros [i j] Hin. rewrite <- Hm in Hin. apply filter_In in Hin.
    destruct Hin as [Hin _]. apply in_indices in Hin. exact Hin.
  - revert X' HX. generalize (p :: l). clear.
    induction l as [|q l IH]; cbn [mapM]; [intros X' [= <-] x []|].
    intros X'. destruct (extract_patch SIZE RADIUS arr q) as [b|] eqn:Hb; cbn [bind];
      [|discriminate].
    destruct (mapM (extract_patch SIZE RADIUS arr) l) as [bs|]; cbn [bind]; [|discriminate].
    intros [= <-] x [<-|Hin]; [|now apply (IH bs)].
    revert Hb. unfold extract_patch, broadcast_to.
    destruct (_ && _); [|discriminate]. intros [= <-]. split; reflexivity.
Qed.

(** X4 (example). The proposal for the example image. *)
Lemma proposal_result_example :
  mask_fits example_image None /\
  exists X,
    local_minima_generate_points 2 1 Scipy.unsmoothed_at Scipy.grey_dilation_at
      Scipy.grey_erosion_at example_image None = Ok (X, [(3, 3)]) /\
    List.length X = 1.
Proof.
  apply conj; [exact I|].
  destruct (local_minima_generate_points 2 1 Scipy.unsmoothed_at Scipy.grey_dilation_at
              Scipy.grey_erosion_at example_image None) as [[X COMs]|e] eqn:H.
  - assert (HC : COMs = [(3, 3)]).
    { pose proof (f_equal proposed H) as HP. cbn [proposed bind snd] in HP.
      assert (HE : proposed (local_minima_generate_points 2 1 Scipy.unsmoothed_at
                    Scipy.grey_dilation_at Scipy.grey_erosion_at example_image None)
                   = Ok [(3, 3)]) by (vm_compute; reflexivity).
      rewrite HE in HP. now injection HP as <-. }
    subst COMs. exists X. apply conj; [reflexivity|].
    exact (proj1 (proj2 (proposal_result_shape 2 1 Scipy.unsmoothed_at
                           Scipy.grey_dilation_at Scipy.grey_erosion_at
                           example_image None X [(3, 3)] I H))).
  - exfalso.
    assert (HE : proposed (local_minima_generate_points 2 1 Scipy.unsmoothed_at
                  Scipy.grey_dilation_at Scipy.grey_erosion_at example_image None)
                 = Ok [(3, 3)]) by (vm_compute; reflexivity).
    rewrite H in HE. discriminate.
Defined.

Open Scope string_scope.

(** ** What a section run leaves alone *)

Lemma normalize_range (im : image) (u : array2 Z) :
  normalize im = Ok u -> forall i j, (0 <= item u i j <= 255)%Z.
Proof.
  destruct im as [a|a]; cbn [normalize]; unfold normalize_u8, normalize_f32;
    destruct (reduce _ a); cbn [bind]; try discriminate;
    destruct (reduce _ a); cbn [bind]; try discriminate;
    intros [= <-] i j; cbn [amap item]; apply float_as_uint8_range.
Qed.

(** X5. The loading stage (lines 199-240) writes no file but [Image.png]; when
    it returns an image, [Image.png] holds that image, whose samples are
    8-bit, and when it does not, the directory is as it was. *)
Theorem load_stage_writes_only_the_image (d d' : folder)
    (r : result (option (array2 Z))) :
  load_stage d = (r, d') ->
  (forall name, name <> "Image.png" -> lookup name d' = lookup name d) /\
  (forall u, r = Ok (Some u) ->
     lookup "Image.png" d' = Some (File (Picture (Grey u))) /\
     forall i j, (0 <= item u i j <= 255)%Z) /\
  ((forall u, r <> Ok (Some u)) -> d' = d).
Proof.
  intros H. split; [exact (load_stage_frame d d' r H)|].
  revert H. unfold load_stage.
  destruct (read_images d) as [[|[im|]]|e]; try (intros [= <- <-]; split;
    [intros u; discriminate | reflexivity]).
  destruct (normalize im) as [u|e] eqn:Hn;
    [|intros [= <- <-]; split; [intros u; discriminate | reflexivity]].
  destruct (write_file "Image.png" (Picture (Grey u)) d) as [d1|e] eqn:Hw;
    intros [= <- <-].
  - split.
    + intros u' [= <-]. split; [exact (proj1 (write_file_ok _ _ _ _ Hw))|].
      exact (normalize_range im u Hn).
    + intros Hno. now destruct (Hno u).
  - split; [intros u'; discriminate | reflexivity].
Qed.

(** X5 (example). Loading a section with a mask and a text file. *)
Lemma load_stage_example :
  load_stage masked_section
    = (fst (load_stage masked_section), snd (load_stage masked_section)) /\
  text_of "notes.txt" (snd (load_stage masked_section)) = Some "left alone" /\
  lookup "Mask.png" (snd (load_stage masked_section)) = lookup "Mask.png" masked_section.
Proof.
  pose proof (load_stage_writes_only_the_image masked_section
                (snd (load_stage masked_section)) (fst (load_stage masked_section))
                (surjective_pairing _)) as H.
  destruct H as (Hf & _ & _).
  apply conj; [apply surjective_pairing|]. apply conj.
  - unfold text_of. rewrite Hf by discriminate. reflexivity.
  - apply Hf. discriminate.
Defined.

Lemma write_file_other (name other : string) (c : content) (d d' : folder) :
  write_file name c d = Ok d' -> other <> name -> lookup other d' = lookup other d.
Proof. intros H Hne. now apply (write_file_ok name c d d' H). Qed.

Section Frames.

Variables SIZE RADIUS : nat.
Variable gaussian_filter_at : array2 spec_float -> nat -> nat -> nat -> spec_float.
Variable grey_dilation_at : array2 spec_float -> nat * nat -> nat -> nat -> spec_float.
Variable grey_erosion_at : array2 spec_float -> nat * nat -> nat -> nat -> spec_float.
Variable color : Z * Z * Z.

Local Abbreviation section_run :=
  (count_section SIZE RADIUS gaussian_filter_at grey_dilation_at grey_erosion_at color).
Local Abbreviation brain_run :=
  (count_brain SIZE RADIUS gaussian_filter_at grey_dilation_at grey_erosion_at color).
Local Abbreviation sections_run :=
  (count_sections SIZE RADIUS gaussian_filter_at grey_dilation_at grey_erosion_at color).

Lemma output_stage_frame (shape : nat * nat) (true_cells : int_array)
    (oft : OutputFileType) (d d' : folder) (r : result unit) :
  output_stage color shape true_cells oft d = (r, d') ->
  forall name,
    (name = "Boutons.svg" -> svg oft = false) ->
    (name = "Boutons.png" -> png oft = false) ->
    (name = "BoutonCount.csv" -> csv oft = false) ->
    lookup name d' = lookup name d.
Proof.
  intros H name Hs Hp Hc. revert H. unfold output_stage.
  destruct (nd_shape0 (data true_cells)) as [n|e]; [|now intros [= _ <-]].
  assert (E1 : forall d1,
             (if svg oft && negb (path_exists "Boutons.svg" d)
              then s <- render_svg shape true_cells n ;; CreateSVG_output s d
              else Ok d) = Ok d1 -> lookup name d1 = lookup name d).
  { intros d1. destruct (svg oft) eqn:Hsvg; cbn [andb]; [|now intros [= <-]].
    destruct (negb _); [|now intros [= <-]].
    destruct (render_svg shape true_cells n) as [s|] eqn:Hr; cbn [bind]; [|discriminate].
    unfold CreateSVG_output. intros Hw.
    assert (Hname : output_svgname s = "Boutons.svg").
    { revert Hr. unfold render_svg, for_range.
      generalize (seq 0 n). intros idx.
      assert (G : forall q, output_svgname q = "Boutons.svg" ->
                 for_each (fun i svg =>
                     a <- nd_item2 (data true_cells) i 1 ;;
                     b <- nd_item2 (data true_cells) i 0 ;;
                     Ok (CreateSVG_add_symbol svg (a, b))) idx q = Ok s ->
                 output_svgname s = "Boutons.svg").
      { induction idx as [|i idx IH]; intros q Hq; cbn [for_each]; [now intros [= <-]|].
        destruct (nd_item2 (data true_cells) i 1); cbn [bind]; [|discriminate].
        destruct (nd_item2 (data true_cells) i 0); cbn [bind]; [|discriminate].
        apply IH. exact Hq. }
      apply G. reflexivity. }
    rewrite Hname in Hw. apply (write_file_other _ _ _ _ _ Hw).
    intros ->. specialize (Hs eq_refl). congruence. }
  destruct (if svg oft && negb (path_exists "Boutons.svg" d) then _ else _) as [d1|e];
    [|now intros [= _ <-]].
  specialize (E1 d1 eq_refl).
  assert (E2 : forall d2,
             (if png oft
              then p <- render_png shape true_cells n ;; CreatePNG_output color p d1
              else Ok d1) = Ok d2 -> lookup name d2 = lookup name d1).
  { intros d2. destruct (png oft) eqn:Hpng; [|now intros [= <-]].
    destruct (render_png shape true_cells n) as [p|] eqn:Hr; cbn [bind]; [|discriminate].
    unfold CreatePNG_output. rewrite (render_png_name shape true_cells n p Hr). intros Hw.
    apply (write_file_other _ _ _ _ _ Hw). intros ->. specialize (Hp eq_refl). congruence. }
  destruct (if png oft then _ else _) as [d2|e]; [|now intros [= _ <-]].
  specialize (E2 d2 eq_refl).
  assert (E3 : forall d3,
             (if csv oft
              then text <- savetxt (data true_cells) ;;
                   write_file "BoutonCount.csv" (Text text) d2
              else Ok d2) = Ok d3 -> lookup name d3 = lookup name d2).
  { intros d3. destruct (csv oft) eqn:Hcsv; [|now intros [= <-]].
    destruct (savetxt (data true_cells)) as [text|]; cbn [bind]; [|discriminate].
    intros Hw. apply (write_file_other _ _ _ _ _ Hw).
    intros ->. specialize (Hc eq_refl). congruence. }
  destruct (if csv oft then _ else _) as [d3|e].
  - intros [= _ <-]. rewrite (E3 d3 eq_refl). congruence.
  - intros [= _ <-]. congruence.
Qed.

(** X6. A section run changes no file of the section directory other than
    [Image.png], [Boutons.svg], [Boutons.png] and [BoutonCount.csv] (the
    mask and the microscope's tiles are never modified or deleted), and of
    the three outputs only those that were requested. *)
Theorem count_section_touches_only_its_outputs (directory : folder)
    (model : classifier) (oft : OutputFileType) (calls : batches)
    (r : result unit) (d' : folder) (calls' : batches) :
  section_run directory model oft calls = (r, d', calls') ->
  (forall name, section_output name = false -> lookup name d' = lookup name directory) /\
  (svg oft = false -> lookup "Boutons.svg" d' = lookup "Boutons.svg" directory) /\
  (png oft = false -> lookup "Boutons.png" d' = lookup "Boutons.png" directory) /\
  (csv oft = false ->
   lookup "BoutonCount.csv" d' = lookup "BoutonCount.csv" directory).
Proof.
  intros H.
  assert (G : forall name, name <> "Image.png" ->
              (name = "Boutons.svg" -> svg oft = false) ->
              (name = "Boutons.png" -> png oft = false) ->
              (name = "BoutonCount.csv" -> csv oft = false) ->
              lookup name d' = lookup name directory).
  { intros name Hi Hs Hp Hc. revert H. unfold count_section.
    destruct (load_stage directory) as [[[u|]|e] d1] eqn:Hl.
    - destruct (any oft).
      + destruct (candidate_stage _ _ _ _ _ _ _ _ _) as [[tc|e] c1].
        * destruct (output_stage color (shape0 u, shape1 u) tc oft d1) as [r1 d2] eqn:Ho.
          intros [= _ <- _].
          rewrite (output_stage_frame _ _ _ _ _ _ Ho name Hs Hp Hc).
          now apply (load_stage_frame _ _ _ Hl).
        * intros [= _ <- _]. now apply (load_stage_frame _ _ _ Hl).
      + intros [= _ <- _]. now apply (load_stage_frame _ _ _ Hl).
    - intros [= _ <- _]. now apply (load_stage_frame _ _ _ Hl).
    - intros [= _ <- _]. now apply (load_stage_frame _ _ _ Hl). }
  split; [|split; [|split]].
  - intros name Hn. unfold section_output in Hn. rewrite !orb_false_iff in Hn.
    destruct Hn as [[[H1 H2] H3] H4].
    apply String.eqb_neq in H1, H2, H3, H4. apply G; congruence.
  - intros Hs. apply G; [discriminate | auto | discriminate | discriminate].
  - intros Hp. apply G; [discriminate | discriminate | auto | discriminate].
  - intros Hc. apply G; [discriminate | discriminate | discriminate | auto].
Qed.

Lemma replace_names (name : string) (x : node) (d : folder) :
  lookup name d <> None -> map fst (replace name x d) = map fst d.
Proof.
  induction d as [|[n y] d IH]; cbn [lookup replace]; [congruence|].
  destruct (String.eqb n name); cbn [map fst]; [reflexivity|].
  intros H. now rewrite IH.
Qed.

Lemma count_sections_frame (names : list string) :
  forall (brain : folder) (model : classifier) (oft : OutputFileType) (calls : batches),
    map fst (snd (fst (sections_run names brain model oft calls))) = map fst brain /\
    forall name c, lookup name brain = Some (File c) ->
      lookup name (snd (fst (sections_run names brain model oft calls))) = Some (File c).
Proof.
  induction names as [|n names IH]; intros brain model oft calls; cbn [count_sections].
  - split; [reflexivity | auto].
  - destruct (lookup n brain) as [[c|section]|] eqn:Hn; try apply IH.
    assert (Hkeep : forall section' name c,
               lookup name brain = Some (File c) ->
               lookup name (replace n (Dir section') brain) = Some (File c)).
    { intros section' name c Hc. rewrite lookup_replace_ne; [exact Hc|].
      intros ->. congruence. }
    destruct (count_section _ _ _ _ _ _ section model oft calls) as [[[u|e] section'] calls'].
    + destruct (IH (replace n (Dir section') brain) model oft calls') as [I1 I2].
      split.
      * rewrite I1. apply replace_names. congruence.
      * intros name c Hc. apply I2. now apply Hkeep.
    + cbn [fst snd]. split; [apply replace_names; congruence | apply Hkeep].
Qed.

(** X7. A run over a brain directory keeps the names of the directory, in
    their order, and leaves every plain file at the brain level as it
    was: only section directories are entered. *)
Theorem count_brain_enters_only_directories (brain : folder) (model : classifier)
    (oft : OutputFileType) (calls : batches) :
  map fst (snd (fst (brain_run brain model oft calls))) = map fst brain /\
  forall name c, lookup name brain = Some (File c) ->
    lookup name (snd (fst (brain_run brain model oft calls))) = Some (File c).
Proof. apply count_sections_frame. Qed.

End Frames.

(** X6 (example). A run with the table requested leaves the text file
    alone and writes no raster image. *)
Lemma section_frame_example :
  run_section masked_section accept_all only_csv
    = (fst (fst (run_section masked_section accept_all only_csv)),
       snd (fst (run_section masked_section accept_all only_csv)),
       snd (run_section masked_section accept_all only_csv)) /\
  text_of "notes.txt" (snd (fst (run_section masked_section accept_all only_csv)))
    = Some "left alone" /\
  lookup "Boutons.png" (snd (fst (run_section masked_section accept_all only_csv))) = None.
Proof.
  assert (E : forall x : result unit * folder * batches, x = (fst (fst x), snd (fst x), snd x))
    by (intros [[a b] c]; reflexivity).
  pose proof (count_section_touches_only_its_outputs 2 1 Scipy.unsmoothed_at
                Scipy.grey_dilation_at Scipy.grey_erosion_at (255, 0, 0)%Z
                masked_section accept_all only_csv [] _ _ _
                (E (run_section masked_section accept_all only_csv))) as H.
  destruct H as (Hf & _ & Hp & _).
  apply conj; [apply E|]. apply conj.
  - unfold text_of. rewrite (Hf "notes.txt" eq_refl). reflexivity.
  - rewrite (Hp eq_refl). reflexivity.
Defined.

Close Scope string_scope.

(** ** The raster symbol *)

Lemma wrap_int64_small (z : Z) :
  (- 2 ^ 63 <= z < 2 ^ 63)%Z -> wrap Int64 z = z.
Proof.
  intros H. unfold wrap. rewrite Z.mod_small; lia.
Qed.

(** The window [x - 3 : x + 4] of an axis of extent [n]: seven pixels
    when [x] keeps 3 pixels to both ends, fewer otherwise. *)
Lemma symbol_window (n x : nat) :
  x < n -> (Z.of_nat n < 2 ^ 62)%Z ->
  let s := py_slice n (Some (wrap Int64 (Z.of_nat x - 3)))
                      (Some (wrap Int64 (wrap Int64 (Z.of_nat x + 3) + 1))) in
  (3 <= x /\ x + 3 < n -> s = (x - 3, x + 4)) /\
  (~ (3 <= x /\ x + 3 < n) -> slice_len s < 7).
Proof.
  intros Hx Hn s. subst s.
  assert (P : (2 ^ 62 < 2 ^ 63)%Z) by reflexivity.
  rewrite (wrap_int64_small (Z.of_nat x - 3)) by lia.
  rewrite (wrap_int64_small (Z.of_nat x + 3)) by lia.
  rewrite (wrap_int64_small (Z.of_nat x + 3 + 1)) by lia.
  unfold py_slice, py_clip, slice_len. cbn [fst snd].
  destruct (Z.ltb_spec (Z.of_nat x - 3) 0), (Z.ltb_spec (Z.of_nat x + 3 + 1) 0);
    split; intros G; try lia; try (f_equal; lia).
Qed.

Lemma symbol_is_7x7 : shape0 disk_symbol = 7 /\ shape1 disk_symbol = 7.
Proof. split; reflexivity. Qed.

Lemma disk_symbol_item (a b : nat) :
  item disk_symbol a b = ((Z.of_nat a - 3) ^ 2 + (Z.of_nat b - 3) ^ 2 <=? 3 ^ 2)%Z.
Proof. reflexivity. Qed.

Lemma outside_the_disk (a b : Z) :
  (4 <= a \/ a <= -4 \/ 4 <= b \/ b <= -4)%Z -> (3 ^ 2 < a ^ 2 + b ^ 2)%Z.
Proof.
  intros H. rewrite !Z.pow_2_r.
  pose proof (Z.square_nonneg a). pose proof (Z.square_nonneg b).
  destruct H as [H|[H|[H|H]]]; nia.
Qed.

Lemma add_symbol_skips (self : CreatePNG) (loc : Z * Z) :
  symbol_shape self = disk_symbol ->
  let r := Z.of_nat (radius self) in
  let rs := py_slice (shape0 (arr self)) (Some (wrap Int64 (snd loc - r)))
              (Some (wrap Int64 (wrap Int64 (snd loc + r) + 1))) in
  let cs := py_slice (shape1 (arr self)) (Some (wrap Int64 (fst loc - r)))
              (Some (wrap Int64 (wrap Int64 (fst loc + r) + 1))) in
  slice_len rs <> 7 \/ slice_len cs <> 7 ->
  CreatePNG_add_symbol self loc = Ok self.
Proof.
  intros Hs r rs cs Hlen. unfold CreatePNG_add_symbol. fold r. fold rs. fold cs.
  rewrite Hs. unfold broadcast2, assign_slice, broadcast_to.
  cbn [slice2 shape0 shape1]. rewrite (proj1 symbol_is_7x7), (proj2 symbol_is_7x7).
  unfold broadcast_dim. revert Hlen.
  generalize (slice_len rs) as lr. generalize (slice_len cs) as lc. intros lc lr Hlen.
  destruct (Nat.eqb_spec lr 7) as [->|N7]; destruct (Nat.eqb_spec lc 7) as [->|M7];
    [exfalso; tauto | | |];
    try destruct (Nat.eqb_spec lr 1) as [->|N1]; try destruct (Nat.eqb_spec lc 1) as [->|M1];
    cbn [bind shape0 shape1];
    repeat match goal with
           | |- context [Nat.eqb ?a ?b] =>
               destruct (Nat.eqb_spec a b) as [?|?]; try lia
           end;
    cbn [bind shape0 shape1 orb andb catch_ValueError]; reflexivity.
Qed.

(** The effect of one symbol on a canvas, for a candidate inside the
    canvas. *)
Lemma add_symbol_effect (self : CreatePNG) (row col : nat) :
  canvas self ->
  row < shape0 (arr self) -> col < shape1 (arr self) ->
  exists self',
    CreatePNG_add_symbol self (Z.of_nat col, Z.of_nat row) = Ok self' /\
    canvas self' /\ output_name self' = output_name self /\
    shape0 (arr self') = shape0 (arr self) /\ shape1 (arr self') = shape1 (arr self) /\
    forall i j, i < shape0 (arr self) -> j < shape1 (arr self) ->
      item (arr self') i j =
        item (arr self) i j
        || in_symbol (shape0 (arr self), shape1 (arr self)) (row, col) (i, j).
Proof.
  intros (Hr & Hs & H0 & H1) Hrow Hcol.
  destruct (symbol_window (shape0 (arr self)) row Hrow H0) as [R1 R2].
  destruct (symbol_window (shape1 (arr self)) col Hcol H1) as [C1 C2].
  destruct (off_border 3 (shape0 (arr self)) (shape1 (arr self)) (row, col)) eqn:Hoff.
  - (* the whole symbol fits *)
    pose proof Hoff as Hin. unfold off_border in Hin. cbn [fst snd] in Hin.
    rewrite !andb_true_iff, !Nat.leb_le, !Nat.ltb_lt in Hin.
    specialize (R1 ltac:(lia)). specialize (C1 ltac:(lia)).
    unfold CreatePNG_add_symbol. cbn [fst snd]. rewrite Hr.
    change (Z.of_nat 3) with 3%Z. rewrite R1, C1, Hs.
    unfold broadcast2, assign_slice, broadcast_to.
    cbn [slice2 shape0 shape1].
    rewrite (proj1 symbol_is_7x7), (proj2 symbol_is_7x7).
    assert (L : forall x, 3 <= x -> slice_len (x - 3, x + 4) = 7)
      by (intros x Hx; unfold slice_len; cbn [fst snd]; lia).
    rewrite !(L row), !(L col) by lia.
    unfold broadcast_dim.
    cbn [Nat.eqb bind shape0 shape1 orb andb catch_ValueError].
    eexists. split; [reflexivity|]. cbn [arr radius symbol_shape output_name shape0 shape1].
    split; [repeat split; assumption|]. split; [reflexivity|].
    split; [reflexivity|]. split; [reflexivity|].
    intros i j Hi Hj. cbn [item]. unfold in_symbol. cbn [fst snd]. rewrite Hoff.
    cbn [andb]. unfold in_slice, in_disk. cbn [fst snd bidx Nat.eqb].
    destruct (Nat.leb (row - 3) i && Nat.ltb i (row + 4)
              && (Nat.leb (col - 3) j && Nat.ltb j (col + 4))) eqn:W.
    + rewrite !andb_true_iff, !Nat.leb_le, !Nat.ltb_lt in W.
      cbn [slice2 item fst snd].
      replace (row - 3 + (i - (row - 3))) with i by lia.
      replace (col - 3 + (j - (col - 3))) with j by lia.
      rewrite disk_symbol_item.
      replace (Z.of_nat (i - (row - 3)) - 3)%Z with (Z.of_nat i - Z.of_nat row)%Z by lia.
      replace (Z.of_nat (j - (col - 3)) - 3)%Z with (Z.of_nat j - Z.of_nat col)%Z by lia.
      reflexivity.
    + assert (F : ((Z.of_nat i - Z.of_nat row) ^ 2 + (Z.of_nat j - Z.of_nat col) ^ 2
                   <=? 3 ^ 2)%Z = false).
      { apply Z.leb_gt. rewrite !andb_false_iff, !Nat.leb_gt, !Nat.ltb_ge in W.
        apply outside_the_disk. lia. }
      rewrite F. now rewrite orb_false_r.
  - (* a window smaller than the symbol *)
    assert (Hlen : slice_len (py_slice (shape0 (arr self))
                     (Some (wrap Int64 (Z.of_nat row - 3)))
                     (Some (wrap Int64 (wrap Int64 (Z.of_nat row + 3) + 1)))) <> 7 \/
                   slice_len (py_slice (shape1 (arr self))
                     (Some (wrap Int64 (Z.of_nat col - 3)))
                     (Some (wrap Int64 (wrap Int64 (Z.of_nat col + 3) + 1)))) <> 7).
    { unfold off_border in Hoff. cbn [fst snd] in Hoff.
      rewrite !andb_false_iff, !Nat.leb_gt, !Nat.ltb_ge in Hoff.
      destruct Hoff as [[[H|H]|H]|H];
        [left; specialize (R2 ltac:(lia)) | left; specialize (R2 ltac:(lia))
        | right; specialize (C2 ltac:(lia)) | right; specialize (C2 ltac:(lia))]; lia. }
    pose proof (add_symbol_skips self (Z.of_nat col, Z.of_nat row) Hs) as Hskip.
    cbv zeta in Hskip. cbn [fst snd] in Hskip. rewrite Hr in Hskip.
    change (Z.of_nat 3) with 3%Z in Hskip. specialize (Hskip Hlen).
    exists self. split; [exact Hskip|]. split; [repeat split; assumption|].
    split; [reflexivity|]. split; [reflexivity|]. split; [reflexivity|].
    intros i j _ _. unfold in_symbol. cbn [fst snd]. rewrite Hoff.
    cbn [andb]. now rewrite orb_false_r.
Qed.

(** X8. [CreatePNG.add_symbol] never fails.  For a candidate that keeps 3
    pixels to every edge of the canvas it sets the 29 pixels of the disk
    of radius 3 around the candidate and changes no other pixel; for a
    candidate nearer to an edge the sliced window is smaller than the
    symbol, numpy's [ValueError] is caught, and nothing is drawn. *)
Theorem add_symbol_draws_a_disk_or_nothing (self : CreatePNG) (row col : nat) :
  canvas self ->
  row < shape0 (arr self) -> col < shape1 (arr self) ->
  (forall loc, exists self', CreatePNG_add_symbol self loc = Ok self') /\
  exists self',
    CreatePNG_add_symbol self (Z.of_nat col, Z.of_nat row) = Ok self' /\
    canvas self' /\ output_name self' = output_name self /\
    shape0 (arr self') = shape0 (arr self) /\ shape1 (arr self') = shape1 (arr self) /\
    forall i j, i < shape0 (arr self) -> j < shape1 (arr self) ->
      item (arr self') i j =
        item (arr self) i j
        || in_symbol (shape0 (arr self), shape1 (arr self)) (row, col) (i, j).
Proof.
  intros C Hrow Hcol. split.
  - intros loc. apply add_symbol_total.
  - now apply add_symbol_effect.
Qed.

(** X8 (example). On a 20x20 canvas the candidate (10, 10) sets 29
    pixels, the candidate (1, 10) none. *)
Lemma add_symbol_example :
  canvas (CreatePNG_init "Boutons.png" (20, 20)) /\ 10 < 20 /\ 1 < 20 /\
  (p <- CreatePNG_add_symbol (CreatePNG_init "Boutons.png" (20, 20)) (10, 10)%Z ;;
   Ok (List.length (np_where (arr p)))) = Ok 29 /\
  exists p, CreatePNG_add_symbol (CreatePNG_init "Boutons.png" (20, 20)) (10, 1)%Z = Ok p /\
            item (arr p) 1 10 = false.
Proof.
  assert (C : canvas (CreatePNG_init "Boutons.png" (20, 20))).
  { split; [reflexivity|]. split; [reflexivity|]. split; reflexivity. }
  assert (L10 : 10 < 20) by (repeat constructor).
  assert (L1 : 1 < 20) by (repeat constructor).
  apply conj; [exact C|]. apply conj; [exact L10|]. apply conj; [exact L1|].
  apply conj; [vm_compute; reflexivity|].
  pose proof (add_symbol_draws_a_disk_or_nothing
                (CreatePNG_init "Boutons.png" (20, 20)) 1 10 C L1 L10) as H.
  destruct H as (_ & p & Hp & _ & _ & _ & _ & Hi).
  exists p. apply conj; [exact Hp|]. exact (Hi 1 10 L1 L10).
Defined.

(** ** The raster image of a table of points *)

Lemma render_png_as_loop (shape : nat * nat) (l2 : list (nat * nat)) :
  forall (l1 : list (nat * nat)) (png : CreatePNG),
    for_each (fun i png =>
                a <- nd_item2 (data (table_of_points (l1 ++ l2))) i 1 ;;
                b <- nd_item2 (data (table_of_points (l1 ++ l2))) i 0 ;;
                CreatePNG_add_symbol png (a, b))
             (seq (List.length l1) (List.length l2)) png
    = for_each (fun p png =>
                  CreatePNG_add_symbol png (Z.of_nat (snd p), Z.of_nat (fst p)))
               l2 png.
Proof.
  induction l2 as [|p l2 IH]; intros l1 png; cbn [List.length seq for_each]; [reflexivity|].
  destruct (nd_item2_points (l1 ++ p :: l2) (List.length l1)) as [E0 E1].
  { rewrite length_app. cbn [List.length]. lia. }
  rewrite E0, E1. cbn [bind]. rewrite nth_middle.
  destruct (CreatePNG_add_symbol png (Z.of_nat (snd p), Z.of_nat (fst p))) as [png'|e];
    cbn [bind]; [|reflexivity].
  specialize (IH (l1 ++ [p]) png').
  rewrite <- app_assoc, length_app in IH. cbn [List.length List.app] in IH.
  rewrite Nat.add_1_r in IH. exact IH.
Qed.

Lemma symbols_loop (l : list (nat * nat)) :
  forall png : CreatePNG,
    canvas png ->
    (forall p, In p l -> fst p < shape0 (arr png) /\ snd p < shape1 (arr png)) ->
    exists png',
      for_each (fun p png =>
                  CreatePNG_add_symbol png (Z.of_nat (snd p), Z.of_nat (fst p)))
               l png = Ok png' /\
      output_name png' = output_name png /\
      shape0 (arr png') = shape0 (arr png) /\ shape1 (arr png') = shape1 (arr png) /\
      forall i j, i < shape0 (arr png) -> j < shape1 (arr png) ->
        item (arr png') i j =
          item (arr png) i j
          || existsb (fun p => in_symbol (shape0 (arr png), shape1 (arr png)) p (i, j)) l.
Proof.
  induction l as [|p l IH]; intros png C Hin; cbn [for_each existsb].
  - exists png. split; [reflexivity|]. split; [reflexivity|]. split; [reflexivity|].
    split; [reflexivity|]. intros. now rewrite orb_false_r.
  - destruct (Hin p (or_introl eq_refl)) as [Hr Hc].
    destruct (add_symbol_effect png (fst p) (snd p) C Hr Hc)
      as (png1 & -> & C1 & N1 & S0 & S1 & I1).
    cbn [bind].
    destruct (IH png1 C1) as (png2 & -> & N2 & T0 & T1 & I2).
    { intros q Hq. rewrite S0, S1. apply Hin. now right. }
    exists png2. split; [reflexivity|]. split; [congruence|].
    split; [congruence|]. split; [congruence|].
    intros i j Hi Hj. rewrite I2 by congruence. rewrite I1 by assumption.
    rewrite S0, S1. destruct p as [row col]. cbn [fst snd]. now rewrite orb_assoc.
Qed.

(** X9. The raster image written for a table of accepted candidates shows,
    in the alpha channel, the union of the disks of radius 3 around the
    candidates that keep 3 pixels to every edge of the image; a candidate
    nearer to an edge leaves no mark.  The three colour channels are the
    chosen colour everywhere. *)
Theorem raster_is_the_union_of_the_symbols (color : Z * Z * Z) (shape : nat * nat)
    (l : list (nat * nat)) :
  (Z.of_nat (fst shape) < 2 ^ 62)%Z -> (Z.of_nat (snd shape) < 2 ^ 62)%Z ->
  (forall p, In p l -> fst p < fst shape /\ snd p < snd shape) ->
  exists png,
    render_png shape (table_of_points l) (List.length l) = Ok png /\
    output_name png = "Boutons.png"%string /\
    shape0 (arr png) = fst shape /\ shape1 (arr png) = snd shape /\
    forall i j, i < fst shape -> j < snd shape ->
      item (arr png) i j = existsb (fun p => in_symbol shape p (i, j)) l /\
      item (CreatePNG_image color png) i j
      = [(fst (fst color) mod 256)%Z; (snd (fst color) mod 256)%Z; (snd color mod 256)%Z;
         if existsb (fun p => in_symbol shape p (i, j)) l then 255%Z else 0%Z].
Proof.
  intros H0 H1 Hin. unfold render_png, for_range.
  pose proof (render_png_as_loop shape l [] (CreatePNG_init "Boutons.png" shape)) as E.
  cbn [List.app List.length] in E. rewrite E.
  destruct (symbols_loop l (CreatePNG_init "Boutons.png" shape)) as (png & -> & N & S0 & S1 & I).
  { split; [reflexivity|]. split; [reflexivity|]. split; assumption. }
  { exact Hin. }
  cbn [CreatePNG_init arr shape0 shape1 output_name item] in N, S0, S1, I.
  exists png. split; [reflexivity|]. split; [exact N|]. split; [exact S0|].
  split; [exact S1|]. intros i j Hi Hj.
  assert (P : item (arr png) i j = existsb (fun p => in_symbol shape p (i, j)) l).
  { rewrite (I i j Hi Hj). cbn [orb]. destruct shape; reflexivity. }
  split; [exact P|].
  unfold CreatePNG_image. destruct color as [[c0 c1] c2]. cbn [item fst snd].
  now rewrite P.
Qed.

(** X9 (example). The candidates (10, 10) and (1, 10) on a 20x20
    canvas. *)
Lemma raster_example :
  (Z.of_nat 20 < 2 ^ 62)%Z /\
  (forall p, In p [(10, 10); (1, 10)] -> fst p < 20 /\ snd p < 20) /\
  exists png,
    render_png (20, 20) (table_of_points [(10, 10); (1, 10)]) 2 = Ok png /\
    item (arr png) 12 10 = true /\ item (arr png) 1 10 = false.
Proof.
  assert (B : (Z.of_nat 20 < 2 ^ 62)%Z) by reflexivity.
  assert (Hin : forall p, In p [(10, 10); (1, 10)] -> fst p < 20 /\ snd p < 20).
  { intros p [<-|[<-|[]]]; cbn [fst snd]; split; repeat constructor. }
  apply conj; [exact B|]. apply conj; [exact Hin|].
  pose proof (raster_is_the_union_of_the_symbols (255, 0, 0)%Z (20, 20)
                [(10, 10); (1, 10)] B B Hin) as H.
  destruct H as (png & Hr & _ & _ & _ & Hi).
  exists png. apply conj; [exact Hr|]. apply conj.
  - apply (Hi 12 10); repeat constructor.
  - apply (Hi 1 10); repeat constructor.
Defined.

Open Scope string_scope.

(** ** Reading back the table *)

Lemma coordinates_checked : all_from coordinate_checked 0 (Z.to_nat 32768) = true.
Proof. vm_cast_no_check (eq_refl true). Qed.

(** *** Runs of digits *)

Lemma read_digits_stop (u : bool) (s : string) (acc : Z) (count : nat) :
  match s with
  | EmptyString => True
  | String c _ => digit_of c = None /\ Ascii.eqb c "_" = false
  end ->
  read_digits u s acc count = (acc, count, s).
Proof.
  destruct s as [|c s]; cbn [read_digits]; [reflexivity|].
  intros [-> E]. rewrite E, andb_false_r. cbn [andb]. now destruct s.
Qed.

Lemma is_digit_value (c : ascii) :
  is_digit c = true -> exists d, digit_of c = Some d /\ (0 <= d <= 9)%Z.
Proof.
  unfold is_digit, digit_of.
  destruct (Nat.leb_spec 48 (nat_of_ascii c)), (Nat.leb_spec (nat_of_ascii c) 57);
    cbn [andb]; try discriminate.
  intros _. eexists. split; [reflexivity | lia].
Qed.

Lemma append_empty (a : string) : a ++ EmptyString = a.
Proof. induction a as [|c a IH]; cbn [append]; congruence. Qed.

Lemma read_digits_app (a : string) :
  all_chars is_digit a = true ->
  forall u b acc count,
    read_digits u (a ++ b) acc count
    = read_digits u b (acc * 10 ^ Z.of_nat (String.length a) + digits_value a)%Z
                      (count + String.length a).
Proof.
  unfold digits_value.
  induction a as [|c a IH]; intros Ha u b acc count.
  - cbn [append String.length read_digits fst]. f_equal; [| lia].
    change (Z.of_nat 0) with 0%Z. lia.
  - cbn [all_chars] in Ha. apply andb_true_iff in Ha. destruct Ha as [Hc Ha].
    destruct (is_digit_value c Hc) as (d & Hd & _).
    cbn [append String.length read_digits]. rewrite Hd.
    rewrite (IH Ha u b).
    pose proof (IH Ha true EmptyString (0 * 10 + d)%Z 1) as E.
    rewrite append_empty in E. rewrite E. cbn [read_digits fst].
    f_equal; [| lia]. rewrite Nat2Z.inj_succ, Z.pow_succ_r by lia. ring.
Qed.

Lemma digits_value_cons (c : ascii) (d : Z) (a : string) :
  digit_of c = Some d -> all_chars is_digit a = true ->
  digits_value (String c a) = (d * 10 ^ Z.of_nat (String.length a) + digits_value a)%Z.
Proof.
  intros Hd Ha. unfold digits_value at 1. cbn [read_digits]. rewrite Hd.
  pose proof (read_digits_app a Ha true EmptyString (0 * 10 + d)%Z 1) as E.
  rewrite append_empty in E. rewrite E. cbn [read_digits fst]. ring.
Qed.

Lemma pad_right_zeros (n : nat) :
  all_chars is_digit (pad_right n EmptyString) = true /\
  String.length (pad_right n EmptyString) = n /\
  digits_value (pad_right n EmptyString) = 0%Z.
Proof.
  induction n as [|n (I1 & I2 & I3)]; [repeat split|].
  cbn [pad_right all_chars String.length]. rewrite I1, I2.
  split; [reflexivity|]. split; [reflexivity|].
  rewrite (digits_value_cons "0" 0) by (reflexivity || assumption). rewrite I3. lia.
Qed.

Lemma pad_right_digits_run (n : nat) (s : string) :
  String.length s <= n -> all_chars is_digit s = true ->
  all_chars is_digit (pad_right n s) = true /\
  String.length (pad_right n s) = n /\
  digits_value (pad_right n s)
  = (digits_value s * 10 ^ Z.of_nat (n - String.length s))%Z.
Proof.
  revert s. induction n as [|n IH]; intros s Hn Hs.
  - destruct s; [|cbn in Hn; lia]. repeat split.
  - destruct s as [|c s].
    + destruct (pad_right_zeros (S n)) as (Z1 & Z2 & Z3).
      split; [exact Z1|]. split; [exact Z2|]. rewrite Z3. reflexivity.
    + cbn [all_chars] in Hs. apply andb_true_iff in Hs. destruct Hs as [Hc Hs].
      cbn [String.length] in Hn.
      destruct (IH s ltac:(lia) Hs) as (I1 & I2 & I3).
      destruct (is_digit_value c Hc) as (d & Hd & _).
      cbn [pad_right all_chars String.length]. rewrite Hc, I1, I2.
      split; [reflexivity|]. split; [reflexivity|].
      rewrite (digits_value_cons c d _ Hd I1), (digits_value_cons c d _ Hd Hs), I2, I3.
      cbn [Nat.sub].
      replace (Z.of_nat n) with (Z.of_nat (String.length s) + Z.of_nat (n - String.length s))%Z
        by lia.
      rewrite Z.pow_add_r by lia. ring.
Qed.

Open Scope string_scope.

(** *** A field of the table *)

Lemma coordinate_facts (z : Z) :
  (0 <= z < 32768)%Z ->
  float_trunc (F64.of_Z z) = Some z /\
  all_chars is_digit (str_of_Z z) = true /\
  1 <= String.length (str_of_Z z) <= 5 /\
  digits_value (str_of_Z z) = z.
Proof.
  intros Hz.
  pose proof (all_from_spec coordinate_checked (Z.to_nat 32768) 0 coordinates_checked z) as H.
  specialize (H ltac:(lia)). unfold coordinate_checked in H. cbv zeta in H.
  rewrite !andb_true_iff, !Nat.leb_le, Z.eqb_eq in H.
  destruct H as ((((H1 & H2) & H3) & H4) & H5).
  destruct (float_trunc (F64.of_Z z)) as [v|]; [|discriminate].
  apply Z.eqb_eq in H1. subst v. auto.
Qed.

Lemma fmt_18e_of_digits (z : Z) (lead : ascii) (rest : string) :
  float_trunc (F64.of_Z z) = Some z -> (0 <= z)%Z ->
  str_of_Z z = String lead rest ->
  fmt_18e z
  = String lead (String "." (pad_right 18 rest
                             ++ String "e" (String "+" (exponent_text (String.length rest))))).
Proof.
  intros Ht Hz Hs. unfold fmt_18e. rewrite Ht. cbv zeta.
  rewrite Z.abs_eq by assumption. rewrite Hs.
  destruct (Z.ltb_spec z 0) as [?|_]; [lia|].
  cbn [String.length Nat.sub append]. rewrite Nat.sub_0_r. reflexivity.
Qed.

Lemma lstrip_none (f : ascii -> bool) (s : string) :
  all_chars (fun c => negb (f c)) s = true -> lstrip f s = s.
Proof.
  destruct s as [|c s]; cbn [all_chars lstrip]; [reflexivity|].
  rewrite andb_true_iff. intros [H _]. apply negb_true_iff in H. now rewrite H.
Qed.

Lemma rstrip_none (f : ascii -> bool) (s : string) :
  all_chars (fun c => negb (f c)) s = true -> rstrip f s = s.
Proof.
  induction s as [|c s IH]; cbn [all_chars rstrip]; [reflexivity|].
  rewrite andb_true_iff. intros [H Hs]. rewrite (IH Hs).
  apply negb_true_iff in H. rewrite H. now destruct s.
Qed.

Lemma strip_none (f : ascii -> bool) (s : string) :
  all_chars (fun c => negb (f c)) s = true -> strip f s = s.
Proof. intros H. unfold strip. now rewrite (lstrip_none f s H), rstrip_none. Qed.

Lemma before_comment_none (s : string) :
  has_char "#" s = false -> before_comment s = s.
Proof.
  induction s as [|c s IH]; cbn [has_char before_comment]; [reflexivity|].
  rewrite orb_false_iff. intros [H Hs]. now rewrite H, IH.
Qed.

Lemma universal_newlines_none (s : string) :
  has_char (ascii_of_nat 13) s = false -> universal_newlines s = s.
Proof.
  induction s as [|c s IH]; cbn [has_char universal_newlines]; [reflexivity|].
  rewrite orb_false_iff. intros [H Hs]. now rewrite H, IH.
Qed.

Lemma index_none (c1 c2 : ascii) (s : string) :
  has_char c2 s = false -> index 0 (String c1 (String c2 EmptyString)) s = None.
Proof.
  induction s as [|b s IH]; [reflexivity|].
  cbn [has_char]. rewrite orb_false_iff. intros [Hb Hs].
  cbn [index prefix]. rewrite (IH Hs).
  destruct (ascii_dec c1 b) as [_|_]; [|reflexivity].
  destruct s as [|b' s]; [reflexivity|]. cbn [prefix].
  destruct (ascii_dec c2 b') as [<-|_]; [|reflexivity].
  cbn [has_char] in Hs. now rewrite Ascii.eqb_refl in Hs.
Qed.

Lemma digit_char (c : ascii) :
  is_digit c = true ->
  (forall s, read_sign (String c s) = (false, String c s)) /\
  Ascii.eqb (lower_char c) "i" = false /\ Ascii.eqb (lower_char c) "n" = false.
Proof.
  destruct c as [[] [] [] [] [] [] [] []]; try discriminate; intros _;
    (split; [reflexivity | split; reflexivity]).
Qed.

Lemma numeral_char_not_space (c : ascii) :
  numeral_char c = true -> negb (is_space c) = true.
Proof.
  destruct c as [[] [] [] [] [] [] [] []]; try reflexivity; discriminate.
Qed.

Lemma exponent_read (k : nat) :
  k <= 4 -> read_digits true (exponent_text k) 0%Z 0 = (Z.of_nat k, 2, EmptyString).
Proof.
  intros Hk. destruct k as [|[|[|[|[|k]]]]]; try lia; reflexivity.
Qed.

Lemma parse_decimal_of_field (lead : ascii) (rest : string) :
  all_chars is_digit (String lead rest) = true -> String.length rest <= 4 ->
  parse_decimal
    (String lead (String "." (pad_right 18 rest
                              ++ String "e" (String "+" (exponent_text (String.length rest))))))
  = Ok ((digits_value (String lead rest) * 10 ^ (18 - Z.of_nat (String.length rest)))%Z,
        (Z.of_nat (String.length rest) - 18)%Z).
Proof.
  intros Hs Hk. pose proof Hs as Hs'. cbn [all_chars] in Hs'.
  apply andb_true_iff in Hs'. destruct Hs' as [Hc Hr].
  destruct (is_digit_value lead Hc) as (d & Hd & _).
  destruct (pad_right_digits_run 18 rest ltac:(lia) Hr) as (P1 & P2 & P3).
  unfold parse_decimal. rewrite (proj1 (digit_char lead Hc)).
  change (String lead (String "." ?x))
    with (String lead EmptyString ++ String "." x).
  rewrite (read_digits_app (String lead EmptyString)) by (cbn [all_chars]; now rewrite Hc).
  rewrite read_digits_stop by (split; reflexivity).
  rewrite (read_digits_app (pad_right 18 rest) P1).
  rewrite read_digits_stop by (split; reflexivity).
  rewrite P2. cbn [String.length Nat.add Nat.eqb Ascii.eqb Bool.eqb orb andb read_sign].
  rewrite (exponent_read _ Hk). cbn [Nat.eqb].
  apply f_equal. apply f_equal2; [|lia].
  rewrite P3, (digits_value_cons lead d rest Hd Hr),
    (digits_value_cons lead d EmptyString Hd eq_refl).
  cbn [String.length]. change (digits_value EmptyString) with 0%Z.
  change (Z.of_nat 0) with 0%Z. change (Z.of_nat 1) with 1%Z.
  replace (Z.of_nat 18) with (Z.of_nat (String.length rest)
                              + Z.of_nat (18 - String.length rest))%Z by lia.
  replace (18 - Z.of_nat (String.length rest))%Z
    with (Z.of_nat (18 - String.length rest)) by lia.
  rewrite Z.pow_add_r by lia. ring.
Qed.

Lemma double_of_scaled (z : Z) (k : Z) :
  (0 <= k <= 4)%Z -> double_of_decimal ((z * 10 ^ (18 - k))%Z, (k - 18)%Z) = F64.of_Z z.
Proof.
  intros Hk. unfold double_of_decimal.
  destruct (Z.leb_spec 0 (k - 18)) as [?|_]; [lia|].
  replace (- (k - 18))%Z with (18 - k)%Z by lia.
  assert (P : (0 < 10 ^ (18 - k))%Z) by (apply Z.pow_pos_nonneg; lia).
  rewrite Z.mod_mul by lia. cbn [Z.eqb]. now rewrite Z.div_mul by lia.
Qed.

(** The field that [savetxt] writes for a coordinate below 2^15 is read
    by [np.loadtxt] as the double of the coordinate, which the cast to
    [int16] gives back. *)
Lemma field_round_trip (n : nat) :
  (Z.of_nat n < 32768)%Z ->
  floatconv (fmt_18e (Z.of_nat n)) = Ok (F64.of_Z (Z.of_nat n)) /\
  float_as_int16 (F64.of_Z (Z.of_nat n)) = Z.of_nat n.
Proof.
  intros Hn. set (z := Z.of_nat n) in *.
  destruct (coordinate_facts z ltac:(lia)) as (Ht & Hd & Hl & Hv).
  split.
  - unfold floatconv, contains.
    rewrite (index_none "0" "x") by (apply fmt_18e_no; reflexivity).
    unfold py_float.
    rewrite strip_none
      by (apply (all_chars_weaken numeral_char);
          [apply numeral_char_not_space | apply fmt_18e_chars]).
    destruct (str_of_Z z) as [|lead rest] eqn:Hs; [cbn in Hl; lia|].
    rewrite (fmt_18e_of_digits z lead rest Ht ltac:(lia) Hs).
    pose proof Hd as Hd'. cbn [all_chars] in Hd'. apply andb_true_iff in Hd'.
    destruct (digit_char lead (proj1 Hd')) as (R & Li & Ln).
    rewrite R. cbn [lower String.eqb]. rewrite Li, Ln. cbn [orb].
    rewrite parse_decimal_of_field; [|exact Hd | cbn [String.length] in Hl; lia].
    cbn [bind]. rewrite Hv. f_equal. apply double_of_scaled.
    cbn [String.length] in Hl. lia.
  - unfold float_as_int16. rewrite Ht.
    destruct (Z.leb_spec (- 2 ^ 31) z); [|lia].
    destruct (Z.ltb_spec z (2 ^ 31)); [|lia].
    cbn [andb]. unfold wrap_int16. rewrite Z.mod_small; lia.
Qed.

Open Scope string_scope.

(** *** The lines and the rows of the table *)

Lemma field_read (n : nat) :
  (Z.of_nat n < 32768)%Z ->
  floatconv (fmt_18e (Z.of_nat n)) = Ok (field_value (fmt_18e (Z.of_nat n))) /\
  float_as_int16 (field_value (fmt_18e (Z.of_nat n))) = Z.of_nat n.
Proof.
  intros Hn. destruct (field_round_trip n Hn) as [H1 H2].
  unfold field_value. rewrite H1. split; [reflexivity | exact H2].
Qed.

Lemma table_line_chars (p : nat * nat) : all_chars line_char (table_line p) = true.
Proof.
  unfold table_line. rewrite !all_chars_app.
  assert (W : forall z, all_chars line_char (fmt_18e z) = true).
  { intros z. apply (all_chars_weaken numeral_char); [|apply fmt_18e_chars].
    intros c Hc. unfold line_char. now rewrite Hc. }
  rewrite !W. reflexivity.
Qed.

Lemma line_char_not_newline (c : ascii) : line_char c = true -> negb (is_newline c) = true.
Proof.
  destruct c as [[] [] [] [] [] [] [] []]; try reflexivity; discriminate.
Qed.

Lemma table_line_kept (p : nat * nat) :
  strip is_newline (before_comment (table_line p)) = table_line p.
Proof.
  rewrite before_comment_none.
  - apply strip_none. apply (all_chars_weaken line_char); [|apply table_line_chars].
    apply line_char_not_newline.
  - apply (all_chars_has_char line_char); [reflexivity | apply table_line_chars].
Qed.

Lemma table_line_not_empty (p : nat * nat) :
  negb (String.eqb (table_line p) EmptyString) = true.
Proof.
  destruct (String.eqb_spec (table_line p) EmptyString) as [E|_]; [|reflexivity].
  pose proof (table_line_fields p) as H. rewrite E in H. discriminate.
Qed.

Lemma table_text_no (c : ascii) (l : list (nat * nat)) :
  line_char c = false -> Ascii.eqb (ascii_of_nat 10) c = false ->
  has_char c (String.concat EmptyString (map (fun p => table_line p ++ nl) l)) = false.
Proof.
  intros Hc Hn. induction l as [|p l IH]; [reflexivity|].
  cbn [map]. rewrite concat_empty_cons, !has_char_app, IH.
  rewrite (all_chars_has_char line_char c _ Hc (table_line_chars p)).
  cbn [nl has_char]. now rewrite Hn.
Qed.

Lemma loadtxt_lines_of_table (l : list (nat * nat)) :
  loadtxt_lines (String.concat EmptyString (map (fun p => table_line p ++ nl) l))
  = map (fun p => [fmt_18e (Z.of_nat (fst p)); fmt_18e (Z.of_nat (snd p))]) l.
Proof.
  unfold loadtxt_lines.
  rewrite universal_newlines_none by (apply table_text_no; reflexivity).
  rewrite lines_of_table, map_app, filter_app. cbn [map filter before_comment strip lstrip
    rstrip String.eqb negb]. rewrite app_nil_r.
  induction l as [|p l IH]; [reflexivity|].
  cbn [map filter]. rewrite table_line_kept, table_line_not_empty. cbn [map].
  now rewrite table_line_fields, IH.
Qed.

Lemma rows_of_two_fields (l : list (nat * nat)) :
  (forall p, In p l -> (Z.of_nat (fst p) < 32768)%Z /\ (Z.of_nat (snd p) < 32768)%Z) ->
  mapM (fun vals => if Nat.eqb (List.length vals) 2 then mapM floatconv vals
                    else Raise ValueError)
       (map (fun p => [fmt_18e (Z.of_nat (fst p)); fmt_18e (Z.of_nat (snd p))]) l)
  = Ok (map (fun p => [field_value (fmt_18e (Z.of_nat (fst p)));
                       field_value (fmt_18e (Z.of_nat (snd p)))]) l).
Proof.
  intros Hl.
  replace (map (fun p => [field_value (fmt_18e (Z.of_nat (fst p)));
                          field_value (fmt_18e (Z.of_nat (snd p)))]) l)
    with (map (map field_value)
              (map (fun p => [fmt_18e (Z.of_nat (fst p)); fmt_18e (Z.of_nat (snd p))]) l))
    by (rewrite map_map; reflexivity).
  apply mapM_ok.
  intros vals Hv. apply in_map_iff in Hv. destruct Hv as (p & <- & Hp).
  destruct (Hl p Hp) as [H1 H2]. cbn [List.length Nat.eqb mapM map].
  rewrite (proj1 (field_read _ H1)), (proj1 (field_read _ H2)).
  reflexivity.
Qed.

Lemma loadtxt_rows_of_table (l : list (nat * nat)) :
  (forall p, In p l -> (Z.of_nat (fst p) < 32768)%Z /\ (Z.of_nat (snd p) < 32768)%Z) ->
  r <- loadtxt_rows (map (fun p => [fmt_18e (Z.of_nat (fst p)); fmt_18e (Z.of_nat (snd p))]) l) ;;
  Ok (map (map float_as_int16) r)
  = Ok (point_rows l).
Proof.
  intros Hl.
  assert (E : loadtxt_rows (map (fun p => [fmt_18e (Z.of_nat (fst p));
                                           fmt_18e (Z.of_nat (snd p))]) l)
              = mapM (fun vals => if Nat.eqb (List.length vals) 2 then mapM floatconv vals
                                  else Raise ValueError)
                     (map (fun p => [fmt_18e (Z.of_nat (fst p));
                                     fmt_18e (Z.of_nat (snd p))]) l))
    by (destruct l; reflexivity).
  rewrite E, (rows_of_two_fields l Hl). cbn [bind]. f_equal. unfold point_rows.
  rewrite map_map. apply map_ext_in.
  intros p Hp. destruct (Hl p Hp) as [H1 H2]. cbn [map].
  now rewrite (proj2 (field_read _ H1)), (proj2 (field_read _ H2)).
Qed.

(** X10. The table that [np.savetxt] writes for the accepted candidates is
    read back by [np.loadtxt(...).astype(np.int16)] with the same rows
    when there are at least two candidates and every coordinate is below
    2^15; the table of a single candidate comes back as a 1-D array of two
    numbers, and the empty table as an empty 1-D array. *)
Theorem table_is_read_back (l : list (nat * nat)) :
  (forall p, In p l -> (Z.of_nat (fst p) < 32768)%Z /\ (Z.of_nat (snd p) < 32768)%Z) ->
  (text <- savetxt (data (table_of_points l)) ;; loadtxt_int16 text)
  = Ok (mk_int_array Int16
          match l with
          | [] => Arr1 []
          | [p] => Arr1 [Z.of_nat (fst p); Z.of_nat (snd p)]
          | _ => Arr2 (point_rows l)
          end).
Proof.
  intros Hl. rewrite savetxt_points. cbn [bind]. unfold loadtxt_int16.
  rewrite loadtxt_lines_of_table.
  pose proof (loadtxt_rows_of_table l Hl) as H.
  destruct (loadtxt_rows _) as [r|e]; cbn [bind] in *; [|discriminate].
  injection H as ->.
  destruct l as [|p [|q l]]; reflexivity.
Qed.

(** X10 (example). A table of two candidates. *)
Lemma table_example :
  (forall p, In p [(3, 4); (500, 4000)] -> (Z.of_nat (fst p) < 32768)%Z /\ (Z.of_nat (snd p) < 32768)%Z) /\
  (text <- savetxt (data (table_of_points [(3, 4); (500, 4000)])) ;; loadtxt_int16 text)
  = Ok (mk_int_array Int16 (Arr2 [[3; 4]; [500; 4000]]%Z)).
Proof.
  assert (Hl : forall p, In p [(3, 4); (500, 4000)] -> (Z.of_nat (fst p) < 32768)%Z /\ (Z.of_nat (snd p) < 32768)%Z).
  { intros p [<-|[<-|[]]]; cbn [fst snd]; split; reflexivity. }
  apply conj; [exact Hl|].
  exact (table_is_read_back [(3, 4); (500, 4000)] Hl).
Defined.

Open Scope string_scope.

(** ** The table on disk, read by a later run *)

Section CachedTable.

Variables SIZE RADIUS : nat.
Variable gaussian_filter_at : array2 spec_float -> nat -> nat -> nat -> spec_float.
Variable grey_dilation_at : array2 spec_float -> nat * nat -> nat -> nat -> spec_float.
Variable grey_erosion_at : array2 spec_float -> nat * nat -> nat -> nat -> spec_float.
Variable color : Z * Z * Z.

Local Abbreviation propose :=
  (local_minima_generate_points SIZE RADIUS gaussian_filter_at
     grey_dilation_at grey_erosion_at).
Local Abbreviation candidates :=
  (candidate_stage SIZE RADIUS gaussian_filter_at grey_dilation_at grey_erosion_at).

(** X11. When the table on disk is the one that [np.savetxt] wrote for at
    least two accepted candidates with coordinates below 2^15, a later
    run obtains the same candidates from it without calling the
    classifier, and its output stage writes what the output stage of the
    earlier run wrote for them. *)
Theorem cached_table_gives_the_same_outputs (arr : array2 Z) (model : classifier)
    (d : folder) (calls : batches) (l : list (nat * nat)) (text : string) :
  2 <= List.length l ->
  (forall p, In p l -> (Z.of_nat (fst p) < 32768)%Z /\ (Z.of_nat (snd p) < 32768)%Z) ->
  savetxt (data (table_of_points l)) = Ok text ->
  lookup "BoutonCount.csv" d = Some (File (Text text)) ->
  exists true_cells,
    candidates arr model d calls = (Ok true_cells, calls) /\
    data true_cells = data (table_of_points l) /\
    forall shape oft d',
      output_stage color shape true_cells oft d'
      = output_stage color shape (table_of_points l) oft d'.
Proof.
  intros Hlen Hl Hs Hd.
  assert (R : loadtxt_int16 text = Ok (mk_int_array Int16 (Arr2 (point_rows l)))).
  { rewrite savetxt_points in Hs. injection Hs as <-.
    unfold loadtxt_int16. rewrite loadtxt_lines_of_table.
    pose proof (loadtxt_rows_of_table l Hl) as H.
    destruct (loadtxt_rows _) as [r|e]; cbn [bind] in *; [|discriminate].
    injection H as ->.
    destruct l as [|p [|q l]]; cbn [List.length] in Hlen; try lia; reflexivity. }
  rewrite (candidate_stage_cached SIZE RADIUS gaussian_filter_at grey_dilation_at
             grey_erosion_at arr model d calls)
    by (unfold path_exists; now rewrite Hd).
  rewrite Hd, R.
  eexists. split; [reflexivity|]. split; [reflexivity|].
  intros shape oft d'. reflexivity.
Qed.

(** X13. Without a table on disk, the candidate stage hands the patches of
    all proposed candidates to the classifier in one call; when the
    classifier answers with one row of scores per patch, verification
    does not fail, and the accepted candidates are proposed candidates
    with a score above the threshold, in the order of the proposal. *)
Theorem fresh_section_is_classified_once (arr : array2 Z) (model : classifier)
    (d : folder) (calls : batches) (mask : option (array2 bool))
    (X : list (array2 spec_float)) (COMs : list (nat * nat)) :
  path_exists "BoutonCount.csv" d = false ->
  load_mask arr d = Ok mask ->
  propose arr mask = Ok (X, COMs) ->
  shape0 (model X) = List.length X -> 0 < shape1 (model X) ->
  exists accepted_COMs,
    candidates arr model d calls = (Ok (table_of_points accepted_COMs), (calls ++ [X])%list) /\
    accepted_COMs
    = map fst (filter (fun cs => above_threshold (snd cs))
                      (combine COMs (score_column (model X)))) /\
    forall p, In p accepted_COMs -> In p COMs.
Proof.
  intros Hcsv Hmask Hp Hn Hk.
  pose proof (propose_lengths SIZE RADIUS gaussian_filter_at grey_dilation_at
                grey_erosion_at arr mask X COMs Hp) as Hlen.
  unfold candidate_stage. rewrite Hcsv, Hmask. cbn [bind]. rewrite Hp.
  rewrite (accepted_filter COMs (model X)) by (congruence || assumption).
  cbn [bind]. eexists. split; [reflexivity|]. split; [reflexivity|].
  intros p Hin. apply in_map_iff in Hin. destruct Hin as ([q s] & <- & Hq).
  apply filter_In in Hq. destruct Hq as [Hq _]. cbn [fst].
  exact (in_combine_l _ _ _ _ Hq).
Qed.

End CachedTable.

(** X11 (example). The section with two dark pixels is run once with the
    table requested; the next run reads the two candidates back. *)
Lemma cached_table_example :
  2 <= List.length [(2, 2); (5, 5)] /\
  (forall p, In p [(2, 2); (5, 5)] ->
     (Z.of_nat (fst p) < 32768)%Z /\ (Z.of_nat (snd p) < 32768)%Z) /\
  (text <- savetxt (data (table_of_points [(2, 2); (5, 5)])) ;; Ok (Some text))
    = Ok (text_of "BoutonCount.csv" two_spots_cached) /\
  exists true_cells,
    fst (candidate_stage 2 1 Scipy.unsmoothed_at Scipy.grey_dilation_at
           Scipy.grey_erosion_at two_spots reject_all two_spots_cached [])
      = Ok true_cells /\
    data true_cells = Arr2 [[2; 2]; [5; 5]]%Z.
Proof.
  assert (Hl : forall p, In p [(2, 2); (5, 5)] ->
                 (Z.of_nat (fst p) < 32768)%Z /\ (Z.of_nat (snd p) < 32768)%Z).
  { intros p [<-|[<-|[]]]; cbn [fst snd]; split; reflexivity. }
  assert (Ht : exists text, savetxt (data (table_of_points [(2, 2); (5, 5)])) = Ok text /\
                 lookup "BoutonCount.csv" two_spots_cached = Some (File (Text text))).
  { eexists. split; vm_compute; reflexivity. }
  apply conj; [exact (le_n 2)|]. apply conj; [exact Hl|].
  apply conj; [vm_compute; reflexivity|].
  destruct Ht as (text & Hs & Hd).
  pose proof (cached_table_gives_the_same_outputs 2 1 Scipy.unsmoothed_at
                Scipy.grey_dilation_at Scipy.grey_erosion_at (255, 0, 0)%Z
                two_spots reject_all two_spots_cached [] [(2, 2); (5, 5)] text
                (le_n 2) Hl Hs Hd) as H.
  destruct H as (tc & Hc & Hdata & _).
  exists tc. apply conj; [now rewrite Hc | exact Hdata].
Defined.

(** X13 (example). The section with two dark pixels and a classifier
    that accepts everything. *)
Lemma fresh_section_example :
  path_exists "BoutonCount.csv" two_spots_section = false /\
  load_mask two_spots two_spots_section = Ok None /\
  exists X,
    local_minima_generate_points 2 1 Scipy.unsmoothed_at Scipy.grey_dilation_at
      Scipy.grey_erosion_at two_spots None = Ok (X, [(2, 2); (5, 5)]) /\
    candidate_stage 2 1 Scipy.unsmoothed_at Scipy.grey_dilation_at
      Scipy.grey_erosion_at two_spots accept_all two_spots_section []
    = (Ok (table_of_points [(2, 2); (5, 5)]), [X]).
Proof.
  apply conj; [reflexivity|]. apply conj; [reflexivity|].
  destruct (local_minima_generate_points 2 1 Scipy.unsmoothed_at Scipy.grey_dilation_at
              Scipy.grey_erosion_at two_spots None) as [[X COMs]|e] eqn:Hp.
  - assert (HC : COMs = [(2, 2); (5, 5)]).
    { pose proof (f_equal proposed Hp) as HP. cbn [proposed bind snd] in HP.
      assert (HE : proposed (local_minima_generate_points 2 1 Scipy.unsmoothed_at
                    Scipy.grey_dilation_at Scipy.grey_erosion_at two_spots None)
                   = Ok [(2, 2); (5, 5)]) by (vm_compute; reflexivity).
      rewrite HE in HP. now injection HP as <-. }
    subst COMs. exists X. apply conj; [reflexivity|].
    pose proof (propose_lengths 2 1 Scipy.unsmoothed_at Scipy.grey_dilation_at
                  Scipy.grey_erosion_at two_spots None X [(2, 2); (5, 5)] Hp) as Hlen.
    pose proof (fresh_section_is_classified_once 2 1 Scipy.unsmoothed_at
                  Scipy.grey_dilation_at Scipy.grey_erosion_at
                  two_spots accept_all two_spots_section [] None X [(2, 2); (5, 5)]
                  eq_refl eq_refl Hp eq_refl (le_n 1)) as H.
    destruct H as (acc & Hc & Ha & _).
    rewrite Hc. cbn [List.app]. f_equal. f_equal. f_equal. rewrite Ha.
    unfold score_column, accept_all. cbn [shape0 item]. rewrite Hlen.
    vm_compute. reflexivity.
  - exfalso.
    assert (HE : proposed (local_minima_generate_points 2 1 Scipy.unsmoothed_at
                  Scipy.grey_dilation_at Scipy.grey_erosion_at two_spots None)
                 = Ok [(2, 2); (5, 5)]) by (vm_compute; reflexivity).
    rewrite Hp in HE. discriminate.
Defined.

Open Scope string_scope.

(** ** The vector document of a table of points *)

Lemma render_svg_as_loop (l2 : list (nat * nat)) :
  forall (l1 : list (nat * nat)) (s : CreateSVG),
    for_each (fun i svg =>
                a <- nd_item2 (data (table_of_points (l1 ++ l2))) i 1 ;;
                b <- nd_item2 (data (table_of_points (l1 ++ l2))) i 0 ;;
                Ok (CreateSVG_add_symbol svg (a, b)))
             (seq (List.length l1) (List.length l2)) s
    = Ok (mk_CreateSVG (output_svgname s)
            (strings s ++ map (fun p => circle (Z.of_nat (snd p)) (Z.of_nat (fst p))) l2)).
Proof.
  induction l2 as [|p l2 IH]; intros l1 s; cbn [List.length seq for_each map].
  - rewrite app_nil_r. now destruct s.
  - destruct (nd_item2_points (l1 ++ p :: l2) (List.length l1)) as [E0 E1].
    { rewrite length_app. cbn [List.length]. lia. }
    rewrite E0, E1. cbn [bind]. rewrite nth_middle.
    specialize (IH (l1 ++ [p])%list (CreateSVG_add_symbol s (Z.of_nat (snd p), Z.of_nat (fst p)))).
    rewrite <- app_assoc, length_app in IH. cbn [List.length List.app] in IH.
    rewrite Nat.add_1_r in IH. rewrite IH.
    cbn [CreateSVG_add_symbol output_svgname strings fst snd].
    now rewrite <- app_assoc.
Qed.

(** X12. The vector document written for a table of accepted candidates is
    the header with the view box [0 0 width height], one circle per
    candidate in the order of the table, with the column of the candidate
    as [cx] and its row as [cy], and the closing tag; rendering never
    fails. *)
Theorem vector_document_lists_the_candidates (shape : nat * nat)
    (l : list (nat * nat)) :
  exists s,
    render_svg shape (table_of_points l) (List.length l) = Ok s /\
    output_svgname s = "Boutons.svg" /\
    strings s = (strings (CreateSVG_init "Boutons.svg" shape)
                 ++ map (fun p => circle (Z.of_nat (snd p)) (Z.of_nat (fst p))) l)%list /\
    List.length (strings s) = 1 + List.length l /\
    CreateSVG_document s
    = String.concat EmptyString
        (strings (CreateSVG_init "Boutons.svg" shape)
         ++ map (fun p => circle (Z.of_nat (snd p)) (Z.of_nat (fst p))) l
         ++ ["</svg>"])%list.
Proof.
  unfold render_svg, for_range.
  pose proof (render_svg_as_loop l [] (CreateSVG_init "Boutons.svg" shape)) as E.
  cbn [List.app List.length] in E. rewrite E.
  eexists. split; [reflexivity|]. cbn [output_svgname strings].
  split; [reflexivity|]. split; [reflexivity|]. split.
  - rewrite length_app, length_map. reflexivity.
  - unfold CreateSVG_document. cbn [strings]. now rewrite <- app_assoc.
Qed.

(** ** Colour pictures *)

Lemma brightest_checked :
  all_from (fun mx => (scaled_sample mx mx =? 255)%Z || (scaled_sample mx mx =? 254)%Z)
           1 1020 = true.
Proof. vm_compute. reflexivity. Qed.

(** X14. [file_to_array] turns a colour picture into one grey value per
    pixel, the sum of the channels scaled by [255 / max] in double
    precision and truncated: the brightest pixel of a picture with 8-bit
    channels (at most four of them) becomes 255 or, where the product
    falls just short of 255, 254; a picture that is black everywhere
    becomes 0 everywhere, without any error. *)
Theorem colour_picture_is_scaled (name : string) (d : folder) (a : array2 (list Z))
    (mx : Z) :
  lookup name d = Some (File (Picture (Channels a))) ->
  reduce Z.max (amap sum_Z a) = Ok mx -> (0 <= mx <= 1020)%Z ->
  exists out,
    file_to_array name d = Ok out /\
    shape0 out = shape0 a /\ shape1 out = shape1 a /\
    (forall i j, item out i j = scaled_sample mx (sum_Z (item a i j))) /\
    (forall i j, sum_Z (item a i j) = mx -> (0 < mx)%Z ->
       item out i j = 255%Z \/ item out i j = 254%Z) /\
    (mx = 0%Z -> forall i j, item out i j = 0%Z).
Proof.
  intros Hl Hmax Hmx. unfold file_to_array. rewrite Hl, Hmax. cbn [bind].
  eexists. split; [reflexivity|]. cbn [amap shape0 shape1 item].
  split; [reflexivity|]. split; [reflexivity|]. split; [reflexivity|]. split.
  - intros i j -> Hpos. fold (scaled_sample mx mx).
    pose proof (all_from_spec _ 1020 1%Z brightest_checked mx ltac:(lia)) as H.
    cbv beta in H. apply orb_true_iff in H. rewrite !Z.eqb_eq in H. exact H.
  - intros -> i j.
    destruct (F64.of_Z (sum_Z (item a i j))) as [s| s| |s m e]; reflexivity.
Qed.

(** X14 (example). A colour picture whose largest channel sum is 25: the
    brightest pixel becomes 254. *)
Lemma colour_picture_example :
  lookup "Image.png" dim_picture
    = Some (File (Picture (Channels (of_rows [] [[[10; 10; 5]; [1; 2; 3]]]%Z)))) /\
  reduce Z.max (amap sum_Z (of_rows [] [[[10; 10; 5]; [1; 2; 3]]]%Z)) = Ok 25%Z /\
  (0 <= 25 <= 1020)%Z /\
  exists out, file_to_array "Image.png" dim_picture = Ok out /\
              item out 0 0 = 254%Z /\ item out 0 1 = 61%Z.
Proof.
  assert (Hm : reduce Z.max (amap sum_Z (of_rows [] [[[10; 10; 5]; [1; 2; 3]]]%Z)) = Ok 25%Z)
    by reflexivity.
  assert (Hb : (0 <= 25 <= 1020)%Z) by (split; discriminate).
  apply conj; [reflexivity|]. apply conj; [exact Hm|]. apply conj; [exact Hb|].
  pose proof (colour_picture_is_scaled "Image.png" dim_picture _ 25 eq_refl Hm Hb) as H.
  destruct H as (out & Hf & _ & _ & Hi & _).
  exists out. apply conj; [exact Hf|].
  apply conj; rewrite Hi; vm_compute; reflexivity.
Defined.
